(** * HackBench: target gating, session handling and scenario sequencing

    A shallow embedding of the orchestration core of the tool
    (core/target_config.py, core/http_client.py, core/auth.py and the three
    scenario modules) together with the properties its specification
    states about it.

    Conventions of the embedding.
    - A Python [str] is the sequence of its code points; the embedding
      keeps the code points below 256, one [ascii] each.  On these
      [str.lower] and [str.strip] are as Python defines them: the letters
      A-Z and the Latin-1 capitals have a lower-case form, and white space
      is the twelve code points 9-13, 28-32, 133 and 160.
    - Python [int] is [Z].
    - An object's fields are a record; a method is a function of the
      record.  Methods that log, read the operator's answer or touch the
      network live in the monad [M] of section "Effects". *)

From Stdlib Require Import Bool Arith ZArith List Lia.
From Stdlib Require Import Strings.Ascii Strings.String Numbers.DecimalString.
Import ListNotations.

Open Scope list_scope.
Open Scope string_scope.

(* ================================================================== *)
(** * Strings as Python uses them *)
(* ================================================================== *)

Module PyStr.

(** [needle in hay] for two [str]. *)
Fixpoint contains (needle hay : string) : bool :=
  prefix needle hay ||
  match hay with
  | EmptyString => false
  | String _ hay' => contains needle hay'
  end.

(** [s.replace(old, new)] for a one-character [old]. *)
Fixpoint replace (old : ascii) (new : string) (s : string) : string :=
  match s with
  | EmptyString => EmptyString
  | String c s' =>
      if Ascii.eqb c old then new ++ replace old new s'
      else String c (replace old new s')
  end.

(** The lower-case form of one code point: A-Z, and the capitals
    U+00C0-U+00DE without the multiplication sign U+00D7, are 32 below
    their lower-case letters. *)
Definition lower_ascii (c : ascii) : ascii :=
  let n := nat_of_ascii c in
  if ((65 <=? n)%nat && (n <=? 90)%nat)
     || ((192 <=? n)%nat && (n <=? 222)%nat && negb (n =? 215)%nat)
  then ascii_of_nat (n + 32) else c.

(** [s.lower()]. *)
Fixpoint lower (s : string) : string :=
  match s with
  | EmptyString => EmptyString
  | String c s' => String (lower_ascii c) (lower s')
  end.

(** [s.lstrip(c)] for a one-character set. *)
Fixpoint lstrip (c : ascii) (s : string) : string :=
  match s with
  | EmptyString => EmptyString
  | String a s' => if Ascii.eqb a c then lstrip c s' else s
  end.

Fixpoint rev (s : string) : string :=
  match s with
  | EmptyString => EmptyString
  | String a s' => rev s' ++ String a EmptyString
  end.

(** [s.rstrip(c)]. *)
Definition rstrip (c : ascii) (s : string) : string :=
  rev (lstrip c (rev s)).

(** [c.isspace()]: the characters [str.strip()] removes. *)
Definition is_space (c : ascii) : bool :=
  let n := nat_of_ascii c in
  ((9 <=? n)%nat && (n <=? 13)%nat) || (n =? 32)%nat
  || ((28 <=? n)%nat && (n <=? 31)%nat)
  || (n =? 133)%nat || (n =? 160)%nat.

Fixpoint lstrip_ws (s : string) : string :=
  match s with
  | EmptyString => EmptyString
  | String a s' => if is_space a then lstrip_ws s' else s
  end.

(** [s.strip()]. *)
Definition strip (s : string) : string :=
  rev (lstrip_ws (rev (lstrip_ws s))).

(** [s[:n]]. *)
Definition take (n : nat) (s : string) : string := substring 0 n s.

(** [str(n)] and [f"{n}"] for an [int]. *)
Definition of_int (n : Z) : string := NilZero.string_of_int (Z.to_int n).

(** [x in xs] for a list of [str]. *)
Definition mem (x : string) (xs : list string) : bool :=
  existsb (String.eqb x) xs.

(** [n] copies of the character [c]. *)
Fixpoint repeat (c : ascii) (n : nat) : string :=
  match n with
  | O => EmptyString
  | S n' => String c (repeat c n')
  end.

End PyStr.

(** The no-break space, U+00A0: one character, which [str.strip] removes. *)
Definition NBSP : string := String (ascii_of_nat 160) EmptyString.

(** The capital E with an acute accent, U+00C9, and its lower-case form,
    U+00E9. *)
Definition E_ACUTE : string := String (ascii_of_nat 201) EmptyString.
Definition e_acute : string := String (ascii_of_nat 233) EmptyString.

(* ================================================================== *)
(** * The fragment of [re] the code uses *)
(* ================================================================== *)

Module Re.

(** Patterns: [^], a literal character (also an escaped one such as
    [\.]), a class [[lo-hi]], concatenation and alternation. *)
Inductive regex : Type :=
| Eps
| Bol
| Chr (c : ascii)
| Cls (lo hi : ascii)
| Cat (r1 r2 : regex)
| Alt (r1 r2 : regex).

Definition in_class (lo hi a : ascii) : bool :=
  (nat_of_ascii lo <=? nat_of_ascii a)%nat
  && (nat_of_ascii a <=? nat_of_ascii hi)%nat.

(** All the ways [r] matches at offset [pos], the subject from there on
    being [s]: the offsets and rests after the match, in the order a
    backtracking matcher tries them. *)
Fixpoint run (r : regex) (pos : nat) (s : string) : list (nat * string) :=
  match r with
  | Eps => [(pos, s)]
  | Bol => if (pos =? 0)%nat then [(pos, s)] else []
  | Chr c =>
      match s with
      | String a s' => if Ascii.eqb a c then [(S pos, s')] else []
      | EmptyString => []
      end
  | Cls lo hi =>
      match s with
      | String a s' => if in_class lo hi a then [(S pos, s')] else []
      | EmptyString => []
      end
  | Cat r1 r2 => flat_map (fun ps => run r2 (fst ps) (snd ps)) (run r1 pos s)
  | Alt r1 r2 => (run r1 pos s ++ run r2 pos s)%list
  end.

(** [re.match(pattern, s)] is a match object (truthy) or [None]. *)
Definition re_match (r : regex) (s : string) : bool :=
  match run r 0 s with
  | [] => false
  | _ :: _ => true
  end.

(** A run of literal characters. *)
Fixpoint lit (w : string) : regex :=
  match w with
  | EmptyString => Eps
  | String c w' => Cat (Chr c) (lit w')
  end.

End Re.

(* ================================================================== *)
(** * core/target_config.py *)
(* ================================================================== *)

Module TargetConfig.

Import Re.

Record t : Type := mk {
  host : string;
  port : Z;
  use_https : bool;
  _confirmed : bool
}.

Definition ALLOWED_HOSTS : list string :=
  ["localhost"; "127.0.0.1"; "::1"; "0.0.0.0"].

(** [TargetConfig(host, port, use_https)]. *)
Definition init (host : string) (port : Z) (use_https : bool) : t :=
  mk host port use_https false.

Definition base_url (self : t) : string :=
  let scheme := if use_https self then "https" else "http" in
  if (port self =? 80)%Z || (port self =? 443)%Z
  then scheme ++ "://" ++ host self
  else scheme ++ "://" ++ host self ++ ":" ++ PyStr.of_int (port self).

(** The three patterns of [_is_private_ip]:
    [^10\.], [^172\.(1[6-9]|2[0-9]|3[0-1])\.] and [^192\.168\.]. *)
Definition private_patterns : list regex :=
  [ Cat Bol (lit "10.");
    Cat Bol
      (Cat (lit "172.")
         (Cat (Alt (Cat (Chr "1") (Cls "6" "9"))
                 (Alt (Cat (Chr "2") (Cls "0" "9"))
                      (Cat (Chr "3") (Cls "0" "1"))))
              (Chr ".")));
    Cat Bol (lit "192.168.") ].

Definition _is_private_ip (host : string) : bool :=
  existsb (fun pattern => re_match pattern host) private_patterns.

Definition is_safe_target (self : t) : bool :=
  if PyStr.mem (PyStr.lower (host self)) ALLOWED_HOSTS then true
  else if _is_private_ip (host self) then true
  else _confirmed self.

Definition confirm_target (self : t) : t :=
  mk (host self) (port self) (use_https self) true.

Definition get_dvwa_url (self : t) (path : string) : string :=
  let path := PyStr.lstrip "/" path in
  base_url self ++ "/" ++ path.

End TargetConfig.

(* ================================================================== *)
(** * Effects: exceptions, the log, the operator and the network *)
(* ================================================================== *)

(** A Python [dict] with [str] keys and values, in insertion order. *)
Definition dict : Type := list (string * string).

Fixpoint dict_get (d : dict) (k : string) : option string :=
  match d with
  | [] => None
  | (k', v) :: d' => if String.eqb k' k then Some v else dict_get d' k
  end.

(** The exceptions the code names or can meet.  [RequestException] stands
    for the whole hierarchy under [requests.exceptions.RequestException]
    (connection errors, timeouts, invalid URLs); [OtherError] for any other
    subclass of [Exception]. *)
Inductive exn : Type :=
| RequestException (msg : string)
| KeyboardInterrupt
| EOFError
| OtherError (msg : string).

(** [except Exception] catches everything but [KeyboardInterrupt]. *)
Definition is_Exception (e : exn) : bool :=
  match e with
  | KeyboardInterrupt => false
  | _ => true
  end.

Definition is_RequestException (e : exn) : bool :=
  match e with
  | RequestException _ => true
  | _ => false
  end.

(** [str(e)]. *)
Definition exn_str (e : exn) : string :=
  match e with
  | RequestException msg => msg
  | OtherError msg => msg
  | KeyboardInterrupt => ""
  | EOFError => ""
  end.

(** [requests.Response], with the attributes the code reads. *)
Record Response : Type := mkResponse {
  status_code : Z;
  url : string;
  text : string
}.

(** [Response.__bool__] is [Response.ok]: false exactly when
    [raise_for_status()] would raise, that is for a status in 400..599.
    This is what [if not response:] tests on a response object. *)
Definition Response_ok (r : Response) : bool :=
  negb ((400 <=? status_code r)%Z && (status_code r <? 600)%Z).

(** Truthiness of an [Optional[requests.Response]]. *)
Definition truthy (response : option Response) : bool :=
  match response with
  | None => false
  | Some r => Response_ok r
  end.

(** [if not response: fail] and otherwise the rest of the function, which
    then reads the response object. *)
Definition if_not {A} (response : option Response) (fail : A) (rest : Response -> A) : A :=
  match response with
  | Some r => if Response_ok r then rest r else fail
  | None => fail
  end.

(** [requests.Request(method, url, params, data)]. *)
Record Request : Type := mkRequest {
  method : string;
  req_url : string;
  params : option dict;
  data : option dict
}.

Inductive Level : Type := DEBUG | INFO | WARNING | ERROR.

(** One entry per call of a [DualLogger] method, with the arguments that
    identify it; long explanatory texts are kept by their name or their
    leading words. *)
Module logger.
Inductive Event : Type :=
| operational (message : string) (level : Level)
| educational (message : string)
| step (step_num : Z) (title : string)
| explain_success (what_happened : string)
| explain_failure (what_failed : string)
| payload (payload_text : string) (explanation : string)
| http_request (meth : string) (prepared_url : string) (fields : option dict)
| http_response (status : Z) (snippet : string).
End logger.

(** What [input()] does on one call. *)
Inductive Input : Type :=
| Line (s : string)
| Interrupt
| Eof.

(** The libraries and the outside world.  The target's behaviour is a
    function of the requests it has received so far, so a server with
    state (a guestbook, a session) is covered. *)
Record Env : Type := mkEnv {
  (** [Session.prepare_request]: the final URL, or an exception. *)
  prepare_request : Request -> string + exn;
  (** [Session.send]: a response, or an exception. *)
  transport : list Request -> Request -> Response + exn;
  (** [soup.find('input', {'name': n})] and then [.get('value')]. *)
  soup_find_input : string -> string -> option (option string);
  (** [soup.find('option', selected=True)] and then [.get('value')]. *)
  soup_find_selected_option : string -> option (option string);
  (** group 1 of [re.search(r'Security Level is currently: (\w+)', html, re.IGNORECASE)]. *)
  re_search_level : string -> option string;
  (** group 1 of [re.search(r'v([\d.]+)', html)]. *)
  re_search_version : string -> option string;
  (** [session.cookies.get(name)] after the requests sent so far: the
      value, none, or the message of the [CookieConflictError] of a jar
      that holds several cookies of that name. *)
  cookies_get : list Request -> string -> option string + string
}.

Record World : Type := mkWorld {
  wire : list Request;          (** requests handed to [Session.send], oldest first *)
  log : list logger.Event;          (** logger calls, oldest first *)
  stdin : list Input;           (** what the operator will answer *)
  recorded : list string;       (** URLs written by the request recorder *)
  session_headers : dict        (** [session.headers] *)
}.

Inductive Result (A : Type) : Type :=
| Val (a : A)
| Raise (e : exn).
Arguments Val {A} a.
Arguments Raise {A} e.

Definition M (A : Type) : Type := World -> Result A * World.

Definition ret {A} (a : A) : M A := fun w => (Val a, w).

Definition bind {A B} (c : M A) (k : A -> M B) : M B :=
  fun w =>
    match c w with
    | (Val a, w') => k a w'
    | (Raise e, w') => (Raise e, w')
    end.

Definition raise {A} (e : exn) : M A := fun w => (Raise e, w).

(** [try: c except <class> as e: handler(e)], the class given by [catches]. *)
Definition try_except {A} (c : M A) (catches : exn -> bool) (handler : exn -> M A) : M A :=
  fun w =>
    match c w with
    | (Val a, w') => (Val a, w')
    | (Raise e, w') => if catches e then handler e w' else (Raise e, w')
    end.

Declare Scope monad_scope.
Delimit Scope monad_scope with monad.
Notation "x <- c ;; k" := (bind c (fun x => k))
  (at level 61, c at next level, right associativity) : monad_scope.
Notation "c ;; k" := (bind c (fun _ => k))
  (at level 61, right associativity) : monad_scope.
Open Scope monad_scope.

(** A logger call. *)
Definition emit (e : logger.Event) : M unit :=
  fun w => (Val tt, mkWorld (wire w) (log w ++ [e])%list (stdin w) (recorded w) (session_headers w)).

(** [input(prompt)]; an exhausted input raises [EOFError]. *)
Definition input (prompt : string) : M string :=
  fun w =>
    match stdin w with
    | [] => (Raise EOFError, w)
    | i :: rest =>
        let w' := mkWorld (wire w) (log w) rest (recorded w) (session_headers w) in
        match i with
        | Line s => (Val s, w')
        | Interrupt => (Raise KeyboardInterrupt, w')
        | Eof => (Raise EOFError, w')
        end
    end.

Definition lift_sum {A} (r : A + exn) : M A :=
  match r with
  | inl a => ret a
  | inr e => raise e
  end.

(** [session.send(prepared)]: the request goes on the wire, and the
    outside world answers or the transport raises. *)
Definition session_send (env : Env) (request : Request) : M Response :=
  fun w =>
    let w' := mkWorld (wire w ++ [request])%list (log w) (stdin w) (recorded w) (session_headers w) in
    match transport env (wire w) request with
    | inl r => (Val r, w')
    | inr e => (Raise e, w')
    end.

(** [session.get(url)] and [session.post(url, data=...)]: prepare, then send. *)
Definition session_request (env : Env) (request : Request) : M Response :=
  _ <- lift_sum (prepare_request env request) ;;
  session_send env request.

Definition session_get (env : Env) (url : string) : M Response :=
  session_request env (mkRequest "GET" url None None).

Definition session_post (env : Env) (url : string) (data : dict) : M Response :=
  session_request env (mkRequest "POST" url None (Some data)).

(** [BurpRequestRecorder.record]: appends to its file; it swallows its own
    errors. *)
Definition record (prepared_url : string) : M unit :=
  fun w => (Val tt, mkWorld (wire w) (log w) (stdin w) (recorded w ++ [prepared_url])%list (session_headers w)).

(** [_get_user_approval], the same in the three scenario modules. *)
Definition _get_user_approval (prompt : string) : M bool :=
  try_except
    (answer <- input prompt ;;
     let response := PyStr.lower (PyStr.strip answer) in
     emit (logger.operational ("User response to '" ++ prompt ++ "': " ++ response) INFO) ;;
     ret (PyStr.mem response ["y"; "yes"]))
    (fun e => match e with KeyboardInterrupt | EOFError => true | _ => false end)
    (fun _ => emit (logger.operational "User interrupted" INFO) ;; ret false).

(** [interactive and not self._get_user_approval(prompt)]. *)
Definition declined (interactive : bool) (prompt : string) : M bool :=
  if interactive then (b <- _get_user_approval prompt ;; ret (negb b)) else ret false.

(* ================================================================== *)
(** * core/http_client.py *)
(* ================================================================== *)

Module HTTPClient.

Record t : Type := mk {
  request_recorder : bool     (** whether a recorder was supplied *)
}.

(** [method.upper()], one character at a time: the letters a-z and the
    Latin-1 small letters that have a capital below 256.  [_send] is called
    with GET and POST only. *)
Definition upper_ascii (c : ascii) : ascii :=
  let n := nat_of_ascii c in
  if ((97 <=? n)%nat && (n <=? 122)%nat)
     || ((224 <=? n)%nat && (n <=? 254)%nat && negb (n =? 247)%nat)
  then ascii_of_nat (n - 32) else c.

Fixpoint upper (s : string) : string :=
  match s with
  | EmptyString => EmptyString
  | String c s' => String (upper_ascii c) (upper s')
  end.

Definition _send (env : Env) (self : t) (method : string) (url : string)
    (params data : option dict) : M (option Response) :=
  try_except
    (let request := mkRequest (upper method) url params data in
     prepared_url <- lift_sum (prepare_request env request) ;;
     let log_payload := if String.eqb (upper method) "GET" then params else data in
     emit (logger.http_request (upper method) prepared_url log_payload) ;;
     (if request_recorder self then record prepared_url else ret tt) ;;
     response <- session_send env request ;;
     emit (logger.http_response (status_code response) (PyStr.take 200 (text response))) ;;
     ret (Some response))
    is_RequestException
    (fun e =>
       emit (logger.operational (upper method ++ " request failed: " ++ exn_str e) ERROR) ;;
       ret None).

Definition get (env : Env) (self : t) (url : string) (params : option dict) : M (option Response) :=
  _send env self "GET" url params None.

Definition post (env : Env) (self : t) (url : string) (data : option dict) : M (option Response) :=
  _send env self "POST" url None data.

Definition check_xss_reflection (response : option Response) (payload : string) : M bool :=
  if_not response
    (ret false)
    (fun response =>
       if PyStr.contains payload (text response) then
         emit (logger.operational "Payload appears unencoded in response" INFO) ;;
         ret true
       else
         let encoded_variants :=
           [ PyStr.replace ">" "&gt;" (PyStr.replace "<" "&lt;" payload);
             PyStr.replace ">" "%3E" (PyStr.replace "<" "%3C" payload) ] in
         if existsb (fun variant => PyStr.contains variant (text response)) encoded_variants then
           emit (logger.operational "Payload appears encoded in response" INFO) ;;
           ret false
         else
           emit (logger.operational "Payload not found in response" INFO) ;;
           ret false).

Definition get_user_agent : M string :=
  fun w =>
    (Val match dict_get (session_headers w) "User-Agent" with
         | Some ua => ua
         | None => "python-requests"
         end, w).

(** [self.session.cookies.get(name)]; a [CookieConflictError] is a
    [RuntimeError]. *)
Definition get_cookie (env : Env) (name : string) : M (option string) :=
  fun w =>
    match cookies_get env (wire w) name with
    | inl value => (Val value, w)
    | inr message => (Raise (OtherError message), w)
    end.

End HTTPClient.


(* ================================================================== *)
(** * core/auth.py *)
(* ================================================================== *)

Module DVWAAuthenticator.

Record t : Type := mk {
  base_url : string;
  security_level : option string;
  _logged_in : bool
}.

(** [DVWAAuthenticator(base_url, logger)]. *)
Definition init (base_url : string) : t :=
  mk (PyStr.rstrip "/" base_url) None false.

Definition _extract_csrf_token (env : Env) (html : string) : option string :=
  match soup_find_input env html "user_token" with
  | Some (Some value) => if String.eqb value "" then None else Some value
  | _ => None
  end.

(** The result and the authenticator as the call leaves it. *)
Definition login (env : Env) (self : t) (username password : string) : M (bool * t) :=
  emit (logger.operational ("Attempting DVWA login as " ++ username) INFO) ;;
  try_except
    (let login_url := base_url self ++ "/login.php" in
     emit (logger.operational ("Fetching login page: " ++ login_url) DEBUG) ;;
     response <- session_get env login_url ;;
     if negb (status_code response =? 200)%Z then
       emit (logger.operational
               ("Failed to fetch login page: " ++ PyStr.of_int (status_code response)) ERROR) ;;
       ret (false, self)
     else
       let csrf_token := _extract_csrf_token env (text response) in
       let login_data :=
         [("username", username); ("password", password); ("Login", "Login")] in
       login_data <-
         match csrf_token with
         | Some token =>
             emit (logger.operational
                     ("Using CSRF token: " ++ PyStr.take 10 token ++ "...") DEBUG) ;;
             ret (login_data ++ [("user_token", token)])%list
         | None => ret login_data
         end ;;
       emit (logger.operational "Submitting login credentials" DEBUG) ;;
       response <- session_post env login_url login_data ;;
       if negb (PyStr.contains "login.php" (url response))
          && (status_code response =? 200)%Z then
         let self := mk (base_url self) (security_level self) true in
         emit (logger.operational "Login successful" INFO) ;;
         emit (logger.educational "Successfully authenticated with DVWA") ;;
         ret (true, self)
       else
         emit (logger.operational "Login failed - still on login page" ERROR) ;;
         ret (false, self))
    is_RequestException
    (fun e =>
       emit (logger.operational ("Login request failed: " ++ exn_str e) ERROR) ;;
       ret (false, self)).

Definition detect_security_level (env : Env) (self : t) : M (option string * t) :=
  if negb (_logged_in self) then
    emit (logger.operational "Cannot detect security level - not logged in" WARNING) ;;
    ret (None, self)
  else
    try_except
      (let security_url := base_url self ++ "/security.php" in
       response <- session_get env security_url ;;
       if negb (status_code response =? 200)%Z then
         emit (logger.operational
                 ("Failed to fetch security page: " ++ PyStr.of_int (status_code response)) ERROR) ;;
         ret (None, self)
       else
         match soup_find_selected_option env (text response) with
         | Some value =>
             let level := PyStr.lower (match value with Some v => v | None => "" end) in
             let self := mk (base_url self) (Some level) (_logged_in self) in
             emit (logger.operational ("Detected security level: " ++ level) INFO) ;;
             ret (Some level, self)
         | None =>
             match re_search_level env (text response) with
             | Some group1 =>
                 let level := PyStr.lower group1 in
                 let self := mk (base_url self) (Some level) (_logged_in self) in
                 emit (logger.operational ("Detected security level: " ++ level) INFO) ;;
                 ret (Some level, self)
             | None =>
                 emit (logger.operational "Could not determine security level" WARNING) ;;
                 ret (None, self)
             end
         end)
      is_Exception
      (fun e =>
         emit (logger.operational ("Error detecting security level: " ++ exn_str e) ERROR) ;;
         ret (None, self)).

Definition set_security_level (env : Env) (self : t) (level : string) : M (bool * t) :=
  if negb (_logged_in self) then
    emit (logger.operational "Cannot set security level - not logged in" WARNING) ;;
    ret (false, self)
  else
    let level := PyStr.lower level in
    if negb (PyStr.mem level ["low"; "medium"; "high"; "impossible"]) then
      emit (logger.operational ("Invalid security level: " ++ level) ERROR) ;;
      ret (false, self)
    else
      try_except
        (let security_url := base_url self ++ "/security.php" in
         response <- session_get env security_url ;;
         let csrf_token := _extract_csrf_token env (text response) in
         let data := [("security", level); ("seclev_submit", "Submit")] in
         let data :=
           match csrf_token with
           | Some token => (data ++ [("user_token", token)])%list
           | None => data
           end in
         emit (logger.operational ("Setting security level to: " ++ level) INFO) ;;
         response <- session_post env security_url data ;;
         if (status_code response =? 200)%Z then
           let self := mk (base_url self) (Some level) (_logged_in self) in
           emit (logger.operational "Security level updated" INFO) ;;
           emit (logger.educational ("DVWA security level set to: " ++ level)) ;;
           ret (true, self)
         else
           emit (logger.operational
                   ("Failed to set security level: " ++ PyStr.of_int (status_code response)) ERROR) ;;
           ret (false, self))
        is_Exception
        (fun e =>
           emit (logger.operational ("Error setting security level: " ++ exn_str e) ERROR) ;;
           ret (false, self)).

Definition get_csrf_token (env : Env) (url : string) : M (option string) :=
  try_except
    (response <- session_get env url ;;
     if (status_code response =? 200)%Z
     then ret (_extract_csrf_token env (text response))
     else ret None)
    is_Exception
    (fun e =>
       emit (logger.operational ("Error fetching CSRF token: " ++ exn_str e) ERROR) ;;
       ret None).

Definition is_authenticated (self : t) : bool := _logged_in self.

Definition verify_dvwa_presence (env : Env) (self : t) : M (bool * string) :=
  try_except
    (emit (logger.operational "Verifying DVWA presence" INFO) ;;
     response <- session_get env (base_url self ++ "/login.php") ;;
     if negb (status_code response =? 200)%Z then
       ret (false, "HTTP " ++ PyStr.of_int (status_code response))
     else if PyStr.contains "Damn Vulnerable Web Application" (text response)
             || PyStr.contains "DVWA" (text response) then
       let version :=
         match re_search_version env (text response) with
         | Some group1 => group1
         | None => "unknown"
         end in
       emit (logger.operational ("DVWA detected (version: " ++ version ++ ")") INFO) ;;
       ret (true, version)
     else ret (false, "DVWA markers not found in response"))
    is_RequestException
    (fun e => ret (false, exn_str e)).

(** The public operations of an authenticator, for statements about
    every sequence of calls on one object. *)
Inductive call : Type :=
| call_login (username password : string)
| call_detect_security_level
| call_set_security_level (level : string)
| call_get_csrf_token (url : string)
| call_is_authenticated
| call_verify_dvwa_presence.

(** The object after a call.  No method assigns a field and then lets
    an exception escape, so a call that raises leaves the object as it
    found it. *)
Definition after {A} (self : t) (r : Result (A * t) * World) : t * World :=
  match r with
  | (Val (_, self'), w) => (self', w)
  | (Raise _, w) => (self, w)
  end.

Definition keep {A} (self : t) (r : Result A * World) : t * World :=
  (self, snd r).

Definition perform (env : Env) (c : call) (self : t) (w : World) : t * World :=
  match c with
  | call_login username password => after self (login env self username password w)
  | call_detect_security_level => after self (detect_security_level env self w)
  | call_set_security_level level => after self (set_security_level env self level w)
  | call_get_csrf_token url => keep self (get_csrf_token env url w)
  | call_is_authenticated => (self, w)
  | call_verify_dvwa_presence => keep self (verify_dvwa_presence env self w)
  end.

Fixpoint perform_all (env : Env) (cs : list call) (self : t) (w : World) : t * World :=
  match cs with
  | [] => (self, w)
  | c :: cs' =>
      let (self', w') := perform env c self w in
      perform_all env cs' self' w'
  end.

End DVWAAuthenticator.

(* ================================================================== *)
(** * explanations/text_blocks.py, by name *)
(* ================================================================== *)

Module XSSExplanations.
Definition REFLECTED_XSS_INTRO : string := "REFLECTED_XSS_INTRO".
Definition REFLECTED_XSS_IMPACT : string := "REFLECTED_XSS_IMPACT".
Definition REFLECTED_XSS_PREVENTION : string := "REFLECTED_XSS_PREVENTION".
Definition STORED_XSS_INTRO : string := "STORED_XSS_INTRO".
Definition STORED_XSS_IMPACT : string := "STORED_XSS_IMPACT".
Definition STORED_XSS_PREVENTION : string := "STORED_XSS_PREVENTION".
Definition DOM_XSS_INTRO : string := "DOM_XSS_INTRO".
Definition DOM_XSS_SOURCES_SINKS : string := "DOM_XSS_SOURCES_SINKS".
Definition DOM_XSS_PREVENTION : string := "DOM_XSS_PREVENTION".
End XSSExplanations.

(** The line feed of ["\n"]. *)
Definition LF : string := String (ascii_of_nat 10) EmptyString.

(** ["=" * 70]. *)
Definition rule70 : string := PyStr.repeat "=" 70.

(* ================================================================== *)
(** * modules/reflected.py *)
(* ================================================================== *)

Module ReflectedXSSModule.

Import XSSExplanations.

Record t : Type := mk {
  http : HTTPClient.t;
  config : TargetConfig.t;
  _injection_details_logged : bool
}.

Definition xss_reflected_path : string := "vulnerabilities/xss_r/".

Definition payloads : list (string * string) :=
  [ ("<script>alert(1)</script>", "PAYLOAD_BASIC_ALERT");
    ("<img src=x onerror=alert(1)>", "PAYLOAD_IMG_ONERROR");
    ("<svg/onload=alert(1)>", "PAYLOAD_SVG_ONLOAD") ].

Definition init (http_client : HTTPClient.t) (target_config : TargetConfig.t) : t :=
  mk http_client target_config false.

Definition _log_injection_breakdown (self : t) : M unit :=
  let url := TargetConfig.get_dvwa_url (config self) xss_reflected_path in
  emit (logger.educational ("Injection breakdown: Target endpoint: " ++ url)).

Definition _log_curl_examples (method url : string) : M unit :=
  emit (logger.educational ("Reproduce this request via curl: " ++ method ++ " " ++ url)).

Definition _log_http_evidence (response : Response) (payload note : string) : M unit :=
  emit (logger.educational ("HTTP evidence (" ++ note ++ ")")).

Definition _attempt_payload (env : Env) (self : t) (payload explanation_key : string)
    (attempt_num : Z) (interactive : bool) : M bool :=
  emit (logger.step (3 + attempt_num) ("Attempting Payload " ++ PyStr.of_int attempt_num)) ;;
  emit (logger.payload payload explanation_key) ;;
  skip <- declined interactive "Execute this payload?" ;;
  if skip then
    emit (logger.educational "Payload skipped by user.") ;;
    ret false
  else
    let url := TargetConfig.get_dvwa_url (config self) xss_reflected_path in
    let params := [("name", payload)] in
    _log_curl_examples "GET" url ;;
    response <- HTTPClient.get env (http self) url (Some params) ;;
    if_not response
      (emit (logger.explain_failure
               ("HTTP request failed for payload " ++ PyStr.of_int attempt_num)) ;;
       ret false)
      (fun r =>
         reflected <- HTTPClient.check_xss_reflection response payload ;;
         if reflected then
           emit (logger.explain_success
                   ("Payload " ++ PyStr.of_int attempt_num ++ " succeeded!")) ;;
           _log_http_evidence r payload "reflected payload inside HTML body" ;;
           ret true
         else
           emit (logger.explain_failure
                   ("Payload " ++ PyStr.of_int attempt_num ++ " was blocked or encoded")) ;;
           _log_http_evidence r payload "encoded or blocked response sample" ;;
           ret false).

(** The loop of step 4:
    [for i, (payload, explanation_key) in enumerate(self.payloads, start=1):
       if self._attempt_payload(...): success = True; break]
    run from index [i] over the payloads still to come. *)
Fixpoint attempt_payloads (env : Env) (self : t) (interactive : bool)
    (i : Z) (todo : list (string * string)) : M bool :=
  match todo with
  | [] => ret false
  | (payload, explanation_key) :: rest =>
      ok <- _attempt_payload env self payload explanation_key i interactive ;;
      if ok then ret true
      else attempt_payloads env self interactive (i + 1) rest
  end.

Definition run_interactive (env : Env) (self : t) (interactive : bool) : M (bool * t) :=
  emit (logger.educational "REFLECTED XSS MODULE") ;;
  emit (logger.educational REFLECTED_XSS_INTRO) ;;
  emit (logger.step 1 "Understanding the Target") ;;
  stop <- declined interactive "Proceed to examine the vulnerable page?" ;;
  if stop then
    emit (logger.educational "Module stopped by user.") ;;
    ret (false, self)
  else
    emit (logger.step 2 "Testing Normal Behavior") ;;
    let url := TargetConfig.get_dvwa_url (config self) xss_reflected_path in
    let test_input := "TestUser123" in
    response <- HTTPClient.get env (http self) url (Some [("name", test_input)]) ;;
    if_not response
      (emit (logger.explain_failure "Failed to reach target page") ;;
       ret (false, self))
      (fun r =>
         (if PyStr.contains test_input (text r)
          then emit (logger.educational ("Input '" ++ test_input ++ "' was reflected in the response"))
          else emit (logger.educational ("Expected input '" ++ test_input ++ "' not found in response."))) ;;
         (if negb (_injection_details_logged self)
          then _log_injection_breakdown self
          else ret tt) ;;
         let self := mk (http self) (config self) true in
         stop <- declined interactive "Proceed to attempt XSS payloads?" ;;
         if stop then
           emit (logger.educational "Module stopped by user.") ;;
           ret (false, self)
         else
           emit (logger.educational REFLECTED_XSS_IMPACT) ;;
           success <- attempt_payloads env self interactive 1 payloads ;;
           (if success
            then emit (logger.educational rule70) ;;
                 emit (logger.educational REFLECTED_XSS_PREVENTION)
            else ret tt) ;;
           ret (success, self)).

End ReflectedXSSModule.

(* ================================================================== *)
(** * modules/stored.py *)
(* ================================================================== *)

Module StoredXSSModule.

Import XSSExplanations.

Record t : Type := mk {
  http : HTTPClient.t;
  config : TargetConfig.t;
  auth : DVWAAuthenticator.t;
  _injection_details_logged : bool
}.

Definition xss_stored_path : string := "vulnerabilities/xss_s/".

Definition payloads : list (string * string) :=
  [ ("<script>alert('Stored XSS')</script>", "Basic script injection");
    ("<img src=x onerror=alert('XSS')>", "Image error handler");
    ("<svg/onload=alert('XSS')>", "SVG onload event") ].

Definition init (http_client : HTTPClient.t) (target_config : TargetConfig.t)
    (auth : DVWAAuthenticator.t) : t :=
  mk http_client target_config auth false.

Definition _log_injection_breakdown (self : t) : M unit :=
  let url := TargetConfig.get_dvwa_url (config self) xss_stored_path in
  emit (logger.educational ("Injection breakdown: Target endpoint: " ++ url)).

(** [for name in ['PHPSESSID', 'security']: ...], over the names still
    to come. *)
Fixpoint cookie_pairs (env : Env) (names : list string) : M (list string) :=
  match names with
  | [] => ret []
  | name :: rest =>
      value <- HTTPClient.get_cookie env name ;;
      pairs <- cookie_pairs env rest ;;
      match value with
      | Some (String c v) => ret ((name ++ "=" ++ String c v) :: pairs)
      | _ => ret pairs
      end
  end.

Definition _build_cookie_fragment (env : Env) : M string :=
  cookie_pairs <- cookie_pairs env ["PHPSESSID"; "security"] ;;
  let cookie_pairs :=
    match cookie_pairs with
    | [] => ["PHPSESSID=<copy-from-browser>"]
    | _ :: _ => cookie_pairs
    end in
  ret (String.concat "; " cookie_pairs).

Definition _log_curl_examples (env : Env) (method url : string) (include_cookies : bool)
    : M unit :=
  cookie_fragment <-
    (if include_cookies
     then (fragment <- _build_cookie_fragment env ;; ret (Some fragment))
     else ret None) ;;
  emit (logger.educational
          ("Replay with curl: " ++ method ++ " " ++ url
           ++ match cookie_fragment with
              | Some fragment => " --cookie " ++ fragment
              | None => EmptyString
              end)).

Definition _log_http_evidence (response : Response) (payload note : string) : M unit :=
  emit (logger.educational ("HTTP evidence (" ++ note ++ ")")).

(** The form posted for [payload], given the token and the User-Agent. *)
Definition form_data (payload : string) (csrf_token : option string) (ua_string : string) : dict :=
  let annotated_payload := payload ++ LF ++ "<!-- UA: " ++ ua_string ++ " -->" in
  let form_data :=
    [ ("txtName", "XSS Test User");
      ("mtxMessage", annotated_payload);
      ("btnSign", "Sign Guestbook") ] in
  match csrf_token with
  | Some token => (form_data ++ [("user_token", token)])%list
  | None => form_data
  end.

Definition _attempt_stored_payload (env : Env) (self : t) (payload description : string)
    (attempt_num : Z) (interactive : bool) : M bool :=
  emit (logger.step (3 + attempt_num) ("Stored XSS Attempt " ++ PyStr.of_int attempt_num)) ;;
  emit (logger.payload payload description) ;;
  skip <- declined interactive "Store this payload in the guestbook?" ;;
  if skip then
    emit (logger.educational "Payload skipped by user.") ;;
    ret false
  else
    emit (logger.educational "Submitting payload to guestbook...") ;;
    let url := TargetConfig.get_dvwa_url (config self) xss_stored_path in
    csrf_token <- DVWAAuthenticator.get_csrf_token env url ;;
    ua_string <- HTTPClient.get_user_agent ;;
    let form_data := form_data payload csrf_token ua_string in
    emit (logger.educational ("User-Agent recorded with this entry: " ++ ua_string)) ;;
    _log_curl_examples env "POST" url true ;;
    response <- HTTPClient.post env (http self) url (Some form_data) ;;
    if_not response
      (emit (logger.explain_failure
               ("Failed to submit payload " ++ PyStr.of_int attempt_num)) ;;
       ret false)
      (fun _ =>
         emit (logger.educational "Payload submitted successfully") ;;
         emit (logger.educational "Retrieving guestbook to check if payload persists...") ;;
         response <- HTTPClient.get env (http self) url None ;;
         _log_curl_examples env "GET" url true ;;
         if_not response
           (emit (logger.explain_failure "Failed to retrieve guestbook after submission") ;;
            ret false)
           (fun r =>
              if PyStr.contains payload (text r) then
                emit (logger.explain_success
                        ("Stored XSS payload " ++ PyStr.of_int attempt_num ++ " succeeded!")) ;;
                _log_http_evidence r payload "stored entry rendered in body" ;;
                ret true
              else
                let encoded_check :=
                  PyStr.replace ">" "&gt;" (PyStr.replace "<" "&lt;" payload) in
                (if PyStr.contains encoded_check (text r) then
                   emit (logger.explain_failure
                           ("Payload " ++ PyStr.of_int attempt_num ++ " was stored but ENCODED")) ;;
                   _log_http_evidence r payload "payload encoded before rendering"
                 else
                   emit (logger.explain_failure
                           ("Payload " ++ PyStr.of_int attempt_num ++ " may have been filtered")) ;;
                   _log_http_evidence r payload "payload missing from rendered output") ;;
                ret false)).

(** The loop of step 4, as in the reflected module. *)
Fixpoint attempt_payloads (env : Env) (self : t) (interactive : bool)
    (i : Z) (todo : list (string * string)) : M bool :=
  match todo with
  | [] => ret false
  | (payload, description) :: rest =>
      ok <- _attempt_stored_payload env self payload description i interactive ;;
      if ok then ret true
      else attempt_payloads env self interactive (i + 1) rest
  end.

Definition run_interactive (env : Env) (self : t) (interactive : bool) : M (bool * t) :=
  emit (logger.educational "STORED XSS MODULE") ;;
  emit (logger.educational STORED_XSS_INTRO) ;;
  emit (logger.step 1 "Understanding Stored XSS") ;;
  stop <- declined interactive "Proceed to examine the guestbook?" ;;
  if stop then
    emit (logger.educational "Module stopped by user.") ;;
    ret (false, self)
  else
    emit (logger.step 2 "Viewing Current Guestbook Entries") ;;
    let url := TargetConfig.get_dvwa_url (config self) xss_stored_path in
    response <- HTTPClient.get env (http self) url None ;;
    if_not response
      (emit (logger.explain_failure "Failed to reach guestbook page") ;;
       ret (false, self))
      (fun _ =>
         emit (logger.educational "Successfully accessed guestbook page") ;;
         (if negb (_injection_details_logged self)
          then _log_injection_breakdown self
          else ret tt) ;;
         let self := mk (http self) (config self) (auth self) true in
         emit (logger.educational STORED_XSS_IMPACT) ;;
         stop <- declined interactive "Proceed to attempt stored XSS injection?" ;;
         if stop then
           emit (logger.educational "Module stopped by user.") ;;
           ret (false, self)
         else
           success <- attempt_payloads env self interactive 1 payloads ;;
           (if success
            then emit (logger.educational rule70) ;;
                 emit (logger.educational STORED_XSS_PREVENTION)
            else ret tt) ;;
           ret (success, self)).

End StoredXSSModule.

(* ================================================================== *)
(** * modules/dom_based.py *)
(* ================================================================== *)

Module DOMXSSModule.

Import XSSExplanations.

Record t : Type := mk {
  http : HTTPClient.t;
  config : TargetConfig.t
}.

Definition xss_dom_path : string := "vulnerabilities/xss_d/".

Record exploit : Type := mk_exploit {
  exploit_payload : string;
  exploit_url : string;
  exploit_explanation : string
}.

Definition _explain_vulnerable_code : M unit :=
  emit (logger.step 3 "Identifying Vulnerable Code Pattern") ;;
  emit (logger.educational "Vulnerable code example (typical DVWA pattern)") ;;
  emit (logger.educational "What makes this vulnerable?").

(** The demonstration URLs of [_demonstrate_exploit_urls]. *)
Definition exploits (base_url : string) : list exploit :=
  [ mk_exploit "<script>alert('DOM XSS')</script>"
      (base_url ++ "?default=<script>alert('DOM XSS')</script>")
      "Basic script injection via URL parameter";
    mk_exploit "English</option><script>alert(1)</script>"
      (base_url ++ "?default=English</option><script>alert(1)</script>")
      "Breaking out of the <option> tag context";
    mk_exploit "English</option><option value='tlh' selected>Klingon (tlh)</option>"
      (base_url ++ "?default=English</option><option value='tlh' selected>Klingon (tlh)</option>")
      "Injects a brand-new Klingon option into the dropdown to prove DOM control";
    mk_exploit "English</option><img src=x onerror=alert(document.cookie)>"
      (base_url ++ "?default=English</option><img src=x onerror=alert(document.cookie)>")
      "Using img onerror to steal cookies" ].

(** [for i, exploit in enumerate(exploits, 1): ...], from index [i]. *)
Fixpoint show_exploits (i : Z) (todo : list exploit) : M unit :=
  match todo with
  | [] => ret tt
  | e :: rest =>
      emit (logger.educational ("[Exploit " ++ PyStr.of_int i ++ "]")) ;;
      emit (logger.educational ("Payload: " ++ exploit_payload e)) ;;
      emit (logger.educational ("Explanation: " ++ exploit_explanation e)) ;;
      emit (logger.educational ("Full URL:" ++ LF ++ exploit_url e)) ;;
      emit (logger.operational
              ("DOM XSS exploit URL " ++ PyStr.of_int i ++ ": " ++ exploit_url e) INFO) ;;
      show_exploits (i + 1) rest
  end.

Definition _demonstrate_exploit_urls (self : t) : M unit :=
  emit (logger.step 4 "Crafting DOM XSS Exploit URLs") ;;
  let base_url := TargetConfig.get_dvwa_url (config self) xss_dom_path in
  show_exploits 1 (exploits base_url).

Definition _explain_manual_testing : M unit :=
  emit (logger.step 5 "Manual Testing Instructions") ;;
  emit (logger.educational "Manual walk-through (no Selenium or headless browser required)").

Definition run_interactive (env : Env) (self : t) (interactive : bool) : M bool :=
  emit (logger.educational "DOM-BASED XSS MODULE (Demonstration)") ;;
  emit (logger.educational DOM_XSS_INTRO) ;;
  emit (logger.step 1 "Understanding DOM XSS") ;;
  emit (logger.educational DOM_XSS_SOURCES_SINKS) ;;
  stop <- declined interactive "Continue with DOM XSS demonstration?" ;;
  if stop then
    emit (logger.educational "Module stopped by user.") ;;
    ret false
  else
    emit (logger.step 2 "Analyzing DVWA's DOM XSS Page") ;;
    let url := TargetConfig.get_dvwa_url (config self) xss_dom_path in
    response <- HTTPClient.get env (http self) url None ;;
    if_not response
      (emit (logger.explain_failure "Failed to fetch DOM XSS page") ;;
       ret false)
      (fun _ =>
         emit (logger.educational "Successfully fetched DOM XSS page") ;;
         _explain_vulnerable_code ;;
         stop <- declined interactive "Proceed to craft exploit URLs?" ;;
         if stop then
           emit (logger.educational "Module stopped by user.") ;;
           ret false
         else
           _demonstrate_exploit_urls self ;;
           _explain_manual_testing ;;
           emit (logger.educational rule70) ;;
           emit (logger.educational DOM_XSS_PREVENTION) ;;
           ret true).

End DOMXSSModule.

(* ================================================================== *)
(** * What the specification says, in its own words *)
(* ================================================================== *)

Module Spec.

(** The host case-insensitively equals a name. *)
Definition eq_nocase (a b : string) : Prop := PyStr.lower a = PyStr.lower b.

Definition loopback_names : list string :=
  ["localhost"; "127.0.0.1"; "::1"; "0.0.0.0"].

Definition starts_with (w s : string) : Prop := exists rest, s = w ++ rest.

(** The host matches a private-IPv4 prefix: it starts with 10. or with
    172.16. to 172.31. or with 192.168. *)
Definition private_prefix (host : string) : Prop :=
  starts_with "10." host
  \/ (exists n, (16 <= n <= 31)%Z /\ starts_with ("172." ++ PyStr.of_int n ++ ".") host)
  \/ starts_with "192.168." host.

Definition safe (host : string) (confirmed : bool) : Prop :=
  (exists name, In name loopback_names /\ eq_nocase host name)
  \/ private_prefix host
  \/ confirmed = true.

(** The scheme's default port: 80 for http, 443 for https. *)
Definition default_port (use_https : bool) : Z := if use_https then 443%Z else 80%Z.

Definition scheme (use_https : bool) : string := if use_https then "https" else "http".

(** scheme://host[:port], omitting the port when it equals the scheme's
    default. *)
Definition baseUrl (host : string) (port : Z) (use_https : bool) : string :=
  scheme use_https ++ "://" ++ host
  ++ (if (port =? default_port use_https)%Z then "" else ":" ++ PyStr.of_int port).

(** Strips a leading slash from the path. *)
Definition strip_leading_slash (path : string) : string :=
  match path with
  | String c rest => if Ascii.eqb c "/" then rest else path
  | EmptyString => path
  end.

(** Appends the stripped path to the base URL with one separating slash. *)
Definition resolvePath (base path : string) : string :=
  base ++ "/" ++ strip_leading_slash path.

(** A necessary condition for being a dotted-quad IPv4 literal. *)
Definition digits_and_dots (s : string) : bool :=
  forallb (fun c => Ascii.eqb c "." || Re.in_class "0" "9" c) (list_ascii_of_string s).

End Spec.

(* ================================================================== *)
(** * Strings: basic facts *)
(* ================================================================== *)

Section StringFacts.

Lemma append_nil_r (s : string) : s ++ "" = s.
Proof. induction s as [|c s IH]; simpl; [reflexivity | now rewrite IH]. Qed.

Lemma append_assoc (a b c : string) : (a ++ b) ++ c = a ++ (b ++ c).
Proof. induction a as [|x a IH]; simpl; [reflexivity | now rewrite IH]. Qed.

Lemma append_cancel_l (a b c : string) : a ++ b = a ++ c -> b = c.
Proof.
  induction a as [|x a IH]; simpl; intros H; [exact H|].
  injection H as H. now apply IH.
Qed.

Lemma prefix_starts_with (w s : string) :
  prefix w s = true <-> Spec.starts_with w s.
Proof.
  revert s. induction w as [|c w IH]; intros s; simpl.
  - split; [intros _; now exists s | intros _; destruct s; reflexivity].
  - destruct s as [|d s].
    + split; [discriminate | intros [rest H]; discriminate].
    + simpl. destruct (ascii_dec c d) as [->|Hne].
      * rewrite IH. split; intros [rest H]; exists rest.
        -- simpl. now rewrite H.
        -- simpl in H. now injection H.
      * split; [discriminate|]. intros [rest H]. simpl in H.
        injection H as H1 _. congruence.
Qed.

Lemma contains_nil (needle : string) :
  PyStr.contains needle "" = prefix needle "".
Proof. simpl. apply orb_false_r. Qed.

Lemma contains_cons (needle : string) (c : ascii) (hay : string) :
  PyStr.contains needle (String c hay)
  = prefix needle (String c hay) || PyStr.contains needle hay.
Proof. reflexivity. Qed.

Lemma contains_spec (needle hay : string) :
  PyStr.contains needle hay = true <-> exists before after, hay = before ++ needle ++ after.
Proof.
  induction hay as [|c hay IH].
  - rewrite contains_nil, prefix_starts_with. split.
    + intros [rest H]. exists "", rest. exact H.
    + intros (before & after & H). destruct before; simpl in H.
      * now exists after.
      * discriminate.
  - rewrite contains_cons, orb_true_iff, prefix_starts_with, IH. split.
    + intros [[rest H] | (before & after & H)].
      * exists "", rest. exact H.
      * exists (String c before), after. simpl. now rewrite H.
    + intros (before & after & H). destruct before as [|b before]; simpl in H.
      * left. now exists after.
      * right. injection H as _ H. now exists before, after.
Qed.

Lemma contains_refl (s : string) : PyStr.contains s s = true.
Proof. apply contains_spec. exists "", "". simpl. now rewrite append_nil_r. Qed.

End StringFacts.

(* ================================================================== *)
(** * The matcher on the patterns of [_is_private_ip] *)
(* ================================================================== *)

Section Matcher.

Import Re.

Lemma run_bol (r : regex) (s : string) : run (Cat Bol r) 0 s = run r 0 s.
Proof. simpl. apply app_nil_r. Qed.

(** A literal run matches in one way, and only a subject that starts
    with it. *)
Lemma run_lit_cat (w : string) (r : regex) :
  forall pos s,
    (forall rest, s = w ++ rest ->
       run (Cat (lit w) r) pos s = run r (pos + String.length w) rest)
    /\ (~ Spec.starts_with w s -> run (Cat (lit w) r) pos s = []).
Proof.
  induction w as [|c w IH]; intros pos s.
  - split.
    + intros rest ->. simpl. rewrite app_nil_r. now rewrite Nat.add_0_r.
    + intros H. exfalso. apply H. now exists s.
  - split.
    + intros rest ->. simpl. rewrite Ascii.eqb_refl. simpl. rewrite app_nil_r.
      destruct (IH (S pos) (w ++ rest)) as [IH1 _].
      specialize (IH1 rest eq_refl). simpl in IH1.
      rewrite <- plus_n_Sm. exact IH1.
    + intros H. simpl. destruct s as [|d s]; [reflexivity|].
      destruct (Ascii.eqb_spec d c) as [->|Hne]; [|reflexivity].
      simpl. rewrite app_nil_r.
      destruct (IH (S pos) s) as [_ IH2]. simpl in IH2. apply IH2.
      intros [rest ->]. apply H. now exists rest.
Qed.

Lemma starts_with_dec (w s : string) : {Spec.starts_with w s} + {~ Spec.starts_with w s}.
Proof.
  destruct (prefix w s) eqn:E.
  - left. now apply prefix_starts_with.
  - right. intros H. apply prefix_starts_with in H. congruence.
Qed.

Lemma match_lit (w : string) (s : string) :
  re_match (Cat Bol (lit w)) s = true <-> Spec.starts_with w s.
Proof.
  unfold re_match. rewrite run_bol.
  assert (E : forall pos s, run (lit w) pos s = run (Cat (lit w) Eps) pos s).
  { intros pos0 s0. simpl.
    induction (run (lit w) pos0 s0) as [|[p x] l IHl]; simpl; [reflexivity|].
    now rewrite <- IHl. }
  rewrite E.
  destruct (starts_with_dec w s) as [Hs|Hs].
  - destruct Hs as [rest ->].
    destruct (run_lit_cat w Eps 0 (w ++ rest)) as [H1 _].
    rewrite (H1 rest eq_refl). simpl. split; [intros _; now exists rest | reflexivity].
  - destruct (run_lit_cat w Eps 0 s) as [_ H2]. rewrite (H2 Hs).
    split; [discriminate | intros H; contradiction].
Qed.

Lemma in_class_inv (lo hi a : ascii) :
  in_class lo hi a = true ->
  exists n, nat_of_ascii lo <= n <= nat_of_ascii hi /\ a = ascii_of_nat n.
Proof.
  unfold in_class. rewrite andb_true_iff, !Nat.leb_le. intros [H1 H2].
  exists (nat_of_ascii a). split; [lia|]. symmetry. apply ascii_nat_embedding.
Qed.

(** The second octet: [1[6-9]|2[0-9]|3[0-1]]. *)
Definition octet2 : regex :=
  Alt (Cat (Chr "1") (Cls "6" "9"))
      (Alt (Cat (Chr "2") (Cls "0" "9")) (Cat (Chr "3") (Cls "0" "1"))).

Definition octet2_ok (a b : ascii) : bool :=
  (Ascii.eqb a "1" && in_class "6" "9" b)
  || (Ascii.eqb a "2" && in_class "0" "9" b)
  || (Ascii.eqb a "3" && in_class "0" "1" b).

Lemma run_octet2_short (pos : nat) (s : string) :
  String.length s < 3 -> run (Cat octet2 (Chr ".")) pos s = [].
Proof.
  intros H. destruct s as [|a [|b [|c rest]]]; simpl in H; try lia; cbn.
  - reflexivity.
  - destruct (Ascii.eqb a "1"), (Ascii.eqb a "2"), (Ascii.eqb a "3"); reflexivity.
  - destruct (Ascii.eqb a "1"), (Ascii.eqb a "2"), (Ascii.eqb a "3"); cbn;
      destruct (in_class "6" "9" b), (in_class "0" "9" b), (in_class "0" "1" b);
      reflexivity.
Qed.

Lemma run_octet2 (pos : nat) (a b c : ascii) (rest : string) :
  run (Cat octet2 (Chr ".")) pos (String a (String b (String c rest)))
  = if octet2_ok a b && Ascii.eqb c "." then [(S (S (S pos)), rest)] else [].
Proof.
  unfold octet2_ok.
  destruct (Ascii.eqb_spec a "1") as [->|H1].
  { cbn. destruct (in_class "6" "9" b); cbn; [|reflexivity].
    destruct (Ascii.eqb c "."); reflexivity. }
  destruct (Ascii.eqb_spec a "2") as [->|H2].
  { cbn. destruct (in_class "0" "9" b); cbn; [|reflexivity].
    destruct (Ascii.eqb c "."); reflexivity. }
  destruct (Ascii.eqb_spec a "3") as [->|H3].
  { cbn. destruct (in_class "0" "1" b); cbn; [|reflexivity].
    destruct (Ascii.eqb c "."); reflexivity. }
  cbn.
  destruct (Ascii.eqb_spec a "1"); [congruence|].
  destruct (Ascii.eqb_spec a "2"); [congruence|].
  destruct (Ascii.eqb_spec a "3"); [congruence|]. reflexivity.
Qed.

(** The two characters the second octet accepts are the decimal
    numerals of 16 to 31. *)
Lemma octet2_ok_numeral (a b : ascii) :
  octet2_ok a b = true <->
  exists n, (16 <= n <= 31)%Z /\ PyStr.of_int n = String a (String b "").
Proof.
  split.
  - unfold octet2_ok. rewrite !orb_true_iff, !andb_true_iff, !Ascii.eqb_eq.
    intros [[[-> E] | [-> E]] | [-> E]];
      apply in_class_inv in E; destruct E as (n & Hn & ->).
    + change (nat_of_ascii "6") with 54 in Hn. change (nat_of_ascii "9") with 57 in Hn.
      assert (Hc : n = 54 \/ n = 55 \/ n = 56 \/ n = 57) by lia.
      destruct Hc as [->|[->|[->| ->]]];
        [exists 16%Z | exists 17%Z | exists 18%Z | exists 19%Z];
        (split; [lia | reflexivity]).
    + change (nat_of_ascii "0") with 48 in Hn. change (nat_of_ascii "9") with 57 in Hn.
      assert (Hc : n = 48 \/ n = 49 \/ n = 50 \/ n = 51 \/ n = 52
                   \/ n = 53 \/ n = 54 \/ n = 55 \/ n = 56 \/ n = 57) by lia.
      destruct Hc as [->|[->|[->|[->|[->|[->|[->|[->|[->| ->]]]]]]]]];
        [exists 20%Z | exists 21%Z | exists 22%Z | exists 23%Z | exists 24%Z
        | exists 25%Z | exists 26%Z | exists 27%Z | exists 28%Z | exists 29%Z];
        (split; [lia | reflexivity]).
    + change (nat_of_ascii "0") with 48 in Hn. change (nat_of_ascii "1") with 49 in Hn.
      assert (Hc : n = 48 \/ n = 49) by lia.
      destruct Hc as [->| ->]; [exists 30%Z | exists 31%Z];
        (split; [lia | reflexivity]).
  - intros (n & Hn & E).
    assert (Hc : (n = 16 \/ n = 17 \/ n = 18 \/ n = 19 \/ n = 20 \/ n = 21 \/ n = 22
                  \/ n = 23 \/ n = 24 \/ n = 25 \/ n = 26 \/ n = 27 \/ n = 28
                  \/ n = 29 \/ n = 30 \/ n = 31)%Z) by lia.
    repeat (destruct Hc as [->|Hc]; [injection E as <- <-; reflexivity|]).
    subst n. injection E as <- <-. reflexivity.
Qed.

Lemma of_int_two_digits (n : Z) :
  (16 <= n <= 31)%Z -> exists a b, PyStr.of_int n = String a (String b "").
Proof.
  intros Hn.
  assert (Hc : (n = 16 \/ n = 17 \/ n = 18 \/ n = 19 \/ n = 20 \/ n = 21 \/ n = 22
                \/ n = 23 \/ n = 24 \/ n = 25 \/ n = 26 \/ n = 27 \/ n = 28
                \/ n = 29 \/ n = 30 \/ n = 31)%Z) by lia.
  repeat (destruct Hc as [->|Hc]; [eexists; eexists; reflexivity|]).
  subst n. eexists; eexists; reflexivity.
Qed.

Lemma match_octet2 (pos : nat) (s : string) :
  run (Cat octet2 (Chr ".")) pos s <> [] <->
  exists n, (16 <= n <= 31)%Z /\ Spec.starts_with (PyStr.of_int n ++ ".") s.
Proof.
  split.
  - intros H.
    destruct s as [|a [|b [|c rest]]];
      try (exfalso; apply H; apply run_octet2_short; simpl; lia).
    rewrite run_octet2 in H.
    destruct (octet2_ok a b) eqn:Eok; [|now exfalso; apply H].
    destruct (Ascii.eqb_spec c ".") as [->|Hne]; [|now exfalso; apply H].
    apply octet2_ok_numeral in Eok. destruct Eok as (n & Hn & E).
    exists n. split; [exact Hn|]. exists rest. rewrite E. reflexivity.
  - intros (n & Hn & rest & ->).
    destruct (of_int_two_digits n Hn) as (a & b & E).
    assert (Eok : octet2_ok a b = true) by (apply octet2_ok_numeral; now exists n).
    rewrite E. cbn [append]. rewrite run_octet2, Eok. cbn. discriminate.
Qed.

Lemma match_172 (host : string) :
  re_match (Cat Bol (Cat (lit "172.") (Cat octet2 (Chr ".")))) host = true
  <-> exists n, (16 <= n <= 31)%Z
                /\ Spec.starts_with ("172." ++ PyStr.of_int n ++ ".") host.
Proof.
  unfold re_match. rewrite run_bol.
  destruct (starts_with_dec "172." host) as [[rest ->]|Hs].
  - destruct (run_lit_cat "172." (Cat octet2 (Chr ".")) 0 ("172." ++ rest)) as [H1 _].
    rewrite (H1 rest eq_refl).
    pose proof (match_octet2 (0 + String.length "172.") rest) as M.
    split.
    + intros H.
      destruct (proj1 M) as (n & Hn & tail & ->).
      { intros E. rewrite E in H. discriminate. }
      exists n. split; [exact Hn|]. exists tail.
      now rewrite !append_assoc.
    + intros (n & Hn & tail & E).
      rewrite !append_assoc in E. apply append_cancel_l in E.
      assert (Hne : run (Cat octet2 (Chr ".")) (0 + String.length "172.") rest <> []).
      { apply M. exists n. split; [exact Hn|]. exists tail.
        rewrite E. now rewrite append_assoc. }
      destruct (run (Cat octet2 (Chr ".")) _ _); [contradiction | reflexivity].
  - destruct (run_lit_cat "172." (Cat octet2 (Chr ".")) 0 host) as [_ H2].
    rewrite (H2 Hs). split; [discriminate|].
    intros (n & _ & tail & E). exfalso. apply Hs.
    exists (PyStr.of_int n ++ "." ++ tail). rewrite E.
    now rewrite !append_assoc.
Qed.

Lemma is_private_ip_spec (host : string) :
  TargetConfig._is_private_ip host = true <-> Spec.private_prefix host.
Proof.
  unfold TargetConfig._is_private_ip, TargetConfig.private_patterns, Spec.private_prefix.
  cbn [existsb]. rewrite orb_false_r, !orb_true_iff.
  fold octet2.
  rewrite (match_lit "10." host), (match_lit "192.168." host), (match_172 host).
  tauto.
Qed.

End Matcher.

(* ================================================================== *)
(** * Target descriptor and safety gate *)
(* ================================================================== *)

Section TargetFacts.

Import TargetConfig.

Lemma allowed_host_spec (h : string) :
  PyStr.mem (PyStr.lower h) ALLOWED_HOSTS = true
  <-> exists name, In name Spec.loopback_names /\ Spec.eq_nocase h name.
Proof.
  unfold PyStr.mem, ALLOWED_HOSTS, Spec.loopback_names, Spec.eq_nocase.
  cbn [existsb]. rewrite orb_false_r, !orb_true_iff, !String.eqb_eq. split.
  - intros [H|[H|[H|H]]]; rewrite H;
      [exists "localhost" | exists "127.0.0.1" | exists "::1" | exists "0.0.0.0"];
      (split; [simpl; tauto | reflexivity]).
  - intros (name & Hin & E). simpl in Hin.
    destruct Hin as [<-|[<-|[<-|[<-|[]]]]]; rewrite E; cbn; tauto.
Qed.

Lemma is_safe_target_spec (self : t) :
  is_safe_target self = true <-> Spec.safe (host self) (_confirmed self).
Proof.
  unfold is_safe_target, Spec.safe.
  rewrite <- allowed_host_spec, <- is_private_ip_spec.
  destruct (PyStr.mem _ _); [tauto|].
  destruct (_is_private_ip _); [tauto|].
  split; [tauto|]. intros [H|[H|H]]; [discriminate | discriminate | exact H].
Qed.

Lemma append_eq_self (s t : string) : s ++ t = s -> t = "".
Proof.
  induction s as [|c s IH]; simpl; intros H; [exact H|].
  injection H as H. now apply IH.
Qed.

Lemma lstrip_decompose (c : ascii) (s : string) :
  exists n, s = PyStr.repeat c n ++ PyStr.lstrip c s.
Proof.
  induction s as [|a s [n IH]].
  - now exists 0.
  - simpl. destruct (Ascii.eqb_spec a c) as [->|Hne].
    + exists (S n). simpl. now rewrite <- IH.
    + now exists 0.
Qed.

Lemma lstrip_no_leading (c : ascii) (s : string) :
  prefix (String c "") (PyStr.lstrip c s) = false.
Proof.
  induction s as [|a s IH]; [reflexivity|].
  simpl. destruct (Ascii.eqb_spec a c) as [->|Hne]; [exact IH|].
  simpl. destruct (ascii_dec c a); [congruence | reflexivity].
Qed.

End TargetFacts.

(** C1. isSafeTarget() is true exactly when the host case-insensitively
    equals one of localhost, 127.0.0.1, ::1, 0.0.0.0, or starts with a
    private-IPv4 prefix (10., 172.16. to 172.31., 192.168.), or the target
    was confirmed.  The eight listed hosts are safe without confirmTarget();
    8.8.8.8 is unsafe before confirmTarget() and safe after it. *)
Theorem C1_is_safe_target :
  (forall self : TargetConfig.t,
      TargetConfig.is_safe_target self = true
      <-> Spec.safe (TargetConfig.host self) (TargetConfig._confirmed self))
  /\ (forall (port : Z) (use_https : bool),
        forallb (fun h => TargetConfig.is_safe_target (TargetConfig.init h port use_https))
          ["localhost"; "127.0.0.1"; "::1"; "0.0.0.0"; "10.1.2.3"; "172.16.0.5";
           "172.31.255.255"; "192.168.1.1"] = true)
  /\ (forall (port : Z) (use_https : bool),
        TargetConfig.is_safe_target (TargetConfig.init "8.8.8.8" port use_https) = false
        /\ TargetConfig.is_safe_target
             (TargetConfig.confirm_target (TargetConfig.init "8.8.8.8" port use_https)) = true).
Proof.
  split; [exact is_safe_target_spec|].
  split; intros port use_https; [reflexivity | split; reflexivity].
Qed.

(** C10. The private-range check is a textual prefix match: every host
    string that begins with 10. or 192.168. or 172.<16..31>. is safe
    without confirmation, whatever follows.  The witness is the host name
    10.attacker.example, which is not made of digits and dots. *)
Theorem C10_prefix_match_unanchored (host : string) (port : Z) (use_https : bool) :
  Spec.private_prefix host ->
  TargetConfig._confirmed (TargetConfig.init host port use_https) = false
  /\ TargetConfig.is_safe_target (TargetConfig.init host port use_https) = true.
Proof.
  intros H. split; [reflexivity|].
  apply is_safe_target_spec. right. left. exact H.
Qed.

Lemma C10_witness :
  Spec.digits_and_dots "10.attacker.example" = false
  /\ TargetConfig._confirmed (TargetConfig.init "10.attacker.example" 80 false) = false
  /\ TargetConfig.is_safe_target (TargetConfig.init "10.attacker.example" 80 false) = true.
Proof.
  split; [reflexivity|].
  apply (C10_prefix_match_unanchored "10.attacker.example" 80 false).
  left. exists "attacker.example". reflexivity.
Defined.

(** C7, as stated, fails: with https on port 80 the code omits the port,
    although 80 is not the default of https. *)
Lemma C7_counterexample :
  TargetConfig.base_url (TargetConfig.init "localhost" 80 true) = "https://localhost"
  /\ Spec.baseUrl "localhost" 80 true = "https://localhost:80"
  /\ TargetConfig.base_url (TargetConfig.init "localhost" 80 true)
     <> Spec.baseUrl "localhost" 80 true.
Proof.
  split; [reflexivity|]. split; [reflexivity|]. discriminate.
Qed.

(** C7, amended. baseUrl() is scheme://host[:port]; the port is omitted
    exactly when it is 80 or 443, whichever the scheme, and is written in
    decimal otherwise.  The three examples of the specification hold. *)
Theorem C7_base_url (self : TargetConfig.t) :
  let authority := Spec.scheme (TargetConfig.use_https self) ++ "://" ++ TargetConfig.host self in
  (TargetConfig.base_url self = authority
   <-> TargetConfig.port self = 80%Z \/ TargetConfig.port self = 443%Z)
  /\ (TargetConfig.base_url self = authority
      \/ TargetConfig.base_url self
         = authority ++ ":" ++ PyStr.of_int (TargetConfig.port self))
  /\ TargetConfig.base_url (TargetConfig.init "localhost" 80 false) = "http://localhost"
  /\ TargetConfig.base_url (TargetConfig.init "localhost" 8080 false) = "http://localhost:8080"
  /\ TargetConfig.base_url (TargetConfig.init "localhost" 443 true) = "https://localhost".
Proof.
  intros authority.
  assert (E : TargetConfig.base_url self
              = if (TargetConfig.port self =? 80)%Z || (TargetConfig.port self =? 443)%Z
                then authority
                else authority ++ ":" ++ PyStr.of_int (TargetConfig.port self)).
  { unfold TargetConfig.base_url, authority, Spec.scheme.
    destruct (_ || _); [reflexivity|]. now rewrite !append_assoc. }
  split; [|split; [|repeat split]].
  - rewrite E. destruct (_ || _) eqn:B.
    + apply orb_true_iff in B. rewrite !Z.eqb_eq in B. tauto.
    + apply orb_false_iff in B. rewrite !Z.eqb_neq in B. split.
      * intros H. apply append_eq_self in H. discriminate.
      * intros [H|H]; [now destruct (proj1 B) | now destruct (proj2 B)].
  - rewrite E. destruct (_ || _); [now left | now right].
Qed.

(** C8, as stated, fails: the code strips every leading slash, not one. *)
Lemma C8_counterexample :
  TargetConfig.get_dvwa_url (TargetConfig.init "localhost" 80 false) "//a"
  = "http://localhost/a"
  /\ Spec.resolvePath (TargetConfig.base_url (TargetConfig.init "localhost" 80 false)) "//a"
     = "http://localhost//a"
  /\ TargetConfig.get_dvwa_url (TargetConfig.init "localhost" 80 false) "//a"
     <> Spec.resolvePath (TargetConfig.base_url (TargetConfig.init "localhost" 80 false)) "//a".
Proof.
  split; [reflexivity|]. split; [reflexivity|]. discriminate.
Qed.

(** C8, amended. resolvePath(path) strips all the leading slashes of the
    path and appends what is left to baseUrl() after one slash, with no
    other change: the path is some slashes followed by the part appended,
    and that part does not start with a slash.  Both examples of the
    specification yield http://localhost/vulnerabilities/xss_r/. *)
Theorem C8_get_dvwa_url (self : TargetConfig.t) (path : string) :
  (exists (n : nat) (rest : string),
      path = PyStr.repeat "/" n ++ rest
      /\ prefix "/" rest = false
      /\ TargetConfig.get_dvwa_url self path = TargetConfig.base_url self ++ "/" ++ rest)
  /\ TargetConfig.get_dvwa_url (TargetConfig.init "localhost" 80 false) "vulnerabilities/xss_r/"
     = "http://localhost/vulnerabilities/xss_r/"
  /\ TargetConfig.get_dvwa_url (TargetConfig.init "localhost" 80 false) "/vulnerabilities/xss_r/"
     = "http://localhost/vulnerabilities/xss_r/".
Proof.
  split; [|split; reflexivity].
  destruct (lstrip_decompose "/" path) as [n E].
  exists n, (PyStr.lstrip "/" path). split; [exact E|].
  split; [apply lstrip_no_leading | reflexivity].
Qed.

(* ================================================================== *)
(** * Reasoning about effectful code *)
(* ================================================================== *)

(** [outcome c w P]: running [c] from [w] ends in a result and a world
    that satisfy [P]. *)
Definition outcome {A} (c : M A) (w : World) (P : Result A -> World -> Prop) : Prop :=
  P (fst (c w)) (snd (c w)).

(** The world read through the logger only: nothing sent, nothing asked. *)
Definition same_io (w w' : World) : Prop :=
  wire w' = wire w /\ stdin w' = stdin w.

(** The requests put on the wire between two worlds. *)
Definition sent (w w' : World) (requests : list Request) : Prop :=
  wire w' = (wire w ++ requests)%list.

(** Whether an operator's answer approves a prompt. *)
Definition approves (i : Input) : bool :=
  match i with
  | Line s => PyStr.mem (PyStr.lower (PyStr.strip s)) ["y"; "yes"]
  | Interrupt => false
  | Eof => false
  end.

(** Whether the next answer, if any, approves. *)
Definition next_approves (answers : list Input) : bool :=
  match answers with
  | [] => false
  | i :: _ => approves i
  end.

Section Outcomes.

Context {A B : Type}.

Lemma outcome_weaken (c : M A) (w : World) (Q P : Result A -> World -> Prop) :
  outcome c w Q -> (forall r w', Q r w' -> P r w') -> outcome c w P.
Proof. unfold outcome. auto. Qed.

Lemma outcome_ret (a : A) (w : World) (P : Result A -> World -> Prop) :
  P (Val a) w -> outcome (ret a) w P.
Proof. unfold outcome. auto. Qed.

Lemma outcome_bind (c : M A) (k : A -> M B) (w : World) (P : Result B -> World -> Prop) :
  outcome c w (fun r w' =>
                 match r with
                 | Val a => outcome (k a) w' P
                 | Raise e => P (Raise e) w'
                 end) ->
  outcome (bind c k) w P.
Proof.
  unfold outcome, bind. destruct (c w) as [[a|e] w']; simpl; auto.
Qed.

Lemma outcome_try (c : M A) (catches : exn -> bool) (handler : exn -> M A)
    (w : World) (P : Result A -> World -> Prop) :
  outcome c w (fun r w' =>
                 match r with
                 | Val a => P (Val a) w'
                 | Raise e => if catches e then outcome (handler e) w' P
                              else P (Raise e) w'
                 end) ->
  outcome (try_except c catches handler) w P.
Proof.
  unfold outcome, try_except. destruct (c w) as [[a|e] w']; simpl; auto.
  destruct (catches e); auto.
Qed.

Lemma outcome_eq (c : M A) (w : World) (r : Result A) (w' : World)
    (P : Result A -> World -> Prop) :
  c w = (r, w') -> outcome c w P -> P r w'.
Proof. unfold outcome. intros ->. auto. Qed.

End Outcomes.

Section Primitives.

Variable env : Env.

Lemma same_io_refl (w : World) : same_io w w.
Proof. split; reflexivity. Qed.

Lemma same_io_trans (w1 w2 w3 : World) :
  same_io w1 w2 -> same_io w2 w3 -> same_io w1 w3.
Proof. intros [A1 B1] [A2 B2]. split; congruence. Qed.

Lemma sent_nil (w w' : World) : wire w' = wire w -> sent w w' [].
Proof. unfold sent. intros ->. now rewrite app_nil_r. Qed.

Lemma sent_trans (w1 w2 w3 : World) (r1 r2 : list Request) :
  sent w1 w2 r1 -> sent w2 w3 r2 -> sent w1 w3 (r1 ++ r2)%list.
Proof. unfold sent. intros E1 E2. now rewrite E2, E1, app_assoc. Qed.

Lemma outcome_emit (e : logger.Event) (w : World) (P : Result unit -> World -> Prop) :
  (forall w', same_io w w' -> log w' = (log w ++ [e])%list -> P (Val tt) w') ->
  outcome (emit e) w P.
Proof.
  intros H. unfold outcome, emit. simpl. apply H; [split|]; reflexivity.
Qed.

(** A prompt sends nothing; it declines unless the run is interactive
    and the operator's next answer is y or yes. *)
Lemma outcome_declined (interactive : bool) (prompt : string) (w : World)
    (P : Result bool -> World -> Prop) :
  (forall w', wire w' = wire w ->
              stdin w' = (if interactive then tl (stdin w) else stdin w) ->
              P (Val (interactive && negb (next_approves (stdin w)))) w') ->
  outcome (declined interactive prompt) w P.
Proof.
  intros H. unfold outcome, declined. destruct interactive; simpl.
  - unfold bind, _get_user_approval, try_except, bind, input, emit, ret.
    destruct (stdin w) as [|[s| |] rest] eqn:E; simpl;
      apply H; simpl; auto; now rewrite E.
  - apply H; reflexivity.
Qed.

(** What sending [request] through [Session.send] after preparing it
    puts on the wire and returns. *)
Definition exchange (request : Request) (history : list Request)
    : list Request * (Response + exn) :=
  match prepare_request env request with
  | inr e => ([], inr e)
  | inl _ => ([request], transport env history request)
  end.

Lemma outcome_session_request (request : Request) (w : World)
    (P : Result Response -> World -> Prop) :
  (forall w', sent w w' (fst (exchange request (wire w))) ->
              stdin w' = stdin w ->
              log w' = log w ->
              P match snd (exchange request (wire w)) with
                | inl r => Val r
                | inr e => Raise e
                end w') ->
  outcome (session_request env request) w P.
Proof.
  intros H. unfold outcome, session_request, bind, lift_sum, session_send, exchange in *.
  destruct (prepare_request env request) as [purl|e]; simpl in *.
  - unfold ret. simpl.
    destruct (transport env (wire w) request) as [r|e]; simpl;
      apply H; unfold sent; reflexivity.
  - apply H; unfold sent; simpl; auto. now rewrite app_nil_r.
Qed.

End Primitives.

(* ================================================================== *)
(** * Request dispatcher *)
(* ================================================================== *)

(** What [get] and [post] return for what preparing and sending did. *)
Definition dispatched (x : Response + exn) : Result (option Response) :=
  match x with
  | inl r => Val (Some r)
  | inr e => if is_RequestException e then Val None else Raise e
  end.

(** A result that lets a transport exception through. *)
Definition propagates_transport_error {A} (r : Result A) : bool :=
  match r with
  | Val _ => false
  | Raise e => is_RequestException e
  end.

Section Dispatcher.

Variable env : Env.
Variable self : HTTPClient.t.

Lemma outcome_send (method url : string) (params data : option dict) (w : World)
    (P : Result (option Response) -> World -> Prop) :
  let request := mkRequest (HTTPClient.upper method) url params data in
  (forall w',
      sent w w' (fst (exchange env request (wire w))) ->
      stdin w' = stdin w ->
      (forall e, snd (exchange env request (wire w)) = inr e ->
                 is_RequestException e = true ->
                 exists before,
                   log w' = (before ++
                             [logger.operational
                                (HTTPClient.upper method ++ " request failed: " ++ exn_str e)
                                ERROR])%list) ->
      P (dispatched (snd (exchange env request (wire w)))) w') ->
  outcome (HTTPClient._send env self method url params data) w P.
Proof.
  intros request. unfold outcome, HTTPClient._send, exchange, dispatched, sent.
  fold request.
  cbv beta iota zeta delta
    [bind ret raise emit try_except lift_sum session_send record].
  destruct (prepare_request env request) as [purl|e]; cbn.
  - destruct (HTTPClient.request_recorder self); cbn;
      (destruct (transport env (wire w) request) as [r|e]; cbn;
       [ intros H; apply H; cbn; try reflexivity; intros ? [=]
       | destruct (is_RequestException e) eqn:E; cbn;
         intros H; apply H; cbn; try reflexivity;
         intros e' [= <-] E'; first [congruence | eexists; reflexivity] ]).
  - destruct (is_RequestException e) eqn:E; cbn;
      intros H; apply H; cbn; try reflexivity;
      try (now rewrite app_nil_r);
      intros e' [= <-] E'; first [congruence | eexists; reflexivity].
Qed.

Lemma outcome_get (url : string) (params : option dict) (w : World)
    (P : Result (option Response) -> World -> Prop) :
  let request := mkRequest "GET" url params None in
  (forall w',
      sent w w' (fst (exchange env request (wire w))) ->
      stdin w' = stdin w ->
      P (dispatched (snd (exchange env request (wire w)))) w') ->
  outcome (HTTPClient.get env self url params) w P.
Proof.
  intros request H. unfold HTTPClient.get. apply outcome_send.
  intros w' Hs Hi _. now apply H.
Qed.

Lemma outcome_post (url : string) (data : option dict) (w : World)
    (P : Result (option Response) -> World -> Prop) :
  let request := mkRequest "POST" url None data in
  (forall w',
      sent w w' (fst (exchange env request (wire w))) ->
      stdin w' = stdin w ->
      P (dispatched (snd (exchange env request (wire w)))) w') ->
  outcome (HTTPClient.post env self url data) w P.
Proof.
  intros request H. unfold HTTPClient.post. apply outcome_send.
  intros w' Hs Hi _. now apply H.
Qed.

Lemma dispatched_never_propagates (x : Response + exn) :
  propagates_transport_error (dispatched x) = false.
Proof.
  destruct x as [r|e]; [reflexivity|]. simpl.
  destruct (is_RequestException e) eqn:E; simpl; [reflexivity | exact E].
Qed.

(** The classifier sends nothing and returns whether the response is
    truthy and its body holds the payload. *)
Lemma outcome_check_xss_reflection (response : option Response) (payload : string)
    (w : World) (P : Result bool -> World -> Prop) :
  (forall w', same_io w w' ->
              P (Val (if_not response false
                        (fun r => PyStr.contains payload (text r)))) w') ->
  outcome (HTTPClient.check_xss_reflection response payload) w P.
Proof.
  intros H. unfold HTTPClient.check_xss_reflection, if_not in *.
  destruct response as [r|]; [|apply outcome_ret, H, same_io_refl].
  destruct (Response_ok r); [|apply outcome_ret, H, same_io_refl].
  destruct (PyStr.contains payload (text r)).
  - apply outcome_bind, outcome_emit. intros w1 Hio _.
    apply outcome_ret, H, Hio.
  - destruct (existsb _ _);
      apply outcome_bind, outcome_emit; intros w1 Hio _;
      apply outcome_ret, H, Hio.
Qed.

End Dispatcher.

(** Test doubles: a target given by its answers, with a transport that
    prepares every request, and an HTML parser that finds nothing. *)
Definition stub_env (answer : list Request -> Request -> Response + exn) : Env :=
  mkEnv (fun r => inl (req_url r)) answer
        (fun _ _ => None) (fun _ => None) (fun _ => None) (fun _ => None)
        (fun _ _ => inl None).

(** A fresh run: nothing sent or logged yet, the operator's answers given. *)
Definition fresh_world (answers : list Input) : World :=
  mkWorld [] [] answers [] [].

Definition localhost : TargetConfig.t := TargetConfig.init "localhost" 80 false.

(** What [_send] has logged for [request] when it lets an exception
    through: the request, if it could be prepared, and no error entry. *)
Definition logged_request (env : Env) (request : Request) : list logger.Event :=
  match prepare_request env request with
  | inl prepared_url =>
      [logger.http_request (method request) prepared_url
         (if String.eqb (method request) "GET" then params request else data request)]
  | inr _ => []
  end.

(** What get and post do with what preparing and sending [request] did:
    the response is returned; a RequestException gives none and a last log
    entry of level ERROR naming it; an exception of another class comes
    out as it is, the log holding the request at most. *)
Definition at_boundary (env : Env) (request : Request) (w : World)
    (out : Result (option Response) * World) : Prop :=
  match snd (exchange env request (wire w)) with
  | inl r => fst out = Val (Some r)
  | inr e =>
      if is_RequestException e then
        fst out = Val None
        /\ exists before,
             log (snd out)
             = (before
                ++ [logger.operational
                      (method request ++ " request failed: " ++ exn_str e) ERROR])%list
      else
        fst out = Raise e
        /\ log (snd out) = (log w ++ logged_request env request)%list
  end.

Lemma send_at_boundary (env : Env) (self : HTTPClient.t) (name url : string)
    (query form : option dict) (w : World) :
  HTTPClient.upper name = name ->
  at_boundary env (mkRequest name url query form) w
    (HTTPClient._send env self name url query form w).
Proof.
  intros Upper. unfold at_boundary, logged_request, exchange, HTTPClient._send.
  rewrite Upper.
  cbv beta iota zeta delta
    [bind ret raise emit try_except lift_sum session_send record].
  cbn [method params data fst snd wire log].
  destruct (prepare_request env (mkRequest name url query form)) as [purl|e];
    cbn [fst snd wire log].
  - destruct (HTTPClient.request_recorder self); cbn [fst snd wire log];
      (destruct (transport env (wire w) (mkRequest name url query form)) as [r|e];
       cbn [fst snd wire log];
       [ reflexivity
       | destruct (is_RequestException e); cbn [fst snd wire log];
         [ split; [reflexivity | eexists; reflexivity]
         | split; reflexivity ] ]).
  - destruct (is_RequestException e); cbn [fst snd wire log].
    + split; [reflexivity | eexists; reflexivity].
    + split; [reflexivity | now rewrite app_nil_r].
Qed.

(** C6, as stated, fails: the boundary catches the exceptions of the HTTP
    library, not every exception of the transport.  A host name that the
    connection pool cannot parse makes sending raise urllib3's
    LocationParseError, which is no RequestException: get lets it through
    and logs no error. *)
Lemma C6_counterexample :
  let failure := OtherError "LocationParseError: Failed to parse: a..b" in
  let env := stub_env (fun _ _ => inr failure) in
  let got := HTTPClient.get env (HTTPClient.mk false) "http://a..b/x" None (fresh_world []) in
  fst got = Raise failure
  /\ fst got <> Val None
  /\ log (snd got) = [logger.http_request "GET" "http://a..b/x" None].
Proof.
  split; [reflexivity|]. split; [discriminate | reflexivity].
Qed.

(** C6, amended. get(url, query?) and post(url, formFields?) catch the
    RequestExceptions of the HTTP library: when preparing or sending the
    request raises one, they return none and the last log entry is an
    error-level entry naming the failure, and no RequestException ever
    comes out of them.  An exception of any other class raised there comes
    out unchanged, with no error entry logged.  When the request is
    answered, they return the response received. *)
Theorem C6_dispatcher_boundary (env : Env) (self : HTTPClient.t)
    (url : string) (fields : option dict) (w : World) :
  let got := HTTPClient.get env self url fields w in
  let posted := HTTPClient.post env self url fields w in
  propagates_transport_error (fst got) = false
  /\ propagates_transport_error (fst posted) = false
  /\ at_boundary env (mkRequest "GET" url fields None) w got
  /\ at_boundary env (mkRequest "POST" url None fields) w posted.
Proof.
  intros got posted.
  pose proof (send_at_boundary env self "GET" url fields None w eq_refl) as G.
  pose proof (send_at_boundary env self "POST" url None fields w eq_refl) as Q.
  fold (HTTPClient.get env self url fields) in G.
  fold (HTTPClient.post env self url fields) in Q.
  fold got in G. fold posted in Q.
  split; [|split; [|split; [exact G | exact Q]]].
  - unfold at_boundary in G.
    destruct (snd (exchange env (mkRequest "GET" url fields None) (wire w))) as [r|e].
    + now rewrite G.
    + destruct (is_RequestException e) eqn:E; destruct G as [-> _]; [reflexivity | exact E].
  - unfold at_boundary in Q.
    destruct (snd (exchange env (mkRequest "POST" url None fields) (wire w))) as [r|e].
    + now rewrite Q.
    + destruct (is_RequestException e) eqn:E; destruct Q as [-> _]; [reflexivity | exact E].
Qed.

(** C3, where the code departs from it.  [if not response] is false for
    a response object whose status is an HTTP error, so a 500 page that
    echoes the payload verbatim is classified as not reflected. *)
Theorem C3_error_status_hides_reflection :
  let payload := "<script>alert(1)</script>" in
  let response :=
    mkResponse 500 "http://localhost/vulnerabilities/xss_r/?name=x"
      ("<pre>Hello " ++ payload ++ "</pre>") in
  PyStr.contains payload (text response) = true
  /\ forall w, HTTPClient.check_xss_reflection (Some response) payload w = (Val false, w).
Proof.
  split; reflexivity.
Qed.

(** Code that only logs: it returns, sends nothing and asks nothing. *)
Definition log_only {A} (c : M A) : Prop :=
  forall w, exists a w', c w = (Val a, w') /\ same_io w w'.

Lemma log_only_ret {A} (a : A) : log_only (ret a).
Proof. intros w. exists a, w. split; [reflexivity | apply same_io_refl]. Qed.

Lemma log_only_emit (e : logger.Event) : log_only (emit e).
Proof. intros w. eexists; eexists. split; [reflexivity | split; reflexivity]. Qed.

Lemma log_only_bind {A B} (c : M A) (k : A -> M B) :
  log_only c -> (forall a, log_only (k a)) -> log_only (bind c k).
Proof.
  intros Hc Hk w. destruct (Hc w) as (a & w1 & E1 & S1).
  destruct (Hk a w1) as (b & w2 & E2 & S2).
  exists b, w2. unfold bind. rewrite E1. split; [exact E2|].
  eapply same_io_trans; eassumption.
Qed.

Lemma log_only_if {A} (b : bool) (c1 c2 : M A) :
  log_only c1 -> log_only c2 -> log_only (if b then c1 else c2).
Proof. destruct b; auto. Qed.

Create HintDb log_only.
#[export] Hint Resolve log_only_ret log_only_emit log_only_bind log_only_if : log_only.

Lemma outcome_log_only {A} (c : M A) (w : World) (P : Result A -> World -> Prop) :
  log_only c -> (forall a w', same_io w w' -> P (Val a) w') -> outcome c w P.
Proof.
  intros Hc H. destruct (Hc w) as (a & w' & E & S).
  unfold outcome. rewrite E. now apply H.
Qed.

Lemma log_only_show_exploits (todo : list DOMXSSModule.exploit) :
  forall i, log_only (DOMXSSModule.show_exploits i todo).
Proof.
  induction todo as [|e rest IH]; intros i; simpl; auto 10 with log_only.
Qed.

Lemma log_only_explain_vulnerable_code : log_only DOMXSSModule._explain_vulnerable_code.
Proof. unfold DOMXSSModule._explain_vulnerable_code. auto with log_only. Qed.

Lemma log_only_demonstrate_exploit_urls (self : DOMXSSModule.t) :
  log_only (DOMXSSModule._demonstrate_exploit_urls self).
Proof.
  unfold DOMXSSModule._demonstrate_exploit_urls.
  apply log_only_bind; [apply log_only_emit|]. intros _. apply log_only_show_exploits.
Qed.

Lemma log_only_explain_manual_testing : log_only DOMXSSModule._explain_manual_testing.
Proof. unfold DOMXSSModule._explain_manual_testing. auto with log_only. Qed.

#[export] Hint Resolve log_only_show_exploits log_only_explain_vulnerable_code
  log_only_demonstrate_exploit_urls log_only_explain_manual_testing : log_only.

(** One step of an effectful computation, by the lemma of its head. *)
Ltac mstep :=
  lazymatch goal with
  | |- outcome (bind _ _) _ _ => apply outcome_bind
  | |- outcome (ret _) _ _ => apply outcome_ret
  | |- outcome (emit _) _ _ =>
      apply outcome_emit; let w := fresh "w" in intros w [? ?] _
  | |- outcome (declined _ _) _ _ =>
      apply outcome_declined; let w := fresh "w" in intros w ? ?
  | |- outcome (HTTPClient.get _ _ _ _) _ _ =>
      apply outcome_get; let w := fresh "w" in intros w ? ?
  | |- outcome (HTTPClient.post _ _ _ _) _ _ =>
      apply outcome_post; let w := fresh "w" in intros w ? ?
  | |- outcome (HTTPClient.check_xss_reflection _ _) _ _ =>
      apply outcome_check_xss_reflection; let w := fresh "w" in intros w [? ?]
  | |- outcome (if _ then _ else _) _ _ => fail
  | |- outcome (if_not _ _ _) _ _ => fail
  | |- outcome _ _ _ =>
      apply outcome_log_only;
      [ solve [auto 10 with log_only]
      | let w := fresh "w" in intros ? w [? ?] ]
  | |- _ => progress cbv beta iota
  end.

(** Reads every world back to the first one. *)
Ltac rewind :=
  unfold sent, exchange in *;
  repeat match goal with
         | H : wire ?x = _ |- _ => progress (rewrite H in * )
         | H : stdin ?x = _ |- _ => progress (rewrite H in * )
         end.

(* ================================================================== *)
(** * DOM scenario module *)
(* ================================================================== *)

(** A prompt lets the run go on: the run is unattended, or the
    operator's next answer is y or yes. *)
Definition consented (interactive : bool) (answers : list Input) : bool :=
  negb interactive || next_approves answers.

Lemma consented_declined (interactive : bool) (answers : list Input) :
  interactive && negb (next_approves answers) = negb (consented interactive answers).
Proof. unfold consented. destruct interactive, (next_approves answers); reflexivity. Qed.

Lemma second_declined (interactive : bool) (answers : list Input) :
  interactive && negb (next_approves (if interactive then tl answers else answers))
  = negb (consented interactive (tl answers)).
Proof. unfold consented. destruct interactive; [|reflexivity]. now destruct (next_approves _). Qed.

(** Reads every world back to the first one, the exchanges kept folded. *)
Ltac rewire :=
  unfold sent in *;
  repeat match goal with
         | H : wire ?x = _ |- _ => progress (rewrite H in * )
         | H : stdin ?x = _ |- _ => progress (rewrite H in * )
         end.

Lemma exchange_sends (env : Env) (request : Request) (history : list Request) :
  fst (exchange env request history) = []
  \/ fst (exchange env request history) = [request].
Proof.
  unfold exchange. destruct (prepare_request env request); auto.
Qed.

Lemma exchange_answered (env : Env) (request : Request) (history : list Request)
    (r : Response) :
  snd (exchange env request history) = inl r ->
  fst (exchange env request history) = [request].
Proof.
  unfold exchange. destruct (prepare_request env request); [reflexivity | discriminate].
Qed.

Section DOM.
Variable env : Env.
Variable self : DOMXSSModule.t.

Definition page_request : Request :=
  mkRequest "GET"
    (TargetConfig.get_dvwa_url (DOMXSSModule.config self) DOMXSSModule.xss_dom_path)
    None None.

(** Whether the run gets past its two prompts. *)
Definition go_ahead (interactive : bool) (answers : list Input) : bool :=
  negb interactive
  || (next_approves answers && next_approves (tl answers)).

Lemma go_ahead_consented (interactive : bool) (answers : list Input) :
  go_ahead interactive answers
  = consented interactive answers && consented interactive (tl answers).
Proof. unfold go_ahead, consented. now destruct interactive. Qed.

(** What the run sends: the GET of the page, when the first prompt lets
    it through and the request can be prepared, and nothing else. *)
Definition dom_sent (interactive : bool) (w : World) : list Request :=
  if consented interactive (stdin w)
  then fst (exchange env page_request (wire w))
  else [].

(** The whole run: its result and what it sends. *)
Lemma outcome_dom_run (interactive : bool) (w : World) :
  outcome (DOMXSSModule.run_interactive env self interactive) w
    (fun r w' =>
       wire w' = (wire w ++ dom_sent interactive w)%list
       /\ match snd (exchange env page_request (wire w)) with
          | inl resp =>
              r = Val (go_ahead interactive (stdin w) && Response_ok resp)
          | inr e =>
              r = if consented interactive (stdin w) && negb (is_RequestException e)
                  then Raise e else Val false
          end).
Proof.
  unfold DOMXSSModule.run_interactive, dom_sent. rewrite go_ahead_consented.
  repeat mstep. rewire. rewrite consented_declined.
  destruct (consented interactive (stdin w)) eqn:First; cbn [negb andb].
  2:{ (* stopped at the first prompt *)
      repeat mstep. rewire. split; [now rewrite app_nil_r|].
      now destruct (snd (exchange env page_request (wire w))). }
  repeat mstep. fold page_request in *. rewire.
  destruct (exchange env page_request (wire w)) as [sent1 [resp|e]];
    cbn [fst snd dispatched] in *.
  2:{ (* preparing or sending raised *)
      destruct (is_RequestException e); cbn [negb].
      - unfold if_not. repeat mstep. rewire. auto.
      - auto. }
  unfold if_not. destruct (Response_ok resp) eqn:Ok.
  2:{ repeat mstep. rewire. split; [reflexivity|]. now rewrite andb_false_r. }
  repeat mstep. rewire. rewrite second_declined, andb_true_r.
  destruct (consented interactive (tl (stdin w))); cbn [negb];
    repeat mstep; rewire; auto.
Qed.
End DOM.

Lemma exploit_url_differs (self : DOMXSSModule.t) (e : DOMXSSModule.exploit) :
  In e (DOMXSSModule.exploits (req_url (page_request self))) ->
  DOMXSSModule.exploit_url e <> req_url (page_request self).
Proof.
  simpl. intros [<-|[<-|[<-|[<-|[]]]]]; simpl; intros H;
    apply append_eq_self in H; discriminate.
Qed.

(** C9, as stated, fails: in a non-interactive run the GET returns a
    response, a 404 page, and the module reports failure. *)
Lemma C9_counterexample :
  let env := stub_env (fun _ r => inl (mkResponse 404 (req_url r) "Not Found")) in
  let self := DOMXSSModule.mk (HTTPClient.mk false) localhost in
  fst (HTTPClient.get env (DOMXSSModule.http self) (req_url (page_request self)) None
         (fresh_world []))
  = Val (Some (mkResponse 404 "http://localhost/vulnerabilities/xss_d/" "Not Found"))
  /\ fst (DOMXSSModule.run_interactive env self false (fresh_world [])) = Val false.
Proof.
  split; reflexivity.
Qed.

(** C9, amended. The DOM module's result does not depend on a classifier:
    when the GET of the DOM page is answered, the run returns success
    exactly when the response is not an HTTP error (its status is outside
    400..599) and the operator approved both prompts (no prompt is shown
    in non-interactive mode); the body is not consulted.  When preparing or
    sending that GET raises, the run returns false, or lets the exception
    through if it is no RequestException.  Whatever happens, the run sends
    at most that one GET, and sends it exactly when the first prompt lets
    it through and the request can be prepared; the GET carries no query
    and no form, and its URL is none of the exploit URLs the run shows. *)
Theorem C9_dom_module (env : Env) (self : DOMXSSModule.t) (interactive : bool)
    (w : World) :
  let out := DOMXSSModule.run_interactive env self interactive w in
  (forall resp,
      snd (exchange env (page_request self) (wire w)) = inl resp ->
      fst out = Val (go_ahead interactive (stdin w) && Response_ok resp))
  /\ (forall e,
        snd (exchange env (page_request self) (wire w)) = inr e ->
        fst out = if consented interactive (stdin w) && negb (is_RequestException e)
                  then Raise e else Val false)
  /\ wire (snd out) = (wire w ++ dom_sent env self interactive w)%list
  /\ (dom_sent env self interactive w = []
      \/ dom_sent env self interactive w = [page_request self])
  /\ params (page_request self) = None
  /\ data (page_request self) = None
  /\ Forall (fun e => DOMXSSModule.exploit_url e <> req_url (page_request self))
        (DOMXSSModule.exploits (req_url (page_request self))).
Proof.
  intros out.
  pose proof (outcome_dom_run env self interactive w) as H.
  unfold outcome in H. fold out in H. destruct H as [Hsent Hres].
  split; [|split; [|split; [exact Hsent | split]]].
  - intros resp E. now rewrite E in Hres.
  - intros e E. now rewrite E in Hres.
  - unfold dom_sent. destruct (consented interactive (stdin w)); [|now left].
    destruct (exchange_sends env (page_request self) (wire w)); auto.
  - split; [reflexivity|]. split; [reflexivity|].
    apply Forall_forall. intros e. apply exploit_url_differs.
Qed.

Lemma C9_witness :
  let env := stub_env (fun _ r => inl (mkResponse 200 (req_url r) "<select></select>")) in
  let self := DOMXSSModule.mk (HTTPClient.mk false) localhost in
  fst (DOMXSSModule.run_interactive env self false (fresh_world [])) = Val true
  /\ fst (DOMXSSModule.run_interactive env self true
            (fresh_world [Line ("y" ++ NBSP); Line " Yes "]))
     = Val true
  /\ wire (snd (DOMXSSModule.run_interactive env self false (fresh_world [])))
     = [page_request self].
Proof.
  intros env self.
  pose proof (C9_dom_module env self false (fresh_world [])) as (H1 & _ & W1 & _).
  pose proof (C9_dom_module env self true (fresh_world [Line ("y" ++ NBSP); Line " Yes "]))
    as (H2 & _).
  split; [exact (H1 _ eq_refl)|]. split; [exact (H2 _ eq_refl) | exact W1].
Defined.
(* ================================================================== *)
(** * Session authenticator *)
(* ================================================================== *)

Module AuthSpec.

Import DVWAAuthenticator.

(** The GET of the login page. *)
Definition login_page_request (self : t) : Request :=
  mkRequest "GET" (base_url self ++ "/login.php") None None.

(** The credentials POST, with the token of the login page if it has one. *)
Definition credentials_request (env : Env) (self : t) (username password : string)
    (page : Response) : Request :=
  let login_data := [("username", username); ("password", password); ("Login", "Login")] in
  mkRequest "POST" (base_url self ++ "/login.php") None
    (Some match _extract_csrf_token env (text page) with
          | Some token => (login_data ++ [("user_token", token)])%list
          | None => login_data
          end).

(** The post-login response: the answer to the credentials POST, when
    login gets as far as receiving one. *)
Definition post_login_response (env : Env) (self : t) (username password : string)
    (history : list Request) : option Response :=
  match snd (exchange env (login_page_request self) history) with
  | inl page =>
      if (status_code page =? 200)%Z then
        match snd (exchange env (credentials_request env self username password page)
                     (history ++ fst (exchange env (login_page_request self) history))%list) with
        | inl r => Some r
        | inr _ => None
        end
      else None
  | inr _ => None
  end.

(** The response URL still points at the login page. *)
Definition is_login_page (r : Response) : bool := PyStr.contains "login.php" (url r).

(** A call that returned true. *)
Definition succeeded (r : Result (bool * t)) : bool :=
  match r with
  | Val (true, _) => true
  | _ => false
  end.

(** The state Authenticated of an authenticator. *)
Definition authenticated (self : t) : t :=
  mk (base_url self) (security_level self) true.

(** Calls other than login. *)
Definition is_login_call (c : call) : bool :=
  match c with
  | call_login _ _ => true
  | _ => false
  end.

End AuthSpec.

(** One case analysis on what the outside world, or a test of the code
    on its answer, gives. *)
Ltac case_world :=
  match goal with
  | |- context [prepare_request ?e ?r] => destruct (prepare_request e r)
  | |- context [transport ?e ?h ?r] => destruct (transport e h r)
  | |- context [is_Exception ?e] => destruct (is_Exception e)
  | |- context [is_RequestException ?e] => destruct (is_RequestException e)
  | |- context [(?a =? ?b)%Z] => destruct (a =? b)%Z
  | |- context [DVWAAuthenticator._extract_csrf_token ?e ?t] =>
      destruct (DVWAAuthenticator._extract_csrf_token e t)
  | |- context [soup_find_selected_option ?e ?t] => destruct (soup_find_selected_option e t)
  | |- context [re_search_level ?e ?t] => destruct (re_search_level e t)
  | |- context [PyStr.mem ?a ?b] => destruct (PyStr.mem a b)
  end;
  cbn [fst snd negb wire log stdin recorded session_headers
       DVWAAuthenticator._logged_in].

Section Authenticator.

Import DVWAAuthenticator AuthSpec.

Variable env : Env.

Lemma login_cases (self : t) (username password : string) (w : World) :
  succeeded (fst (login env self username password w))
  = match post_login_response env self username password (wire w) with
    | Some resp => negb (is_login_page resp) && (status_code resp =? 200)%Z
    | None => false
    end
  /\ (forall resp,
         post_login_response env self username password (wire w) = Some resp ->
         fst (login env self username password w)
         = Val (if negb (is_login_page resp) && (status_code resp =? 200)%Z
                then (true, authenticated self) else (false, self)))
  /\ (forall b self', fst (login env self username password w) = Val (b, self') ->
                      self' = if b then authenticated self else self).
Proof.
  cbv [login post_login_response exchange credentials_request login_page_request
       bind try_except emit ret raise session_get session_post session_request
       session_send lift_sum is_login_page authenticated succeeded].
  cbn [wire fst snd].
  destruct (prepare_request env _) as [u1|e1]; cbn [wire fst snd].
  2:{ destruct (is_RequestException e1); cbn; repeat split; try discriminate;
      intros b self' [= <- <-]; reflexivity. }
  destruct (transport env (wire w) _) as [page|e1]; cbn [wire fst snd].
  2:{ destruct (is_RequestException e1); cbn; repeat split; try discriminate;
      intros b self' [= <- <-]; reflexivity. }
  destruct (status_code page =? 200)%Z; cbn [negb wire fst snd].
  2:{ repeat split; try discriminate; intros b self' [= <- <-]; reflexivity. }
  destruct (_extract_csrf_token env (text page)) as [token|];
    cbn [wire log stdin recorded session_headers fst snd];
    (destruct (prepare_request env _) as [u2|e2];
     cbn [wire log stdin recorded session_headers fst snd];
     [ destruct (transport env _ _) as [resp|e2];
       cbn [wire log stdin recorded session_headers fst snd];
       [ destruct (negb (PyStr.contains "login.php" (url resp))
                   && (status_code resp =? 200)%Z) eqn:Ok;
         cbn [wire log stdin recorded session_headers fst snd];
         repeat split;
         [ intros r [= <-]; now rewrite Ok
         | intros b self' [= <- <-]; reflexivity
         | intros r [= <-]; now rewrite Ok
         | intros b self' [= <- <-]; reflexivity ]
       | ]
     | ];
     destruct (is_RequestException e2); cbn; repeat split; try discriminate;
     intros b self' [= <- <-]; reflexivity).
Qed.


(** After a call, the object is authenticated exactly when it was
    before or the call is a login that succeeded. *)
Lemma after_login (self : t) (username password : string) (w : World) :
  fst (after self (login env self username password w))
  = if succeeded (fst (login env self username password w))
    then authenticated self else self.
Proof.
  pose proof (login_cases self username password w) as [_ [_ H]].
  unfold after.
  destruct (login env self username password w) as [[[b self']|e] w']; cbn in *.
  - rewrite (H b self' eq_refl). now destruct b.
  - reflexivity.
Qed.

Lemma detect_security_level_keeps (self : t) (w : World) :
  _logged_in (fst (after self (detect_security_level env self w))) = _logged_in self.
Proof.
  cbv [detect_security_level after bind try_except emit ret raise session_get
       session_request session_send lift_sum].
  destruct (_logged_in self) eqn:L; cbn [negb fst snd]; [|exact L].
  repeat case_world; auto.
Qed.

Lemma set_security_level_keeps (self : t) (level : string) (w : World) :
  _logged_in (fst (after self (set_security_level env self level w))) = _logged_in self.
Proof.
  cbv [set_security_level after bind try_except emit ret raise session_get session_post
       session_request session_send lift_sum].
  destruct (_logged_in self) eqn:L; cbn [negb fst snd]; [|exact L].
  repeat case_world; auto.
Qed.

Lemma perform_logged_in (c : call) (self : t) (w : World) :
  _logged_in (fst (perform env c self w))
  = _logged_in self
    || match c with
       | call_login username password =>
           succeeded (fst (login env self username password w))
       | _ => false
       end.
Proof.
  destruct c; cbn [perform keep fst].
  - rewrite after_login.
    destruct (succeeded _); cbn; now rewrite ?orb_true_r, ?orb_false_r.
  - now rewrite detect_security_level_keeps, orb_false_r.
  - now rewrite set_security_level_keeps, orb_false_r.
  - now rewrite orb_false_r.
  - now rewrite orb_false_r.
  - now rewrite orb_false_r.
Qed.

Lemma perform_all_stays_authenticated (cs : list call) (self : t) (w : World) :
  _logged_in self = true -> _logged_in (fst (perform_all env cs self w)) = true.
Proof.
  revert self w. induction cs as [|c cs IH]; intros self w L; cbn [perform_all].
  - exact L.
  - pose proof (perform_logged_in c self w) as H.
    destruct (perform env c self w) as [self' w']. cbn [fst] in H.
    apply IH. rewrite H, L. reflexivity.
Qed.

Lemma perform_all_stays_unauthenticated (cs : list call) (self : t) (w : World) :
  forallb (fun c => negb (is_login_call c)) cs = true ->
  _logged_in (fst (perform_all env cs self w)) = _logged_in self.
Proof.
  revert self w. induction cs as [|c cs IH]; intros self w N; cbn [perform_all].
  - reflexivity.
  - cbn [forallb] in N. apply andb_prop in N as [Nc N].
    pose proof (perform_logged_in c self w) as H.
    destruct (perform env c self w) as [self' w']. cbn [fst] in H.
    rewrite (IH self' w' N), H.
    destruct c; try discriminate; apply orb_false_r.
Qed.

Lemma detect_security_level_unauthenticated (self : t) (w : World) :
  _logged_in self = false ->
  fst (detect_security_level env self w) = Val (None, self)
  /\ wire (snd (detect_security_level env self w)) = wire w.
Proof.
  intros L. unfold detect_security_level. rewrite L. split; reflexivity.
Qed.

End Authenticator.

(** A DVWA double: every GET is answered with the page asked for; the
    credentials POST lands on index.php when the password is [password],
    and back on login.php otherwise. *)
Definition dvwa_double : Env :=
  stub_env (fun _ r =>
    if String.eqb (method r) "GET" then inl (mkResponse 200 (req_url r) "<form></form>")
    else
      match data r with
      | Some form =>
          if match dict_get form "password" with
             | Some p => String.eqb p "password"
             | None => false
             end
          then inl (mkResponse 200 "http://localhost/index.php" "Welcome")
          else inl (mkResponse 200 "http://localhost/login.php" "Login failed")
      | None => inl (mkResponse 200 (req_url r) "no form")
      end).

(** C4. login declares success exactly when a post-login response came
    back whose URL is not that of the login page (login.php does not occur
    in it) and whose status is 200.  When the post-login response still
    points at the login page, login returns false and leaves the object as
    it was; if it was unauthenticated, then after any further calls other
    than login every detect_security_level returns None and sends nothing.
    The object after login is the authenticated one exactly when login
    succeeded, and once it has succeeded the object stays authenticated
    through every later sequence of calls, logins that fail included. *)
Theorem C4_login_state_machine (env : Env) (self : DVWAAuthenticator.t)
    (username password : string) (w : World) :
  let out := DVWAAuthenticator.login env self username password w in
  let login_first cs :=
    DVWAAuthenticator.perform_all env
      (DVWAAuthenticator.call_login username password :: cs) self w in
  (AuthSpec.succeeded (fst out) = true <->
   exists resp,
     AuthSpec.post_login_response env self username password (wire w) = Some resp
     /\ AuthSpec.is_login_page resp = false /\ status_code resp = 200%Z)
  /\ (forall resp,
        AuthSpec.post_login_response env self username password (wire w) = Some resp ->
        AuthSpec.is_login_page resp = true ->
        fst out = Val (false, self)
        /\ (DVWAAuthenticator._logged_in self = false ->
            forall cs,
              forallb (fun c => negb (AuthSpec.is_login_call c)) cs = true ->
              let now := login_first cs in
              let detect := DVWAAuthenticator.detect_security_level env (fst now) (snd now) in
              DVWAAuthenticator._logged_in (fst now) = false
              /\ fst detect = Val (None, fst now)
              /\ wire (snd detect) = wire (snd now)))
  /\ fst (DVWAAuthenticator.after self out)
     = (if AuthSpec.succeeded (fst out) then AuthSpec.authenticated self else self)
  /\ (AuthSpec.succeeded (fst out) = true ->
      forall cs, DVWAAuthenticator._logged_in (fst (login_first cs)) = true).
Proof.
  intros out login_first. subst out login_first. cbv beta.
  pose proof (login_cases env self username password w) as [Iff [Exact _]].
  pose proof (after_login env self username password w) as After.
  split; [|split; [|split]].
  - rewrite Iff.
    destruct (AuthSpec.post_login_response env self username password (wire w)) as [resp|].
    + split.
      * intros H. apply andb_prop in H as [H1 H2].
        exists resp. split; [reflexivity|]. split.
        -- now destruct (AuthSpec.is_login_page resp).
        -- now apply Z.eqb_eq.
      * intros [resp' [[= <-] [H1 H2]]]. rewrite H1, H2. reflexivity.
    + split; [discriminate|]. intros [resp [H _]]. discriminate.
  - intros resp Hresp Hpage.
    pose proof (Exact resp Hresp) as R. rewrite Hpage in R. cbn [negb andb] in R.
    split; [exact R|].
    intros L cs Hcs now detect.
    assert (Hnow : DVWAAuthenticator._logged_in (fst now) = false).
    { unfold now. cbn [DVWAAuthenticator.perform_all DVWAAuthenticator.perform].
      destruct (DVWAAuthenticator.after self _) as [self1 w1] eqn:A.
      rewrite perform_all_stays_unauthenticated by exact Hcs.
      cbn [fst] in After. rewrite After, R. exact L. }
    split; [exact Hnow|].
    apply detect_security_level_unauthenticated. exact Hnow.
  - exact After.
  - intros Ok cs.
    cbn [DVWAAuthenticator.perform_all DVWAAuthenticator.perform].
    destruct (DVWAAuthenticator.after self _) as [self1 w1] eqn:A.
    apply perform_all_stays_authenticated.
    cbn [fst] in After. rewrite After, Ok. reflexivity.
Qed.

Lemma C4_witness :
  let self := DVWAAuthenticator.init "http://localhost/" in
  let rejected :=
    DVWAAuthenticator.login dvwa_double self "admin" "letmein" (fresh_world []) in
  let accepted :=
    DVWAAuthenticator.login dvwa_double self "admin" "password" (fresh_world []) in
  fst rejected = Val (false, self)
  /\ fst (DVWAAuthenticator.detect_security_level dvwa_double self (snd rejected))
     = Val (None, self)
  /\ AuthSpec.succeeded (fst accepted) = true
  /\ DVWAAuthenticator._logged_in
       (fst (DVWAAuthenticator.perform_all dvwa_double
               [DVWAAuthenticator.call_login "admin" "password";
                DVWAAuthenticator.call_login "admin" "letmein";
                DVWAAuthenticator.call_detect_security_level]
               self (fresh_world []))) = true.
Proof.
  intros self rejected accepted.
  pose proof (C4_login_state_machine dvwa_double self "admin" "letmein" (fresh_world []))
    as [_ [Rejected _]].
  pose proof (C4_login_state_machine dvwa_double self "admin" "password" (fresh_world []))
    as [Accepted [_ [_ Stays]]].
  destruct (Rejected (mkResponse 200 "http://localhost/login.php" "Login failed")
              eq_refl eq_refl) as [R Detect].
  destruct (Detect eq_refl [] eq_refl) as [_ [D _]].
  split; [exact R|]. split; [exact D|].
  assert (Ok : AuthSpec.succeeded (fst accepted) = true).
  { apply Accepted. exists (mkResponse 200 "http://localhost/index.php" "Welcome").
    split; [reflexivity|]. split; reflexivity. }
  split; [exact Ok|].
  exact (Stays Ok [DVWAAuthenticator.call_login "admin" "letmein";
                   DVWAAuthenticator.call_detect_security_level]).
Defined.
(* ================================================================== *)
(** * Stored scenario: one attempt *)
(* ================================================================== *)

Module StoredSpec.

Import StoredXSSModule.

Definition guestbook (self : t) : string :=
  TargetConfig.get_dvwa_url (config self) xss_stored_path.

(** The GET of the guestbook page: the authenticator sends it for the
    token before the POST, the HTTP client sends it again after it. *)
Definition page_get (self : t) : Request :=
  mkRequest "GET" (guestbook self) None None.

(** What [get_csrf_token] returns in [w], when it returns. *)
Definition token (env : Env) (self : t) (w : World) : option string :=
  match snd (exchange env (page_get self) (wire w)) with
  | inl r =>
      if (status_code r =? 200)%Z
      then DVWAAuthenticator._extract_csrf_token env (text r)
      else None
  | inr _ => None
  end.

(** The token fetch raises nothing that [except Exception] lets through. *)
Definition token_fetch_returns (env : Env) (self : t) (w : World) : bool :=
  match snd (exchange env (page_get self) (wire w)) with
  | inl _ => true
  | inr e => is_Exception e
  end.

Definition user_agent (w : World) : string :=
  match dict_get (session_headers w) "User-Agent" with
  | Some ua => ua
  | None => "python-requests"
  end.

(** The POST of [payload]. *)
Definition submission (env : Env) (self : t) (payload : string) (w : World) : Request :=
  mkRequest "POST" (guestbook self) None
    (Some (form_data payload (token env self w) (user_agent w))).

Definition wire_at_post (env : Env) (self : t) (w : World) : list Request :=
  (wire w ++ fst (exchange env (page_get self) (wire w)))%list.

(** The answer to the POST itself. *)
Definition post_answer (env : Env) (self : t) (payload : string) (w : World)
    : Response + exn :=
  snd (exchange env (submission env self payload w) (wire_at_post env self w)).

(** The answer to the GET that follows the POST. *)
Definition refetch_answer (env : Env) (self : t) (payload : string) (w : World)
    : Response + exn :=
  snd (exchange env (page_get self)
         (wire_at_post env self w
          ++ fst (exchange env (submission env self payload w)
                    (wire_at_post env self w)))%list).

(** What reading the two cookies of the curl example raises after the
    requests of [history], if it raises. *)
Definition cookie_failure (env : Env) (history : list Request) : option exn :=
  match cookies_get env history "PHPSESSID" with
  | inr message => Some (OtherError message)
  | inl _ =>
      match cookies_get env history "security" with
      | inr message => Some (OtherError message)
      | inl _ => None
      end
  end.

End StoredSpec.

(** The session's jar never holds two cookies of one name: reading a
    cookie raises nothing. *)
Definition reads_cookies (env : Env) : Prop :=
  forall history name, exists value, cookies_get env history name = inl value.

Lemma reads_cookies_failure (env : Env) (history : list Request) :
  reads_cookies env -> StoredSpec.cookie_failure env history = None.
Proof.
  intros Reads. unfold StoredSpec.cookie_failure.
  destruct (Reads history "PHPSESSID") as [v1 ->].
  destruct (Reads history "security") as [v2 ->]. reflexivity.
Qed.

Lemma cookie_failure_class (env : Env) (history : list Request) (e : exn) :
  StoredSpec.cookie_failure env history = Some e -> is_RequestException e = false.
Proof.
  unfold StoredSpec.cookie_failure.
  destruct (cookies_get env history "PHPSESSID"); [|now intros [= <-]].
  destruct (cookies_get env history "security"); [discriminate | now intros [= <-]].
Qed.

(** Code that leaves the session's headers alone. *)
Definition keeps_headers {A} (c : M A) : Prop :=
  forall w, session_headers (snd (c w)) = session_headers w.

Lemma keeps_headers_emit (e : logger.Event) : keeps_headers (emit e).
Proof. intros w. reflexivity. Qed.

Lemma keeps_headers_declined (interactive : bool) (prompt : string) :
  keeps_headers (declined interactive prompt).
Proof.
  intros w. unfold declined, _get_user_approval, bind, try_except, input, emit, ret.
  destruct interactive; [|reflexivity].
  destruct (stdin w) as [|[s| |] rest]; reflexivity.
Qed.

Lemma outcome_keeps {A} (c : M A) (w : World) (P : Result A -> World -> Prop) :
  keeps_headers c ->
  outcome c w (fun r w' => session_headers w' = session_headers w -> P r w') ->
  outcome c w P.
Proof. unfold outcome. intros K H. apply H, K. Qed.

Lemma log_only_stored_evidence (response : Response) (payload note : string) :
  log_only (StoredXSSModule._log_http_evidence response payload note).
Proof. apply log_only_emit. Qed.

#[export] Hint Resolve log_only_stored_evidence : log_only.



Section StoredAttempt.

Import StoredXSSModule StoredSpec.

Variable env : Env.

(** The token fetch: one GET through the authenticator's session; any
    [Exception] is swallowed. *)
Lemma outcome_get_csrf_token (url : string) (w : World)
    (P : Result (option string) -> World -> Prop) :
  let request := mkRequest "GET" url None None in
  (forall w',
      sent w w' (fst (exchange env request (wire w))) ->
      stdin w' = stdin w ->
      session_headers w' = session_headers w ->
      P match snd (exchange env request (wire w)) with
        | inl r =>
            Val (if (status_code r =? 200)%Z
                 then DVWAAuthenticator._extract_csrf_token env (text r)
                 else None)
        | inr e => if is_Exception e then Val None else Raise e
        end w') ->
  outcome (DVWAAuthenticator.get_csrf_token env url) w P.
Proof.
  intros request H.
  unfold outcome, DVWAAuthenticator.get_csrf_token, session_get, session_request.
  fold request. revert H. unfold exchange, sent.
  cbv [bind try_except emit ret raise session_send lift_sum].
  destruct (prepare_request env request) as [purl|e]; cbn [fst snd].
  - destruct (transport env (wire w) request) as [r|e]; cbn [fst snd].
    + destruct (status_code r =? 200)%Z; intros H; apply H; reflexivity.
    + destruct (is_Exception e); intros H; apply H; reflexivity.
  - destruct (is_Exception e); intros H; apply H; cbn;
      try reflexivity; now rewrite app_nil_r.
Qed.

Lemma outcome_get_user_agent (w : World) (P : Result string -> World -> Prop) :
  P (Val (user_agent w)) w -> outcome HTTPClient.get_user_agent w P.
Proof. unfold outcome. auto. Qed.

(** The curl example of the stored module: it reads the two cookies, and
    logs one entry when neither read raises. *)
Lemma outcome_stored_curl (method url : string) (w : World)
    (P : Result unit -> World -> Prop) :
  (forall w',
      same_io w w' ->
      session_headers w' = session_headers w ->
      P match cookie_failure env (wire w) with
        | Some e => Raise e
        | None => Val tt
        end w') ->
  outcome (_log_curl_examples env method url true) w P.
Proof.
  intros H. unfold outcome, _log_curl_examples, _build_cookie_fragment.
  cbn [cookie_pairs]. unfold HTTPClient.get_cookie, cookie_failure in *.
  cbv [bind ret emit]. cbn [fst snd wire].
  destruct (cookies_get env (wire w) "PHPSESSID") as [v1|e1]; cbn [fst snd wire].
  2:{ apply H; [apply same_io_refl | reflexivity]. }
  destruct (cookies_get env (wire w) "security") as [v2|e2]; cbn [fst snd wire].
  2:{ apply H; [apply same_io_refl | reflexivity]. }
  destruct v2 as [[|c2 v2]|], v1 as [[|c1 v1]|]; cbn [fst snd];
    (apply H; [split; reflexivity | reflexivity]).
Qed.

Lemma stored_attempt_cases (self : t) (payload description : string)
    (attempt_num : Z) (interactive : bool) (w : World) :
  outcome (_attempt_stored_payload env self payload description attempt_num interactive) w
    (fun r w' =>
       (r = Val true ->
        exists page,
          refetch_answer env self payload w = inl page
          /\ PyStr.contains payload (text page) = true
          /\ wire w'
             = (wire_at_post env self w
                ++ [submission env self payload w; page_get self])%list)
       /\ (forall echoed page,
             reads_cookies env ->
             token_fetch_returns env self w = true ->
             post_answer env self payload w = inl echoed ->
             refetch_answer env self payload w = inl page ->
             PyStr.contains payload (text page) = false ->
             r = Val false)).
Proof.
  unfold _attempt_stored_payload.
  apply outcome_bind, outcome_keeps; [apply keeps_headers_emit|]. mstep. intros Hh0.
  apply outcome_bind, outcome_keeps; [apply keeps_headers_emit|]. mstep. intros Hh1.
  apply outcome_bind, outcome_keeps; [apply keeps_headers_declined|]. mstep. intros Hh2.
  destruct (interactive && negb (next_approves (stdin w1))).
  { repeat mstep. split; [discriminate | reflexivity]. }
  apply outcome_bind, outcome_keeps; [apply keeps_headers_emit|]. mstep. intros Hh3.
  cbv zeta. apply outcome_bind, outcome_get_csrf_token.
  fold (guestbook self). fold (page_get self).
  intros w4 Hs4 Hi4 Hh4.
  assert (Eua : user_agent w4 = user_agent w).
  { unfold user_agent. now rewrite Hh4, Hh3, Hh2, Hh1, Hh0. }
  rewire.
  unfold token_fetch_returns, post_answer, refetch_answer, wire_at_post, submission, token.
  destruct (exchange env (page_get self) (wire w)) as [sent1 answer1];
    cbn [fst snd] in *.
  set (tok := match answer1 with
              | inl r =>
                  if (status_code r =? 200)%Z
                  then DVWAAuthenticator._extract_csrf_token env (text r)
                  else None
              | inr _ => None
              end).
  set (returns := match answer1 with inl _ => true | inr e => is_Exception e end).
  assert (Fetch :
            match answer1 with
            | inl r =>
                Val (if (status_code r =? 200)%Z
                     then DVWAAuthenticator._extract_csrf_token env (text r)
                     else None)
            | inr e => if is_Exception e then Val None else Raise e
            end
            = if returns then Val tok
              else match answer1 with
                   | inr e => Raise e
                   | inl _ => Val None
                   end).
  { unfold tok, returns. destruct answer1 as [r|e]; [reflexivity|].
    now destruct (is_Exception e). }
  rewrite Fetch. clear Fetch.
  destruct returns eqn:Returns.
  2:{ destruct answer1 as [r|e]; [discriminate|].
      split; [discriminate|]. intros echoed page _ [=]. }
  apply outcome_bind, outcome_get_user_agent. rewrite Eua.
  repeat mstep. apply outcome_stored_curl. intros jar1 [Hw6 Hi6] Hh6. rewire.
  match goal with
  | |- context [cookie_failure env ?h] =>
      destruct (cookie_failure env h) as [c1|] eqn:Jar1
  end; cbv beta iota.
  { split; [discriminate|]. intros echoed page Reads.
    rewrite (reads_cookies_failure env _ Reads) in Jar1. discriminate. }
  repeat mstep. rewire.
  set (post := mkRequest "POST" (guestbook self) None
                 (Some (form_data payload tok (user_agent w)))) in *.
  pose proof (exchange_answered env post (wire w ++ sent1)%list) as Posted.
  destruct (exchange env post (wire w ++ sent1)%list) as [sent2 [echoed|e2]];
    cbn [fst snd dispatched] in *.
  2:{ (* the POST raised *)
      destruct (is_RequestException e2).
      - unfold if_not. repeat mstep. split; [discriminate|reflexivity].
      - split; [discriminate|]. intros echoed page _ _ [=]. }
  rewrite (Posted echoed eq_refl) in *. clear Posted.
  unfold if_not at 1. destruct (Response_ok echoed).
  2:{ repeat mstep. split; [discriminate|reflexivity]. }
  repeat mstep. fold (page_get self) in *. rewire.
  destruct (exchange env (page_get self) ((wire w ++ sent1) ++ [post])%list)
    as [sent3 [page|e3]] eqn:Refetch; cbn [fst snd dispatched] in *.
  2:{ (* the GET raised *)
      destruct (is_RequestException e3).
      - repeat mstep. apply outcome_stored_curl. intros jar2 [Hw9 Hi9] Hh9.
        match goal with
        | |- context [cookie_failure env ?h] => destruct (cookie_failure env h) as [c2|]
        end; cbv beta iota.
        + split; [discriminate|]. intros echoed' page _ _ _ [=].
        + unfold if_not. repeat mstep. split; [discriminate|reflexivity].
      - split; [discriminate|]. intros echoed' page _ _ _ [=]. }
  assert (Sent3 : sent3 = [page_get self]).
  { pose proof (exchange_answered env (page_get self)
                  ((wire w ++ sent1) ++ [post])%list page) as E.
    rewrite Refetch in E. exact (E eq_refl). }
  subst sent3.
  repeat mstep. apply outcome_stored_curl. intros jar2 [Hw9 Hi9] Hh9. rewire.
  match goal with
  | |- context [cookie_failure env ?h] =>
      destruct (cookie_failure env h) as [c2|] eqn:Jar2
  end; cbv beta iota.
  { split; [discriminate|]. intros echoed' page' Reads.
    rewrite (reads_cookies_failure env _ Reads) in Jar2. discriminate. }
  unfold if_not. destruct (Response_ok page).
  2:{ repeat mstep. split; [discriminate|reflexivity]. }
  destruct (PyStr.contains payload (text page)) eqn:Found.
  - repeat mstep. rewire. split.
    + intros _. exists page. split; [reflexivity|]. split; [exact Found|].
      now rewrite <- !app_assoc.
    + intros echoed' page' _ _ _ [= <-] NotFound. congruence.
  - cbv zeta. apply outcome_bind.
    destruct (PyStr.contains
                (PyStr.replace ">" "&gt;" (PyStr.replace "<" "&lt;" payload))
                (text page)); repeat mstep;
      (split; [discriminate|reflexivity]).
Qed.

End StoredAttempt.

(** Guestbook doubles.  The echoing one answers a POST with the message
    it was sent and every GET with an empty guestbook: nothing persists.
    The storing one shows, on every GET, the messages posted so far. *)
Definition posted_message (r : Request) : string :=
  match data r with
  | Some form =>
      match dict_get form "mtxMessage" with
      | Some message => message
      | None => "no message"
      end
  | None => "no form"
  end.

Definition echoing_guestbook : Env :=
  stub_env (fun _ r =>
    if String.eqb (method r) "GET"
    then inl (mkResponse 200 (req_url r) "<div id=guestbook_comments></div>")
    else inl (mkResponse 200 (req_url r) ("<div>" ++ posted_message r ++ "</div>"))).

Definition storing_guestbook : Env :=
  stub_env (fun history r =>
    inl (mkResponse 200 (req_url r)
           (String.concat "<br>"
              (map posted_message
                 (filter (fun past => String.eqb (method past) "POST")
                    (history ++ [r])%list))))).

Definition guestbook_module : StoredXSSModule.t :=
  StoredXSSModule.init (HTTPClient.mk false) localhost
    (DVWAAuthenticator.init "http://localhost").

(** C2. An attempt of the stored module reports success only when the
    GET of the guestbook page that it sends after its POST, the last two
    requests on the wire, is answered with a body in which the literal
    payload occurs.  When the POST is answered with the payload in its
    body and the body of the GET that follows does not hold the payload,
    the attempt never reports success: it returns false, provided the
    token fetch raised nothing that except Exception lets through and
    the cookie reads of the two curl examples raise nothing. *)
Theorem C2_stored_success_needs_refetch (env : Env) (self : StoredXSSModule.t)
    (payload description : string) (attempt_num : Z) (interactive : bool) (w : World) :
  let out :=
    StoredXSSModule._attempt_stored_payload env self payload description attempt_num
      interactive w in
  (fst out = Val true ->
   exists page,
     StoredSpec.refetch_answer env self payload w = inl page
     /\ PyStr.contains payload (text page) = true
     /\ wire (snd out)
        = (StoredSpec.wire_at_post env self w
           ++ [StoredSpec.submission env self payload w; StoredSpec.page_get self])%list)
  /\ (forall echoed page,
        StoredSpec.post_answer env self payload w = inl echoed ->
        PyStr.contains payload (text echoed) = true ->
        StoredSpec.refetch_answer env self payload w = inl page ->
        PyStr.contains payload (text page) = false ->
        fst out <> Val true
        /\ (reads_cookies env ->
            StoredSpec.token_fetch_returns env self w = true ->
            fst out = Val false)).
Proof.
  intros out.
  pose proof (stored_attempt_cases env self payload description attempt_num interactive w)
    as [Success Failure].
  split.
  - exact Success.
  - intros echoed page Posted _ Refetched Absent. split.
    + intros True_. destruct (Success True_) as (page' & Refetched' & Found & _).
      rewrite Refetched in Refetched'. injection Refetched' as <-. congruence.
    + intros Reads Returns.
      exact (Failure echoed page Reads Returns Posted Refetched Absent).
Qed.

Lemma stub_reads_cookies (answer : list Request -> Request -> Response + exn) :
  reads_cookies (stub_env answer).
Proof. intros history name. exists None. reflexivity. Qed.

Lemma C2_witness :
  let payload := "<svg/onload=alert('XSS')>" in
  fst (StoredXSSModule._attempt_stored_payload echoing_guestbook guestbook_module
         payload "SVG onload event" 3 false (fresh_world []))
  = Val false
  /\ exists page,
       PyStr.contains payload (text page) = true
       /\ StoredSpec.refetch_answer storing_guestbook guestbook_module payload (fresh_world [])
          = inl page.
Proof.
  intros payload. split.
  - pose proof (C2_stored_success_needs_refetch echoing_guestbook guestbook_module
                  payload "SVG onload event" 3 false (fresh_world [])) as [_ Failure].
    refine (proj2 (Failure _ _ eq_refl eq_refl eq_refl eq_refl) _ eq_refl).
    intros history name. exists None. reflexivity.
  - pose proof (C2_stored_success_needs_refetch storing_guestbook guestbook_module
                  payload "SVG onload event" 3 false (fresh_world [])) as [Success _].
    destruct (Success eq_refl) as [page [Refetched [Found _]]].
    exists page. split; [exact Found | exact Refetched].
Defined.
(* ================================================================== *)
(** * Payload iteration *)
(* ================================================================== *)

(** The HTTP library raises nothing but its own exceptions. *)
Definition raises_only_request_exceptions (env : Env) : Prop :=
  forall request history e,
    snd (exchange env request history) = inr e -> is_RequestException e = true.

Section PayloadLoop.

(** One attempt, as a scenario module makes it, and the requests an
    attempt on a payload may send. *)
Variable attempt : string -> string -> Z -> M bool.
Variable allowed : string -> Request -> Prop.

(** [for i, (payload, key) in enumerate(todo, start=i):
       if attempt(payload, key, i): success = True; break] *)
Fixpoint loop (i : Z) (todo : list (string * string)) : M bool :=
  match todo with
  | [] => ret false
  | (payload, key) :: rest =>
      ok <- attempt payload key i ;;
      if ok then ret true else loop (i + 1) rest
  end.

(** The world after the attempts on [done], made in order from index
    [i], when every one of them returned false. *)
Fixpoint all_failed (i : Z) (done : list (string * string)) (w : World) : option World :=
  match done with
  | [] => Some w
  | (payload, key) :: rest =>
      match attempt payload key i w with
      | (Val false, w') => all_failed (i + 1) rest w'
      | _ => None
      end
  end.

(** The loop ended at the attempt on [payload] with result [r]: the
    payloads before it were attempted in order and failed, the ones
    after it were not attempted. *)
Definition ended_at (i : Z) (todo : list (string * string)) (w : World)
    (r : Result bool) (w' : World) : Prop :=
  exists pre payload key post w1,
    todo = (pre ++ (payload, key) :: post)%list
    /\ all_failed i pre w = Some w1
    /\ attempt payload key (i + Z.of_nat (List.length pre)) w1 = (r, w').

Lemma ended_at_later (i : Z) (payload key : string) (rest : list (string * string))
    (w w1 : World) (r : Result bool) (w' : World) :
  attempt payload key i w = (Val false, w1) ->
  ended_at (i + 1) rest w1 r w' ->
  ended_at i ((payload, key) :: rest) w r w'.
Proof.
  intros First (pre & p & k & post & w2 & -> & Failed & Last).
  exists ((payload, key) :: pre), p, k, post, w2.
  split; [reflexivity|]. split.
  - cbn [all_failed]. rewrite First. exact Failed.
  - cbn [List.length]. rewrite <- Last. f_equal. lia.
Qed.

Lemma loop_true (i : Z) (todo : list (string * string)) (w w' : World) :
  loop i todo w = (Val true, w') -> ended_at i todo w (Val true) w'.
Proof.
  revert i w. induction todo as [|[payload key] rest IH]; intros i w; cbn [loop].
  - discriminate.
  - unfold bind. destruct (attempt payload key i w) as [[[|]|e] w1] eqn:First.
    + intros [= <-]. exists [], payload, key, rest, w.
      split; [reflexivity|]. split; [reflexivity|].
      cbn [List.length Z.of_nat]. now rewrite Z.add_0_r.
    + intros Rest. eapply ended_at_later; eauto.
    + discriminate.
Qed.

Lemma loop_raise (i : Z) (todo : list (string * string)) (w w' : World) (e : exn) :
  loop i todo w = (Raise e, w') -> ended_at i todo w (Raise e) w'.
Proof.
  revert i w. induction todo as [|[payload key] rest IH]; intros i w; cbn [loop].
  - discriminate.
  - unfold bind. destruct (attempt payload key i w) as [[[|]|e1] w1] eqn:First.
    + discriminate.
    + intros Rest. eapply ended_at_later; eauto.
    + intros [= <- <-]. exists [], payload, key, rest, w.
      split; [reflexivity|]. split; [reflexivity|].
      cbn [List.length Z.of_nat]. now rewrite Z.add_0_r.
Qed.

Lemma loop_false (i : Z) (todo : list (string * string)) (w w' : World) :
  loop i todo w = (Val false, w') <-> all_failed i todo w = Some w'.
Proof.
  revert i w. induction todo as [|[payload key] rest IH]; intros i w;
    cbn [loop all_failed].
  - unfold ret. split; intros [= <-]; reflexivity.
  - unfold bind. destruct (attempt payload key i w) as [[[|]|e] w1].
    + split; discriminate.
    + apply IH.
    + split; discriminate.
Qed.

(** Every attempt sends only what is allowed for its payload. *)
Hypothesis attempt_sends :
  forall payload key i w,
  exists requests,
    wire (snd (attempt payload key i w)) = (wire w ++ requests)%list
    /\ Forall (allowed payload) requests.

Definition allowed_for (tried : list (string * string)) (r : Request) : Prop :=
  exists payload key, In (payload, key) tried /\ allowed payload r.

Lemma allowed_for_more (tried more : list (string * string)) (r : Request) :
  (forall x, In x tried -> In x more) -> allowed_for tried r -> allowed_for more r.
Proof. intros Sub (p & k & I & A). exists p, k. auto. Qed.

Lemma all_failed_sends (i : Z) (done : list (string * string)) (w w1 : World) :
  all_failed i done w = Some w1 ->
  exists requests,
    wire w1 = (wire w ++ requests)%list /\ Forall (allowed_for done) requests.
Proof.
  revert i w. induction done as [|[payload key] rest IH]; intros i w; cbn [all_failed].
  - intros [= <-]. exists []. split; [now rewrite app_nil_r | constructor].
  - destruct (attempt_sends payload key i w) as (first & Wire & First).
    destruct (attempt payload key i w) as [[[|]|e] w2]; try discriminate.
    cbn [snd] in Wire. intros Rest.
    destruct (IH _ _ Rest) as (others & Wire' & Others).
    exists (first ++ others)%list. split.
    + now rewrite Wire', Wire, app_assoc.
    + apply Forall_app. split.
      * eapply Forall_impl; [|exact First]. intros r A.
        exists payload, key. split; [left; reflexivity | exact A].
      * eapply Forall_impl; [|exact Others]. intros r.
        apply allowed_for_more. intros x I. right. exact I.
Qed.

(** A loop that ended at a payload sent nothing for a later one. *)
Definition stopped_at (i : Z) (todo : list (string * string)) (w : World)
    (r : Result bool) (w' : World) : Prop :=
  exists pre payload key post w1 requests,
    todo = (pre ++ (payload, key) :: post)%list
    /\ all_failed i pre w = Some w1
    /\ attempt payload key (i + Z.of_nat (List.length pre)) w1 = (r, w')
    /\ wire w' = (wire w ++ requests)%list
    /\ Forall (allowed_for (pre ++ [(payload, key)])) requests.

Lemma ended_at_sends (i : Z) (todo : list (string * string)) (w : World)
    (r : Result bool) (w' : World) :
  ended_at i todo w r w' -> stopped_at i todo w r w'.
Proof.
  intros (pre & payload & key & post & w1 & Split & Failed & Last).
  destruct (all_failed_sends _ _ _ _ Failed) as (before & Wire & Before).
  destruct (attempt_sends payload key (i + Z.of_nat (List.length pre)) w1)
    as (last & Wire' & Last').
  rewrite Last in Wire'. cbn [snd] in Wire'.
  exists pre, payload, key, post, w1, (before ++ last)%list.
  split; [exact Split|]. split; [exact Failed|]. split; [exact Last|]. split.
  - now rewrite Wire', Wire, app_assoc.
  - apply Forall_app. split.
    + eapply Forall_impl; [|exact Before]. intros x.
      apply allowed_for_more. intros y I. apply in_or_app. now left.
    + eapply Forall_impl; [|exact Last']. intros x A.
      exists payload, key. split; [|exact A].
      apply in_or_app. right. left. reflexivity.
Qed.

(** When no attempt raises, the loop returns. *)
Lemma loop_returns (i : Z) (todo : list (string * string)) (w : World) :
  (forall payload key i w, exists b, fst (attempt payload key i w) = Val b) ->
  exists b, fst (loop i todo w) = Val b.
Proof.
  intros Returns. revert i w.
  induction todo as [|[payload key] rest IH]; intros i w; cbn [loop].
  - exists false. reflexivity.
  - unfold bind. destruct (Returns payload key i w) as [b E].
    destruct (attempt payload key i w) as [[[|]|e] w1]; cbn [fst] in E.
    + exists true. reflexivity.
    + apply IH.
    + discriminate.
Qed.

(** A transport error that no attempt lets through does not come out
    of the loop. *)
Lemma loop_never_propagates (i : Z) (todo : list (string * string)) (w : World) :
  (forall payload key i w,
      propagates_transport_error (fst (attempt payload key i w)) = false) ->
  propagates_transport_error (fst (loop i todo w)) = false.
Proof.
  intros Caught. revert i w.
  induction todo as [|[payload key] rest IH]; intros i w; cbn [loop].
  - reflexivity.
  - unfold bind. pose proof (Caught payload key i w) as C.
    destruct (attempt payload key i w) as [[[|]|e] w1]; cbn [fst] in C.
    + reflexivity.
    + apply IH.
    + exact C.
Qed.

End PayloadLoop.

Module ReflectedSpec.

Import ReflectedXSSModule.

Definition page (self : t) : string :=
  TargetConfig.get_dvwa_url (config self) xss_reflected_path.

(** The GET that carries [payload] in the query parameter [name]. *)
Definition probe (self : t) (payload : string) : Request :=
  mkRequest "GET" (page self) (Some [("name", payload)]) None.

(** The benign GET of step 2. *)
Definition baseline (self : t) : Request := probe self "TestUser123".

Definition attempt (env : Env) (self : t) (interactive : bool)
    : string -> string -> Z -> M bool :=
  fun payload key i => _attempt_payload env self payload key i interactive.

(** What an attempt on [payload] may send. *)
Definition carries (self : t) (payload : string) (r : Request) : Prop :=
  r = probe self payload.

End ReflectedSpec.

Lemma log_only_reflected_curl (method url : string) :
  log_only (ReflectedXSSModule._log_curl_examples method url).
Proof. apply log_only_emit. Qed.

Lemma log_only_reflected_evidence (response : Response) (payload note : string) :
  log_only (ReflectedXSSModule._log_http_evidence response payload note).
Proof. apply log_only_emit. Qed.

Lemma log_only_reflected_breakdown (self : ReflectedXSSModule.t) :
  log_only (ReflectedXSSModule._log_injection_breakdown self).
Proof. apply log_only_emit. Qed.

Lemma log_only_stored_breakdown (self : StoredXSSModule.t) :
  log_only (StoredXSSModule._log_injection_breakdown self).
Proof. apply log_only_emit. Qed.

#[export] Hint Resolve log_only_reflected_curl log_only_reflected_evidence
  log_only_reflected_breakdown log_only_stored_breakdown : log_only.

(** What one attempt guarantees, whatever the module: what it sends is
    allowed for its payload, no transport error comes out of it, and it
    returns when its surroundings are [calm]. *)
Definition attempt_ok (calm : Prop) (allowed : Request -> Prop) (w : World)
    (r : Result bool) (w' : World) : Prop :=
  (exists requests, wire w' = (wire w ++ requests)%list /\ Forall allowed requests)
  /\ propagates_transport_error r = false
  /\ (calm -> exists b, r = Val b).

Ltac close_attempt Footprint :=
  split;
  [ split;
    [ exact Footprint
    | split; [reflexivity | intros _; eexists; reflexivity] ]
  | try discriminate ].

Section ReflectedAttempt.

Import ReflectedXSSModule ReflectedSpec.

Variable env : Env.
Variable self : t.
Variable interactive : bool.

Lemma reflected_loop_eq (todo : list (string * string)) (i : Z) (w : World) :
  attempt_payloads env self interactive i todo w
  = loop (attempt env self interactive) i todo w.
Proof.
  revert i w. induction todo as [|[payload key] rest IH]; intros i w;
    cbn [attempt_payloads loop]; [reflexivity|].
  unfold bind, attempt.
  destruct (_attempt_payload env self payload key i interactive w) as [[[|]|e] w1];
    [reflexivity | apply IH | reflexivity].
Qed.

Lemma reflected_attempt_outcome (payload key : string) (i : Z) (w : World) :
  outcome (_attempt_payload env self payload key i interactive) w
    (fun r w' =>
       attempt_ok (raises_only_request_exceptions env) (carries self payload) w r w'
       /\ (r = Val true ->
           exists response,
             snd (exchange env (probe self payload) (wire w)) = inl response
             /\ Response_ok response = true
             /\ PyStr.contains payload (text response) = true)).
Proof.
  unfold _attempt_payload, attempt_ok.
  repeat mstep. rewire.
  destruct (interactive && negb (next_approves (stdin w))).
  { repeat mstep. rewire. split; [|discriminate].
    split; [exists []; split; [now rewrite app_nil_r | constructor]|].
    split; [reflexivity|]. intros _. exists false. reflexivity. }
  cbv zeta. repeat mstep. fold (page self) in *. fold (probe self payload) in *. rewire.
  assert (Footprint :
            exists requests,
              (wire w ++ fst (exchange env (probe self payload) (wire w)))%list
              = (wire w ++ requests)%list
              /\ Forall (carries self payload) requests).
  { eexists. split; [reflexivity|].
    destruct (exchange_sends env (probe self payload) (wire w)) as [-> | ->];
      repeat constructor. }
  destruct (exchange env (probe self payload) (wire w)) as [sent1 [response|e]] eqn:X;
    cbn [fst snd dispatched] in *.
  2:{ (* the request raised *)
      destruct (is_RequestException e) eqn:R.
      - unfold if_not. repeat mstep. rewire. close_attempt Footprint.
      - split; [|discriminate]. split; [exact Footprint|]. split; [exact R|].
        intros Only. specialize (Only (probe self payload) (wire w) e).
        rewrite X in Only. rewrite (Only eq_refl) in R. discriminate. }
  unfold if_not at 1. destruct (Response_ok response) eqn:Ok.
  2:{ repeat mstep. rewire. close_attempt Footprint. }
  repeat mstep. unfold if_not. rewrite Ok. rewire.
  destruct (PyStr.contains payload (text response)) eqn:Found;
    repeat mstep; rewire; close_attempt Footprint.
  intros _. exists response. auto.
Qed.

End ReflectedAttempt.
Module StoredIteration.

Import StoredXSSModule StoredSpec.

Definition attempt (env : Env) (self : t) (interactive : bool)
    : string -> string -> Z -> M bool :=
  fun payload description i =>
    _attempt_stored_payload env self payload description i interactive.

(** What an attempt on [payload] may send: the GET of the guestbook
    page, and the POST of a form whose message is made from [payload]. *)
Definition carries (self : t) (payload : string) (r : Request) : Prop :=
  r = page_get self
  \/ exists token ua,
       r = mkRequest "POST" (guestbook self) None (Some (form_data payload token ua)).

End StoredIteration.

Lemma not_Exception_not_RequestException (e : exn) :
  is_Exception e = false -> is_RequestException e = false.
Proof. destruct e; cbn; congruence. Qed.

(** Closes a goal on the requests sent so far. *)
Ltac footprint :=
  first
    [ exists []; split; [now rewrite app_nil_r | constructor]
    | eexists; split;
      [ rewrite <- ?app_assoc; reflexivity
      | repeat (apply Forall_app; split); assumption ] ].

Ltac close_stored :=
  split; [footprint | split; [reflexivity | intros _; eexists; reflexivity]].

Section StoredLoop.

Import StoredXSSModule StoredSpec StoredIteration.

Variable env : Env.
Variable self : t.
Variable interactive : bool.

Lemma stored_loop_eq (todo : list (string * string)) (i : Z) (w : World) :
  attempt_payloads env self interactive i todo w
  = loop (attempt env self interactive) i todo w.
Proof.
  revert i w. induction todo as [|[payload key] rest IH]; intros i w;
    cbn [attempt_payloads loop]; [reflexivity|].
  unfold bind, attempt.
  destruct (_attempt_stored_payload env self payload key i interactive w)
    as [[[|]|e] w1]; [reflexivity | apply IH | reflexivity].
Qed.

Lemma exchange_carries (payload : string) (request : Request) (history : list Request) :
  carries self payload request ->
  Forall (carries self payload) (fst (exchange env request history)).
Proof.
  intros C. destruct (exchange_sends env request history) as [-> | ->];
    [constructor | constructor; [exact C | constructor]].
Qed.

(** The stored module is calm when the HTTP library raises nothing but
    its own exceptions and the cookie jar can be read. *)
Definition stored_calm : Prop :=
  raises_only_request_exceptions env /\ reads_cookies env.

Lemma stored_attempt_sends (payload description : string) (i : Z) (w : World) :
  outcome (_attempt_stored_payload env self payload description i interactive) w
    (attempt_ok stored_calm (carries self payload) w).
Proof.
  unfold _attempt_stored_payload, attempt_ok.
  repeat mstep. rewire.
  destruct (interactive && negb (next_approves (stdin w))).
  { repeat mstep. rewire. close_stored. }
  mstep. mstep. cbv zeta. apply outcome_bind, outcome_get_csrf_token.
  fold (guestbook self). fold (page_get self).
  intros w4 Hs4 Hi4 _. rewire.
  assert (Page : carries self payload (page_get self)) by (left; reflexivity).
  pose proof (exchange_carries payload (page_get self) (wire w) Page) as F1.
  destruct (exchange env (page_get self) (wire w)) as [sent1 answer1] eqn:X1;
    cbn [fst snd] in *.
  set (tok := match answer1 with
              | inl r =>
                  if (status_code r =? 200)%Z
                  then DVWAAuthenticator._extract_csrf_token env (text r)
                  else None
              | inr _ => None
              end).
  assert (Fetch :
            match answer1 with
            | inl r =>
                Val (if (status_code r =? 200)%Z
                     then DVWAAuthenticator._extract_csrf_token env (text r)
                     else None)
            | inr e => if is_Exception e then Val None else Raise e
            end
            = match answer1 with
              | inr e => if is_Exception e then Val tok else Raise e
              | inl _ => Val tok
              end).
  { unfold tok. destruct answer1 as [r|e]; [reflexivity|].
    now destruct (is_Exception e). }
  rewrite Fetch. clear Fetch.
  assert (Returns :
            (exists e, answer1 = inr e /\ is_Exception e = false)
            \/ match answer1 with
               | inr e => if is_Exception e then Val tok else Raise e
               | inl _ => Val tok
               end = Val tok).
  { destruct answer1 as [r|e]; [now right|].
    destruct (is_Exception e) eqn:E; [now right | left; eauto]. }
  destruct Returns as [(e & -> & E) | ->].
  { rewrite E. split; [footprint|]. split.
    - cbn. now apply not_Exception_not_RequestException.
    - intros [Only _]. specialize (Only (page_get self) (wire w) e).
      rewrite X1 in Only. specialize (Only eq_refl).
      destruct e; discriminate. }
  apply outcome_bind, outcome_get_user_agent.
  repeat mstep. apply outcome_stored_curl. intros jar1 [Hw6 Hi6] _. rewire.
  match goal with
  | |- context [cookie_failure env ?h] =>
      destruct (cookie_failure env h) as [c1|] eqn:Jar1
  end; cbv beta iota.
  { split; [footprint|]. split.
    - cbn. exact (cookie_failure_class env _ c1 Jar1).
    - intros [_ Reads]. rewrite (reads_cookies_failure env _ Reads) in Jar1.
      discriminate. }
  repeat mstep. rewire.
  set (post := mkRequest "POST" (guestbook self) None
                 (Some (form_data payload tok (user_agent w4)))) in *.
  assert (Post : carries self payload post) by (right; unfold post; eauto).
  pose proof (exchange_carries payload post (wire w ++ sent1)%list Post) as F2.
  destruct (exchange env post (wire w ++ sent1)%list) as [sent2 [echoed|e2]] eqn:X2;
    cbn [fst snd dispatched] in *.
  2:{ destruct (is_RequestException e2) eqn:R.
      - unfold if_not. repeat mstep. rewire. close_stored.
      - split; [footprint|]. split; [exact R|].
        intros [Only _]. specialize (Only post (wire w ++ sent1)%list e2).
        rewrite X2 in Only. rewrite (Only eq_refl) in R. discriminate. }
  unfold if_not at 1. destruct (Response_ok echoed).
  2:{ repeat mstep. rewire. close_stored. }
  repeat mstep. fold (page_get self) in *. rewire.
  pose proof (exchange_carries payload (page_get self)
                ((wire w ++ sent1) ++ sent2)%list Page) as F3.
  destruct (exchange env (page_get self) ((wire w ++ sent1) ++ sent2)%list)
    as [sent3 [page|e3]] eqn:X3; cbn [fst snd dispatched] in *.
  2:{ destruct (is_RequestException e3) eqn:R.
      - repeat mstep. apply outcome_stored_curl. intros jar2 [Hw9 Hi9] _. rewire.
        match goal with
        | |- context [cookie_failure env ?h] =>
            destruct (cookie_failure env h) as [c2|] eqn:Jar2
        end; cbv beta iota.
        + split; [footprint|]. split.
          * cbn. exact (cookie_failure_class env _ c2 Jar2).
          * intros [_ Reads]. rewrite (reads_cookies_failure env _ Reads) in Jar2.
            discriminate.
        + unfold if_not. repeat mstep. rewire. close_stored.
      - split; [footprint|]. split; [exact R|].
        intros [Only _].
        specialize (Only (page_get self) ((wire w ++ sent1) ++ sent2)%list e3).
        rewrite X3 in Only. rewrite (Only eq_refl) in R. discriminate. }
  repeat mstep. apply outcome_stored_curl. intros jar2 [Hw9 Hi9] _. rewire.
  match goal with
  | |- context [cookie_failure env ?h] =>
      destruct (cookie_failure env h) as [c2|] eqn:Jar2
  end; cbv beta iota.
  { split; [footprint|]. split.
    - cbn. exact (cookie_failure_class env _ c2 Jar2).
    - intros [_ Reads]. rewrite (reads_cookies_failure env _ Reads) in Jar2.
      discriminate. }
  unfold if_not. destruct (Response_ok page).
  2:{ repeat mstep. rewire. close_stored. }
  destruct (PyStr.contains payload (text page)).
  - repeat mstep. rewire. close_stored.
  - cbv zeta. apply outcome_bind.
    destruct (PyStr.contains
                (PyStr.replace ">" "&gt;" (PyStr.replace "<" "&lt;" payload))
                (text page)); repeat mstep; rewire; close_stored.
Qed.

End StoredLoop.

(* ================================================================== *)
(** * The runs of the two modules *)
(* ================================================================== *)



Lemma keeps_headers_ret {A} (a : A) : keeps_headers (ret a).
Proof. intros w. reflexivity. Qed.

Lemma keeps_headers_if {A} (b : bool) (c1 c2 : M A) :
  keeps_headers c1 -> keeps_headers c2 -> keeps_headers (if b then c1 else c2).
Proof. now destruct b. Qed.

Lemma keeps_headers_send (env : Env) (self : HTTPClient.t) (method url : string)
    (params data : option dict) :
  keeps_headers (HTTPClient._send env self method url params data).
Proof.
  intros w. cbv [HTTPClient._send bind try_except emit ret raise session_send lift_sum record].
  cbn [wire log stdin recorded session_headers fst snd].
  destruct (prepare_request env _) as [prepared_url|e];
    cbn [wire log stdin recorded session_headers fst snd].
  2:{ destruct (is_RequestException e); reflexivity. }
  destruct (HTTPClient.request_recorder self);
    cbn [wire log stdin recorded session_headers fst snd];
    (destruct (transport env _ _) as [response|e];
     cbn [wire log stdin recorded session_headers fst snd];
     [reflexivity | destruct (is_RequestException e); reflexivity]).
Qed.

Lemma keeps_headers_get (env : Env) (self : HTTPClient.t) (url : string)
    (params : option dict) :
  keeps_headers (HTTPClient.get env self url params).
Proof. apply keeps_headers_send. Qed.

Create HintDb keeps_headers.
#[export] Hint Resolve keeps_headers_emit keeps_headers_declined keeps_headers_ret
  keeps_headers_if keeps_headers_get : keeps_headers.

Lemma keeps_headers_reflected_breakdown (self : ReflectedXSSModule.t) :
  keeps_headers (ReflectedXSSModule._log_injection_breakdown self).
Proof. apply keeps_headers_emit. Qed.

Lemma keeps_headers_stored_breakdown (self : StoredXSSModule.t) :
  keeps_headers (StoredXSSModule._log_injection_breakdown self).
Proof. apply keeps_headers_emit. Qed.

#[export] Hint Resolve keeps_headers_reflected_breakdown keeps_headers_stored_breakdown
  : keeps_headers.

(** One step, the session's headers followed through it. *)
Ltac hstep :=
  apply outcome_bind, outcome_keeps; [solve [auto 10 with keeps_headers]|];
  mstep; intro.

(** The same for code that only logs, whatever its shape. *)
Ltac lstep :=
  apply outcome_bind, outcome_keeps; [solve [auto 10 with keeps_headers]|];
  apply outcome_log_only; [solve [auto 10 with log_only]|];
  let w := fresh "w" in intros ? w [? ?] ?.

Lemma world_eta (w : World) :
  w = mkWorld (wire w) (log w) (stdin w) (recorded w) (session_headers w).
Proof. now destruct w. Qed.

(** The world in which the loop of a run starts: the first request of
    the run is on the wire and, if the run is attended, two answers of
    the operator have been read. *)
Definition loop_start (first : Request) (interactive : bool) (w : World)
    (log1 : list logger.Event) (recorded1 : list string) : World :=
  mkWorld (wire w ++ [first])%list log1
    (if interactive then tl (tl (stdin w)) else stdin w)
    recorded1 (session_headers w).

(** A run gets to its loop: no prompt stops it, and its first request is
    answered with a status that is not an HTTP error. *)
Definition reaches_loop (env : Env) (first : Request) (interactive : bool) (w : World)
    : bool :=
  go_ahead interactive (stdin w)
  && match snd (exchange env first (wire w)) with
     | inl response => Response_ok response
     | inr _ => false
     end.

(** What a run does with its payloads.  When it gets to its loop, it
    reports success only by stopping at the first payload whose attempt
    returned true, the earlier ones attempted in order and failed and
    nothing sent for a later one; it reports failure exactly when every
    payload was attempted in order and failed; no transport error comes
    out of it, and it returns when its surroundings are [calm].  When it
    does not get to its loop, it reports no success and sends no payload. *)
Definition run_iterates {T} (env : Env) (attempt : string -> string -> Z -> M bool)
    (carries : string -> Request -> Prop) (calm : Prop) (first : Request)
    (interactive : bool) (todo : list (string * string)) (self' : T) (w : World)
    (out : Result (bool * T) * World) : Prop :=
  (reaches_loop env first interactive w = true ->
   exists log1 recorded1,
     let w1 := loop_start first interactive w log1 recorded1 in
     (forall s, fst out = Val (true, s) ->
        s = self'
        /\ exists w2,
             stopped_at attempt carries 1 todo w1 (Val true) w2
             /\ wire (snd out) = wire w2 /\ stdin (snd out) = stdin w2)
     /\ (forall s, fst out = Val (false, s) ->
           s = self' /\ all_failed attempt 1 todo w1 = Some (snd out))
     /\ (forall w2, all_failed attempt 1 todo w1 = Some w2 ->
           out = (Val (false, self'), w2))
     /\ propagates_transport_error (fst out) = false
     /\ (calm -> exists b, fst out = Val (b, self')))
  /\ (reaches_loop env first interactive w = false ->
      (forall s, fst out <> Val (true, s))
      /\ wire (snd out)
         = (wire w ++ if consented interactive (stdin w)
                      then fst (exchange env first (wire w))
                      else [])%list).

(** What the loop of a scenario module does from index [i] over [todo]:
    it returns true only by stopping at the first payload whose attempt
    returned true, every earlier payload attempted in order and failed,
    and nothing on the wire for a later one; it returns false exactly when
    every payload was attempted in order and failed; it lets no transport
    error through, and returns when the HTTP library raises nothing else. *)
Definition iteration (calm : Prop) (attempt : string -> string -> Z -> M bool)
    (carries : string -> Request -> Prop) (i : Z) (todo : list (string * string))
    (w : World) (out : Result bool * World) : Prop :=
  (fst out = Val true -> stopped_at attempt carries i todo w (Val true) (snd out))
  /\ (fst out = Val false <-> all_failed attempt i todo w = Some (snd out))
  /\ propagates_transport_error (fst out) = false
  /\ (calm -> exists b, fst out = Val b).

Lemma iteration_of_loop (calm : Prop) (attempt : string -> string -> Z -> M bool)
    (carries : string -> Request -> Prop) :
  (forall payload key i w,
      outcome (attempt payload key i) w (attempt_ok calm (carries payload) w)) ->
  forall i todo w, iteration calm attempt carries i todo w (loop attempt i todo w).
Proof.
  intros Ok i todo w.
  assert (Sends : forall payload key i w,
             exists requests,
               wire (snd (attempt payload key i w)) = (wire w ++ requests)%list
               /\ Forall (carries payload) requests).
  { intros payload key j v. exact (proj1 (Ok payload key j v)). }
  split; [|split; [|split]].
  - destruct (loop attempt i todo w) as [r w'] eqn:L. cbn [fst snd]. intros ->.
    apply ended_at_sends; [exact Sends|]. now apply loop_true.
  - rewrite <- loop_false.
    destruct (loop attempt i todo w) as [r w']. cbn [fst snd].
    split; [intros ->; reflexivity | intros [= ->]; reflexivity].
  - apply loop_never_propagates. intros payload key j v.
    exact (proj1 (proj2 (Ok payload key j v))).
  - intros Only. apply loop_returns. intros payload key j v.
    exact (proj2 (proj2 (Ok payload key j v)) Only).
Qed.

(** The end of a run, from the loop on. *)
Lemma run_iterates_loop {T} (env : Env) (attempt : string -> string -> Z -> M bool)
    (carries : string -> Request -> Prop) (calm : Prop) (first : Request)
    (interactive : bool) (todo : list (string * string)) (self' : T) (w w1 : World)
    (for_loop : M bool) (epilogue : M unit) :
  (forall v, for_loop v = loop attempt 1 todo v) ->
  (forall payload key i v,
      outcome (attempt payload key i) v (attempt_ok calm (carries payload) v)) ->
  log_only epilogue ->
  reaches_loop env first interactive w = true ->
  wire w1 = (wire w ++ [first])%list ->
  stdin w1 = (if interactive then tl (tl (stdin w)) else stdin w) ->
  session_headers w1 = session_headers w ->
  run_iterates env attempt carries calm first interactive todo self' w
    ((success <- for_loop ;;
      (if success then epilogue else ret tt) ;;
      ret (success, self')) w1).
Proof.
  intros For Ok Epilogue Reaches Wire Stdin Headers.
  assert (Start : w1 = loop_start first interactive w (log w1) (recorded w1)).
  { rewrite (world_eta w1) at 1. unfold loop_start. now rewrite Wire, Stdin, Headers. }
  split; [|rewrite Reaches; discriminate].
  intros _. exists (log w1), (recorded w1). cbv zeta. rewrite <- Start.
  destruct (iteration_of_loop calm attempt carries Ok 1%Z todo w1)
    as (Stops & Fails & Caught & Returns).
  pose proof (loop_false attempt 1%Z todo w1) as False_.
  assert (Out :
            (success <- for_loop ;;
             (if success then epilogue else ret tt) ;;
             ret (success, self')) w1
            = match loop attempt 1 todo w1 with
              | (Val true, w2) =>
                  match epilogue w2 with
                  | (Val _, w3) => (Val (true, self'), w3)
                  | (Raise e, w3) => (Raise e, w3)
                  end
              | (Val false, w2) => (Val (false, self'), w2)
              | (Raise e, w2) => (Raise e, w2)
              end).
  { unfold bind, ret. rewrite For.
    destruct (loop attempt 1 todo w1) as [[[|]|e] w2]; reflexivity. }
  rewrite Out. clear Out.
  destruct (loop attempt 1 todo w1) as [[[|]|e] w2] eqn:Loop; cbn [fst snd] in *.
  - destruct (Epilogue w2) as (u & w3 & E & [Wire3 Stdin3]).
    rewrite E. cbn [fst snd].
    split; [|split; [|split; [|split]]].
    + intros s [= <-]. split; [reflexivity|]. exists w2.
      split; [exact (Stops eq_refl)|]. split; [exact Wire3 | exact Stdin3].
    + intros s [=].
    + intros w4 All. apply False_ in All. discriminate.
    + reflexivity.
    + intros _. exists true. reflexivity.
  - split; [|split; [|split; [|split]]].
    + intros s [=].
    + intros s [= <-]. split; [reflexivity|]. now apply Fails.
    + intros w4 All. apply False_ in All. now injection All as <-.
    + reflexivity.
    + intros _. exists false. reflexivity.
  - split; [|split; [|split; [|split]]].
    + intros s [=].
    + intros s [=].
    + intros w4 All. apply False_ in All. discriminate.
    + exact Caught.
    + intros Calm. destruct (Returns Calm) as [b [=]].
Qed.

(** A run that stopped before its loop. *)
Ltac stopped_early :=
  split;
  [ rewrite ?andb_false_r; discriminate
  | intros _; split;
    [ intros ? ?; discriminate
    | cbv iota; rewrite ?app_nil_r; reflexivity ] ].

Section ReflectedRun.

Import ReflectedXSSModule ReflectedSpec.

Variable env : Env.
Variable self : t.
Variable interactive : bool.

(** The module once it has logged where the payload lands. *)
Definition briefed : t := mk (http self) (config self) true.

Lemma reflected_run_iterates (w : World) :
  run_iterates env (attempt env briefed interactive) (carries briefed)
    (raises_only_request_exceptions env) (baseline self) interactive payloads briefed w
    (run_interactive env self interactive w).
Proof.
  rewrite (surjective_pairing (run_interactive env self interactive w)).
  refine (_ : outcome (run_interactive env self interactive) w
                (fun r w' =>
                   run_iterates env (attempt env briefed interactive) (carries briefed)
                     (raises_only_request_exceptions env) (baseline self) interactive
                     payloads briefed w (r, w'))).
  unfold run_interactive.
  hstep. hstep. hstep. hstep. rewire. rewrite consented_declined.
  destruct (consented interactive (stdin w)) eqn:First; cbn [negb].
  2:{ repeat mstep. unfold run_iterates, reaches_loop. cbn [fst snd]. rewire.
      rewrite go_ahead_consented, First. stopped_early. }
  hstep. cbv zeta.
  apply outcome_bind, outcome_keeps; [apply keeps_headers_get|]. mstep. intro.
  fold (page self) in *.
  change (mkRequest "GET" (page self) (Some [("name", "TestUser123")]) None)
    with (baseline self) in *.
  rewire.
  pose proof (exchange_answered env (baseline self) (wire w)) as Sent.
  destruct (exchange env (baseline self) (wire w)) as [sent1 [response|e]] eqn:X;
    cbn [fst snd dispatched] in *.
  2:{ destruct (is_RequestException e);
        [unfold if_not; repeat mstep|];
        unfold run_iterates, reaches_loop; cbn [fst snd]; rewire;
        rewrite X, First; cbn [fst snd]; stopped_early. }
  rewrite (Sent response eq_refl) in *.
  unfold if_not. destruct (Response_ok response) eqn:Ok.
  2:{ repeat mstep. unfold run_iterates, reaches_loop. cbn [fst snd]. rewire.
      rewrite X, First. cbn [fst snd]. rewrite Ok. stopped_early. }
  lstep. lstep. cbv beta iota. fold briefed.
  hstep. rewire. rewrite second_declined.
  destruct (consented interactive (tl (stdin w))) eqn:Second; cbn [negb].
  2:{ repeat mstep. unfold run_iterates, reaches_loop. cbn [fst snd]. rewire.
      rewrite go_ahead_consented, X, First, Second. cbn [fst snd andb].
      stopped_early. }
  hstep. cbv beta iota. unfold outcome. rewrite <- surjective_pairing.
  apply run_iterates_loop.
  - intros v. apply reflected_loop_eq.
  - intros payload key i v.
    exact (proj1 (reflected_attempt_outcome env briefed interactive payload key i v)).
  - auto with log_only.
  - unfold reaches_loop. rewrite go_ahead_consented, X, First, Second. exact Ok.
  - rewire. reflexivity.
  - rewire. now destruct interactive.
  - congruence.
Qed.

End ReflectedRun.

Section StoredRun.

Import StoredXSSModule StoredSpec.

Variable env : Env.
Variable self : t.
Variable interactive : bool.

(** The module once it has logged where the payload lands. *)
Definition informed : t := mk (http self) (config self) (auth self) true.

Lemma stored_run_iterates (w : World) :
  run_iterates env (StoredIteration.attempt env informed interactive)
    (StoredIteration.carries informed) (stored_calm env) (page_get self) interactive
    payloads informed w (run_interactive env self interactive w).
Proof.
  rewrite (surjective_pairing (run_interactive env self interactive w)).
  refine (_ : outcome (run_interactive env self interactive) w
                (fun r w' =>
                   run_iterates env (StoredIteration.attempt env informed interactive)
                     (StoredIteration.carries informed) (stored_calm env) (page_get self)
                     interactive payloads informed w (r, w'))).
  unfold run_interactive.
  hstep. hstep. hstep. hstep. rewire. rewrite consented_declined.
  destruct (consented interactive (stdin w)) eqn:First; cbn [negb].
  2:{ repeat mstep. unfold run_iterates, reaches_loop. cbn [fst snd]. rewire.
      rewrite go_ahead_consented, First. stopped_early. }
  hstep. cbv zeta.
  apply outcome_bind, outcome_keeps; [apply keeps_headers_get|]. mstep. intro.
  fold (guestbook self) in *. fold (page_get self) in *.
  rewire.
  pose proof (exchange_answered env (page_get self) (wire w)) as Sent.
  destruct (exchange env (page_get self) (wire w)) as [sent1 [response|e]] eqn:X;
    cbn [fst snd dispatched] in *.
  2:{ destruct (is_RequestException e);
        [unfold if_not; repeat mstep|];
        unfold run_iterates, reaches_loop; cbn [fst snd]; rewire;
        rewrite X, First; cbn [fst snd]; stopped_early. }
  rewrite (Sent response eq_refl) in *.
  unfold if_not. destruct (Response_ok response) eqn:Ok.
  2:{ repeat mstep. unfold run_iterates, reaches_loop. cbn [fst snd]. rewire.
      rewrite X, First. cbn [fst snd]. rewrite Ok. stopped_early. }
  hstep. lstep. cbv beta iota. fold informed.
  hstep. hstep. rewire. rewrite second_declined.
  destruct (consented interactive (tl (stdin w))) eqn:Second; cbn [negb].
  2:{ repeat mstep. unfold run_iterates, reaches_loop. cbn [fst snd]. rewire.
      rewrite go_ahead_consented, X, First, Second. cbn [fst snd andb].
      stopped_early. }
  unfold outcome. rewrite <- surjective_pairing.
  apply run_iterates_loop.
  - intros v. apply stored_loop_eq.
  - intros payload key i v.
    exact (stored_attempt_sends env informed interactive payload key i v).
  - auto with log_only.
  - unfold reaches_loop. rewrite go_ahead_consented, X, First, Second. exact Ok.
  - rewire. reflexivity.
  - rewire. now destruct interactive.
  - congruence.
Qed.

End StoredRun.

(** Reflected doubles: one echoes the name it is given only when it is
    the img payload and answers a fixed greeting otherwise; the other
    never echoes. *)
Definition asked_name (r : Request) : string :=
  match params r with
  | Some query =>
      match dict_get query "name" with
      | Some name => name
      | None => "nobody"
      end
  | None => "nobody"
  end.

Definition img_echo : Env :=
  stub_env (fun _ r =>
    inl (mkResponse 200 (req_url r)
           (if String.eqb (asked_name r) "<img src=x onerror=alert(1)>"
            then "<pre>Hello " ++ asked_name r ++ "</pre>"
            else "<pre>Hello &lt;filtered&gt;</pre>"))).

Definition never_echo : Env :=
  stub_env (fun _ r => inl (mkResponse 200 (req_url r) "<pre>Hello &lt;filtered&gt;</pre>")).

Definition reflected_module : ReflectedXSSModule.t :=
  ReflectedXSSModule.init (HTTPClient.mk false) localhost.


(* ================================================================== *)
(** * utils/validators.py *)
(* ================================================================== *)

Module Validators.

(** [print(...)]: standard output is not part of the world. *)
Definition print (line : string) : M unit := ret tt.

(** How [requests.get(url, timeout=timeout)] can fail, by the first
    [except] clause of [check_target_reachability] that catches the
    exception: [ConnectionError] and [Timeout] are subclasses of
    [RequestException] (a [ConnectTimeout] is both, and is caught as a
    [ConnectionError]); [Uncaught] is an exception outside that
    hierarchy. *)
Inductive GetFailure : Type :=
| ConnectionError
| Timeout
| OtherRequestException (message : string)
| Uncaught (e : exn).

(** [requests.get], the module-level function, in its two steps: the
    request is prepared from the URL, which fails on a URL that cannot be
    one ([InvalidURL], [MissingSchema]: nothing is sent then), and the
    prepared request is sent, which gives the answer to a GET of the URL
    after the requests sent so far. *)
Record Net : Type := mkNet {
  requests_prepare : string -> unit + GetFailure;
  requests_send : list Request -> string -> Response + GetFailure
}.

(** What [requests.get(url, timeout=timeout)] puts on the wire and
    returns or raises. *)
Definition requests_get (net : Net) (history : list Request) (url : string)
    : list Request * (Response + GetFailure) :=
  match requests_prepare net url with
  | inr failure => ([], inr failure)
  | inl _ => ([mkRequest "GET" url None None], requests_send net history url)
  end.

(** [check_target_reachability(base_url, timeout)]: the three [except]
    clauses in the order of the source. *)
Definition check_target_reachability (net : Net) (base_url : string) (timeout : Z)
    : M (bool * option string) :=
  fun w =>
    let (requests, answer) := requests_get net (wire w) base_url in
    let w' := mkWorld (wire w ++ requests)%list
                (log w) (stdin w) (recorded w) (session_headers w) in
    match answer with
    | inl response =>
        if (status_code response =? 200)%Z then (Val (true, None), w')
        else (Val (false, Some ("HTTP " ++ PyStr.of_int (status_code response))), w')
    | inr ConnectionError =>
        (Val (false, Some "Connection refused - is DVWA running?"), w')
    | inr Timeout =>
        (Val (false, Some ("Request timed out after " ++ PyStr.of_int timeout ++ " seconds")),
         w')
    | inr (OtherRequestException message) => (Val (false, Some message), w')
    | inr (Uncaught e) => (Raise e, w')
    end.

Definition confirm_authorization : M bool :=
  print "Before proceeding, you must confirm that:" ;;
  print "  1. You have explicit authorization to test the target system" ;;
  print "  2. You understand the legal implications of unauthorized testing" ;;
  print "  3. You will use this tool responsibly and ethically" ;;
  print EmptyString ;;
  try_except
    (answer <- input "Do you confirm the above? Type 'I AGREE' to proceed: " ;;
     let response := PyStr.strip answer in
     ret (String.eqb response "I AGREE"))
    (fun e => match e with KeyboardInterrupt | EOFError => true | _ => false end)
    (fun _ => ret false).

(** [str(error)] for an [Optional[str]]. *)
Definition str_of_optional (error : option string) : string :=
  match error with
  | Some message => message
  | None => "None"
  end.

Definition preflight_check (net : Net) (target_config : TargetConfig.t)
    : M (bool * option string) :=
  emit (logger.operational "Starting preflight checks" INFO) ;;
  if negb (TargetConfig.is_safe_target target_config) then
    ret (false,
         Some ("Target " ++ TargetConfig.host target_config
               ++ " is not recognized as a safe lab environment." ++ LF
               ++ "Only localhost, 127.0.0.1, and private IPs are allowed by default." ++ LF
               ++ "If this is truly a lab environment, use --confirm-target flag."))
  else
    emit (logger.operational "Target passes safety validation" INFO) ;;
    checked <- check_target_reachability net (TargetConfig.base_url target_config) 10 ;;
    let (is_reachable, error) := checked in
    if negb is_reachable then
      ret (false, Some ("Target unreachable: " ++ str_of_optional error))
    else
      emit (logger.operational "Target is reachable" INFO) ;;
      ret (true, None).

End Validators.

Section ValidatorFacts.

Import Validators.

Variable net : Net.

(** The GET that the reachability check sends. *)
Definition reach_request (target_config : TargetConfig.t) : Request :=
  mkRequest "GET" (TargetConfig.base_url target_config) None None.

(** The operator typed the words of agreement: the next answer is a line
    that is I AGREE once the white space around it is stripped. *)
Definition agrees (answers : list Input) : bool :=
  match answers with
  | Line s :: _ => String.eqb (PyStr.strip s) "I AGREE"
  | _ => false
  end.

Lemma confirm_authorization_run (w : World) :
  Validators.confirm_authorization w
  = (Val (agrees (stdin w)),
     mkWorld (wire w) (log w) (tl (stdin w)) (recorded w) (session_headers w)).
Proof.
  unfold confirm_authorization, print, bind, ret, try_except, input, agrees.
  destruct w as [sent0 log0 stdin0 recorded0 headers0]. cbn.
  destruct stdin0 as [|[s| |] rest]; reflexivity.
Qed.

Lemma requests_get_sends (history : list Request) (url : string) :
  fst (requests_get net history url) = []
  \/ fst (requests_get net history url) = [mkRequest "GET" url None None].
Proof. unfold requests_get. destruct (requests_prepare net url); auto. Qed.

Lemma requests_get_answered (history : list Request) (url : string) (r : Response) :
  snd (requests_get net history url) = inl r ->
  fst (requests_get net history url) = [mkRequest "GET" url None None].
Proof.
  unfold requests_get. destruct (requests_prepare net url); [reflexivity | discriminate].
Qed.

(** The result of the reachability check for each answer. *)
Definition reachability (timeout : Z) (answer : Response + GetFailure)
    : Result (bool * option string) :=
  match answer with
  | inl response =>
      if (status_code response =? 200)%Z then Val (true, None)
      else Val (false, Some ("HTTP " ++ PyStr.of_int (status_code response)))
  | inr ConnectionError => Val (false, Some "Connection refused - is DVWA running?")
  | inr Timeout =>
      Val (false, Some ("Request timed out after " ++ PyStr.of_int timeout ++ " seconds"))
  | inr (OtherRequestException message) => Val (false, Some message)
  | inr (Uncaught e) => Raise e
  end.

Lemma check_target_reachability_run (base_url : string) (timeout : Z) (w : World) :
  check_target_reachability net base_url timeout w
  = (reachability timeout (snd (requests_get net (wire w) base_url)),
     mkWorld (wire w ++ fst (requests_get net (wire w) base_url))%list
       (log w) (stdin w) (recorded w) (session_headers w)).
Proof.
  unfold check_target_reachability, reachability.
  destruct (requests_get net (wire w) base_url) as [requests [response|[| |message|e]]];
    cbn [fst snd]; try reflexivity.
  destruct (status_code response =? 200)%Z; reflexivity.
Qed.

End ValidatorFacts.

(* ================================================================== *)
(** * cli.py *)
(* ================================================================== *)

Module Cli.

Import Validators.

(** [--mode], one of its four choices. *)
Inductive Mode : Type := mode_reflected | mode_stored | mode_dom | mode_all.

(** The namespace [parse_arguments()] returns. *)
Record Args : Type := mkArgs {
  mode : Mode;
  host : string;
  port : Z;
  https : bool;
  username : string;
  password : string;
  security_level : option string;
  no_interactive : bool;
  log_dir : string;
  confirm_target : bool;
  skip_banner : bool
}.

(** The defaults of the parser. *)
Definition default_args : Args :=
  mkArgs mode_all "localhost" 80 false "admin" "password" None false "logs" false false.

(** [display_safety_banner()]: prints the banner with the tagline the
    banner module picked, and the legal notice. *)
Definition display_safety_banner (tagline : string) : M string :=
  print "HACKBENCH_BANNER" ;;
  print tagline ;;
  print "LEGAL_WARNING" ;;
  ret tagline.

(** Truth value of a [str]. *)
Definition nonempty (s : string) : bool :=
  match s with
  | EmptyString => false
  | String _ _ => true
  end.

(** [args.mode in [own, 'all']]. *)
Definition selects (own m : Mode) : bool :=
  match m, own with
  | mode_all, _ => true
  | mode_reflected, mode_reflected => true
  | mode_stored, mode_stored => true
  | mode_dom, mode_dom => true
  | _, _ => false
  end.

(** [try: c  except KeyboardInterrupt: interrupted
            except Exception as e: failed(e)  finally: closing]. *)
Definition try_except_finally {A} (c : M A) (interrupted : M A) (failed : exn -> M A)
    (closing : M unit) : M A :=
  fun w =>
    let (r, w1) :=
      match c w with
      | (Val a, w') => (Val a, w')
      | (Raise e, w') =>
          match e with
          | KeyboardInterrupt => interrupted w'
          | _ => if is_Exception e then failed e w' else (Raise e, w')
          end
      end in
    match closing w1 with
    | (Val _, w2) => (r, w2)
    | (Raise e, w2) => (Raise e, w2)
    end.

(** [logger.close()]: the log files are not part of the world. *)
Definition logger_close : M unit := ret tt.

(** [', '.join(names) if names else 'None']. *)
Definition names_or_none (names : list string) : string :=
  match names with
  | [] => "None"
  | _ :: _ => String.concat ", " names
  end.

(** One module of the [try] block: announced, run, and entered in the
    two lists of the summary. *)
Definition run_module {T} (title name : string) (run : M (bool * T))
    (lists : list string * list string) : M (list string * list string) :=
  emit (logger.educational rule70) ;;
  emit (logger.educational title) ;;
  emit (logger.educational rule70) ;;
  let modules_run := (fst lists ++ [name])%list in
  r <- run ;;
  if fst r then ret (modules_run, (snd lists ++ [name])%list)
  else ret (modules_run, snd lists).

Definition run_dom (title name : string) (run : M bool)
    (lists : list string * list string) : M (list string * list string) :=
  emit (logger.educational rule70) ;;
  emit (logger.educational title) ;;
  emit (logger.educational rule70) ;;
  let modules_run := (fst lists ++ [name])%list in
  r <- run ;;
  if r then ret (modules_run, (snd lists ++ [name])%list)
  else ret (modules_run, snd lists).

(** The body of the [try] block of [main]. *)
Definition session (net : Net) (env : Env) (args : Args) (target : TargetConfig.t)
    (tagline : string) : M Z :=
  emit (logger.educational rule70) ;;
  emit (logger.educational ("HACKBENCH - " ++ tagline)) ;;
  emit (logger.educational rule70) ;;
  emit (logger.educational ("Target: " ++ TargetConfig.base_url target)) ;;
  emit (logger.educational "Mode") ;;
  emit (logger.educational "Interactive") ;;
  emit (logger.educational rule70) ;;
  emit (logger.educational "Running preflight checks...") ;;
  checked <- preflight_check net target ;;
  let (success, error) := checked in
  if negb success then
    emit (logger.educational ("Preflight check failed: " ++ str_of_optional error)) ;;
    emit (logger.operational ("Preflight check failed: " ++ str_of_optional error) ERROR) ;;
    ret 1%Z
  else
    emit (logger.educational "All preflight checks passed") ;;
    emit (logger.educational "Authenticating with DVWA...") ;;
    let auth := DVWAAuthenticator.init (TargetConfig.base_url target) in
    verified <- DVWAAuthenticator.verify_dvwa_presence env auth ;;
    let (is_dvwa, version) := verified in
    if negb is_dvwa then
      emit (logger.educational ("Target does not appear to be DVWA: " ++ version)) ;;
      emit (logger.educational "Please verify:") ;;
      emit (logger.educational "  1. DVWA is running") ;;
      emit (logger.educational "  2. Target URL is correct") ;;
      emit (logger.educational
              ("  3. " ++ TargetConfig.base_url target ++ "/login.php is accessible")) ;;
      ret 1%Z
    else
      emit (logger.educational ("DVWA detected (version: " ++ version ++ ")")) ;;
      logged <- DVWAAuthenticator.login env auth (username args) (password args) ;;
      let (ok, auth) := logged in
      if negb ok then
        emit (logger.educational "Authentication failed") ;;
        emit (logger.educational "Please verify:") ;;
        emit (logger.educational "  1. DVWA credentials are correct") ;;
        emit (logger.educational "  2. DVWA setup is complete") ;;
        ret 1%Z
      else
        detected <- DVWAAuthenticator.detect_security_level env auth ;;
        let (current_level, auth) := detected in
        match current_level with
        | Some level =>
            if nonempty level
            then emit (logger.educational ("Current DVWA security level: " ++ level))
            else ret tt
        | None => ret tt
        end ;;
        auth <-
          match security_level args with
          | Some wanted =>
              if nonempty wanted
                 && negb match current_level with
                         | Some level => String.eqb wanted level
                         | None => false
                         end
              then
                emit (logger.educational ("Setting security level to: " ++ wanted)) ;;
                changed <- DVWAAuthenticator.set_security_level env auth wanted ;;
                let (done, auth) := changed in
                (if done
                 then emit (logger.educational ("Security level changed to: " ++ wanted))
                 else emit (logger.educational "Failed to change security level")) ;;
                ret auth
              else ret auth
          | None => ret auth
          end ;;
        let http_client := HTTPClient.mk true in
        let interactive := negb (no_interactive args) in
        lists <- ret ([], []) ;;
        lists <-
          (if selects mode_reflected (mode args) then
             run_module "Starting Reflected XSS Module" "Reflected XSS"
               (ReflectedXSSModule.run_interactive env
                  (ReflectedXSSModule.init http_client target) interactive)
               lists
           else ret lists) ;;
        lists <-
          (if selects mode_stored (mode args) then
             run_module "Starting Stored XSS Module" "Stored XSS"
               (StoredXSSModule.run_interactive env
                  (StoredXSSModule.init http_client target auth) interactive)
               lists
           else ret lists) ;;
        lists <-
          (if selects mode_dom (mode args) then
             run_dom "Starting DOM-Based XSS Module" "DOM-Based XSS"
               (DOMXSSModule.run_interactive env
                  (DOMXSSModule.mk http_client target) interactive)
               lists
           else ret lists) ;;
        emit (logger.educational rule70) ;;
        emit (logger.educational "SESSION SUMMARY") ;;
        emit (logger.educational rule70) ;;
        emit (logger.educational ("Modules run: " ++ String.concat ", " (fst lists))) ;;
        emit (logger.educational ("Modules succeeded: " ++ names_or_none (snd lists))) ;;
        emit (logger.educational ("Logs saved to: " ++ log_dir args ++ "/")) ;;
        emit (logger.educational "Raw HTTP replays") ;;
        emit (logger.educational rule70) ;;
        ret 0%Z.

(** [main()] from the construction of the target on; [setup] is what
    creating the logger and the request recorder in [args.log_dir] does. *)
Definition run (net : Net) (env : Env) (setup : unit + exn) (args : Args)
    (tagline : string) : M Z :=
  let target := TargetConfig.init (host args) (port args) (https args) in
  let target := if confirm_target args then TargetConfig.confirm_target target else target in
  _ <- lift_sum setup ;;
  try_except_finally
    (session net env args target tagline)
    (emit (logger.educational "Operation cancelled by user") ;;
     emit (logger.operational "User interrupted with Ctrl+C" INFO) ;;
     ret 130%Z)
    (fun e =>
       emit (logger.educational ("Unexpected error: " ++ exn_str e)) ;;
       emit (logger.operational ("Unexpected error: " ++ exn_str e) ERROR) ;;
       emit (logger.operational "traceback" ERROR) ;;
       ret 1%Z)
    logger_close.

(** [main()], the exit status. *)
Definition main (net : Net) (env : Env) (setup : unit + exn) (tagline : string)
    (args : Args) : M Z :=
  if negb (skip_banner args) then
    tagline <- display_safety_banner tagline ;;
    confirmed <- confirm_authorization ;;
    if negb confirmed then
      print "Authorization not confirmed. Exiting." ;;
      ret 1%Z
    else run net env setup args tagline
  else run net env setup args tagline.

(** The target [main] works on. *)
Definition target_of (args : Args) : TargetConfig.t :=
  let target := TargetConfig.init (host args) (port args) (https args) in
  if confirm_target args then TargetConfig.confirm_target target else target.

End Cli.

(* ================================================================== *)
(** * Facts about str.strip *)
(* ================================================================== *)

Section StripFacts.

Fixpoint all_space (s : string) : bool :=
  match s with
  | EmptyString => true
  | String c s' => PyStr.is_space c && all_space s'
  end.

Lemma rev_append (a b : string) : PyStr.rev (a ++ b) = PyStr.rev b ++ PyStr.rev a.
Proof.
  induction a as [|c a IH]; cbn.
  - now rewrite append_nil_r.
  - now rewrite IH, append_assoc.
Qed.

Lemma rev_involutive (s : string) : PyStr.rev (PyStr.rev s) = s.
Proof.
  induction s as [|c s IH]; cbn; [reflexivity|].
  now rewrite rev_append, IH.
Qed.

Lemma all_space_append (a b : string) :
  all_space (a ++ b) = all_space a && all_space b.
Proof.
  induction a as [|c a IH]; cbn; [reflexivity|].
  now rewrite IH, andb_assoc.
Qed.

Lemma all_space_rev (s : string) : all_space (PyStr.rev s) = all_space s.
Proof.
  induction s as [|c s IH]; cbn; [reflexivity|].
  rewrite all_space_append, IH. cbn. rewrite andb_true_r. apply andb_comm.
Qed.

Lemma lstrip_ws_spaces (l s : string) :
  all_space l = true -> PyStr.lstrip_ws (l ++ s) = PyStr.lstrip_ws s.
Proof.
  induction l as [|c l IH]; cbn; [reflexivity|].
  intros H. apply andb_prop in H as [Hc Hl]. rewrite Hc. auto.
Qed.

Lemma lstrip_ws_decompose (s : string) :
  exists l, all_space l = true /\ s = l ++ PyStr.lstrip_ws s.
Proof.
  induction s as [|c s (l & Hl & E)]; cbn.
  - exists EmptyString. split; reflexivity.
  - destruct (PyStr.is_space c) eqn:Hc.
    + exists (String c l). cbn. rewrite Hc, Hl. split; [reflexivity|]. now rewrite <- E.
    + exists EmptyString. split; reflexivity.
Qed.

(** [s.strip()] is [core] whenever [s] is [core] between two runs of
    white space and [core] neither starts nor ends with white space. *)
Lemma strip_core (l r core : string) (first last : ascii) (middle rest : string) :
  all_space l = true -> all_space r = true ->
  core = String first middle -> PyStr.is_space first = false ->
  PyStr.rev core = String last rest -> PyStr.is_space last = false ->
  PyStr.strip (l ++ core ++ r) = core.
Proof.
  intros Hl Hr Ecore Hfirst Erev Hlast. unfold PyStr.strip.
  rewrite (lstrip_ws_spaces l _ Hl).
  assert (E1 : PyStr.lstrip_ws (core ++ r) = core ++ r).
  { rewrite Ecore. cbn. now rewrite Hfirst. }
  rewrite E1, rev_append, lstrip_ws_spaces by now rewrite all_space_rev.
  rewrite Erev. cbn. rewrite Hlast. rewrite <- Erev. apply rev_involutive.
Qed.

(** Conversely [s] is [s.strip()] between two runs of white space. *)
Lemma strip_decompose (s : string) :
  exists l r, all_space l = true /\ all_space r = true /\ s = l ++ PyStr.strip s ++ r.
Proof.
  unfold PyStr.strip.
  destruct (lstrip_ws_decompose s) as (l & Hl & El).
  destruct (lstrip_ws_decompose (PyStr.rev (PyStr.lstrip_ws s))) as (r & Hr & Er).
  exists l, (PyStr.rev r). split; [exact Hl|]. split; [now rewrite all_space_rev|].
  rewrite <- rev_append, <- Er, rev_involutive. exact El.
Qed.

(** White space and capitals outside ASCII. *)
Lemma strip_no_break_space : PyStr.strip (NBSP ++ "I AGREE" ++ NBSP) = "I AGREE".
Proof. reflexivity. Qed.

Lemma lower_latin_capital :
  PyStr.lower (E_ACUTE ++ "LEV" ++ E_ACUTE) = e_acute ++ "lev" ++ e_acute.
Proof. reflexivity. Qed.

End StripFacts.

Lemma agrees_spec (s : string) (rest : list Input) :
  agrees (Line s :: rest) = true
  <-> exists l r, all_space l = true /\ all_space r = true /\ s = l ++ "I AGREE" ++ r.
Proof.
  cbn [agrees]. rewrite String.eqb_eq. split.
  - intros E. destruct (strip_decompose s) as (l & r & Hl & Hr & Es).
    exists l, r. rewrite E in Es. auto.
  - intros (l & r & Hl & Hr & ->).
    eapply strip_core; eauto; reflexivity.
Qed.



(** Closes a case of a statement about results by reading the equations
    between them. *)
Ltac settle :=
  intros;
  repeat match goal with
         | H : _ /\ _ |- _ => destruct H
         | H : exists _, _ |- _ => destruct H
         | H : @eq (_ + _) _ _ |- _ => first [discriminate H | injection H as H; subst]
         | H : @eq (Result _) _ _ |- _ => first [discriminate H | injection H; intros; subst; clear H]
         | |- _ <-> _ => split; intros
         end;
  try discriminate; try congruence; eauto.

Section ValidatorTheorems.

Import Validators.

Variable net : Net.

(** X2. check_target_reachability calls requests.get once: one GET of
    the base URL goes out, unless the URL cannot be prepared, and then
    none does.  It reports the target reachable exactly when a response
    came back with status 200, and then with no message; a response with
    any other status is reported unreachable with the message HTTP and
    the status; a connection error, a timeout and any other
    RequestException (an invalid URL among them) are reported unreachable
    with their message, none is raised; only an exception outside that
    hierarchy comes out.  Nothing is logged and no answer is read. *)
Theorem X2_check_target_reachability (base_url : string) (timeout : Z) (w : World) :
  let out := check_target_reachability net base_url timeout w in
  let requests := fst (requests_get net (wire w) base_url) in
  let answer := snd (requests_get net (wire w) base_url) in
  wire (snd out) = (wire w ++ requests)%list
  /\ (requests = [] <-> exists failure, requests_prepare net base_url = inr failure)
  /\ (requests <> [] -> requests = [mkRequest "GET" base_url None None])
  /\ log (snd out) = log w /\ stdin (snd out) = stdin w
  /\ (forall error,
        fst out = Val (true, error)
        <-> error = None /\ exists r, answer = inl r /\ status_code r = 200%Z)
  /\ (forall r, answer = inl r -> status_code r <> 200%Z ->
                fst out = Val (false, Some ("HTTP " ++ PyStr.of_int (status_code r))))
  /\ (answer = inr ConnectionError ->
      fst out = Val (false, Some "Connection refused - is DVWA running?"))
  /\ (answer = inr Timeout ->
      fst out = Val (false,
                     Some ("Request timed out after " ++ PyStr.of_int timeout ++ " seconds")))
  /\ (forall message, answer = inr (OtherRequestException message) ->
                      fst out = Val (false, Some message))
  /\ (forall b error, fst out = Val (b, error) -> (b = false <-> error <> None))
  /\ (forall e, fst out = Raise e <-> answer = inr (Uncaught e)).
Proof.
  cbv zeta. rewrite check_target_reachability_run. cbn [fst snd wire log stdin].
  split; [reflexivity|]. split; [|split].
  { unfold requests_get. destruct (requests_prepare net base_url) as [u|failure]; cbn [fst].
    - split; [discriminate | intros [failure [=]]].
    - split; [eauto | reflexivity]. }
  { destruct (requests_get_sends net (wire w) base_url) as [-> | ->];
      [intros N; now contradiction N | reflexivity]. }
  split; [reflexivity|]. split; [reflexivity|].
  destruct (snd (requests_get net (wire w) base_url)) as [r|[| |message|e]] eqn:Answer;
    cbn [reachability].
  - destruct (status_code r =? 200)%Z eqn:S;
      [apply Z.eqb_eq in S | apply Z.eqb_neq in S];
      repeat match goal with |- _ /\ _ => split end; settle.
  - repeat match goal with |- _ /\ _ => split end; settle.
  - repeat match goal with |- _ /\ _ => split end; settle.
  - repeat match goal with |- _ /\ _ => split end; settle.
  - repeat match goal with |- _ /\ _ => split end; settle.
Qed.

(** What [preflight_check] does, by cases. *)
Lemma preflight_check_run (target : TargetConfig.t) (w : World) :
  let out := preflight_check net target w in
  let got := requests_get net (wire w) (TargetConfig.base_url target) in
  if TargetConfig.is_safe_target target then
    wire (snd out) = (wire w ++ fst got)%list
    /\ stdin (snd out) = stdin w
    /\ match snd got with
       | inl r =>
           if (status_code r =? 200)%Z then fst out = Val (true, None)
           else exists message, fst out = Val (false, Some message)
       | inr (Uncaught e) => fst out = Raise e
       | inr _ => exists message, fst out = Val (false, Some message)
       end
  else
    wire (snd out) = wire w
    /\ stdin (snd out) = stdin w
    /\ exists message, fst out = Val (false, Some message).
Proof.
  cbv zeta. unfold preflight_check.
  destruct (TargetConfig.is_safe_target target); cbn [negb].
  - cbv [bind emit ret]. cbn [wire log stdin recorded session_headers fst snd].
    rewrite check_target_reachability_run.
    cbn [wire log stdin recorded session_headers fst snd].
    destruct (snd (requests_get net (wire w) (TargetConfig.base_url target)))
      as [r|[| |message|e]]; cbn [reachability].
    + destruct (status_code r =? 200)%Z; cbn; eauto.
    + cbn; eauto.
    + cbn; eauto.
    + cbn; eauto.
    + cbn; eauto.
  - cbv [bind emit ret]. cbn. eauto.
Qed.

(** X3. preflight_check contacts the target only if it passes
    is_safe_target: for an unsafe target it returns failure with a message
    and sends nothing.  For a safe one it makes the one call of
    requests.get of the reachability check, which sends the GET of the
    base URL when the URL can be prepared.  It reports success, and then
    no message, exactly when the target is safe and that GET was sent and
    answered with status 200. *)
Theorem X3_preflight_check (target : TargetConfig.t) (w : World) :
  let out := preflight_check net target w in
  let got := requests_get net (wire w) (TargetConfig.base_url target) in
  (TargetConfig.is_safe_target target = false ->
   wire (snd out) = wire w /\ exists message, fst out = Val (false, Some message))
  /\ (TargetConfig.is_safe_target target = true ->
      wire (snd out) = (wire w ++ fst got)%list
      /\ (fst got = [] \/ fst got = [reach_request target]))
  /\ (forall error,
        fst out = Val (true, error)
        <-> error = None
            /\ TargetConfig.is_safe_target target = true
            /\ exists r, got = ([reach_request target], inl r) /\ status_code r = 200%Z).
Proof.
  cbv zeta. pose proof (preflight_check_run target w) as Run. cbv zeta in Run.
  pose proof (requests_get_answered net (wire w) (TargetConfig.base_url target)) as Sent.
  pose proof (requests_get_sends net (wire w) (TargetConfig.base_url target)) as Sends.
  fold (reach_request target) in Sent, Sends.
  destruct (TargetConfig.is_safe_target target).
  - destruct Run as (Wire & _ & Result).
    split; [discriminate|]. split; [auto|].
    intros error.
    destruct (requests_get net (wire w) (TargetConfig.base_url target))
      as [requests [r|failure]]; cbn [fst snd] in *.
    + rewrite (Sent r eq_refl).
      destruct (status_code r =? 200)%Z eqn:S.
      * apply Z.eqb_eq in S. rewrite Result. split.
        -- intros [= <-]. eauto.
        -- intros [-> _]. reflexivity.
      * apply Z.eqb_neq in S. destruct Result as [message ->]. split; [discriminate|].
        intros (_ & _ & r' & [= <-] & E). contradiction.
    + split.
      * destruct failure as [| |m|e];
          [ destruct Result as [message ->]; discriminate
          | destruct Result as [message ->]; discriminate
          | destruct Result as [message ->]; discriminate
          | rewrite Result; discriminate ].
      * intros (_ & _ & r & [=] & _).
  - destruct Run as (Wire & _ & message & Result).
    split; [eauto|]. split; [discriminate|].
    intros error. rewrite Result. split; [discriminate | intros (_ & [=] & _)].
Qed.

End ValidatorTheorems.

(** A network double: every GET is answered with the given status. *)
Definition answering (status : Z) : Validators.Net :=
  Validators.mkNet (fun _ => inl tt)
    (fun _ url => inl (mkResponse status url "<html></html>")).

(** A network double that takes no URL with a negative port. *)
Definition strict_net : Validators.Net :=
  Validators.mkNet
    (fun url => if PyStr.contains ":-" url
                then inr (Validators.OtherRequestException "Failed to parse")
                else inl tt)
    (fun _ url => inl (mkResponse 200 url "<html></html>")).

Lemma X2_witness :
  fst (Validators.check_target_reachability (answering 404) "http://localhost" 10
         (fresh_world []))
  = Val (false, Some "HTTP 404")
  /\ wire (snd (Validators.check_target_reachability strict_net "http://localhost:-1" 10
                  (fresh_world [])))
     = [].
Proof.
  pose proof (X2_check_target_reachability (answering 404) "http://localhost" 10
                (fresh_world [])) as (_ & _ & _ & _ & _ & _ & Other & _).
  pose proof (X2_check_target_reachability strict_net "http://localhost:-1" 10
                (fresh_world [])) as (Wire & Unprepared & _).
  split.
  - apply (Other (mkResponse 404 "http://localhost" "<html></html>") eq_refl).
    discriminate.
  - rewrite Wire.
    rewrite (proj2 Unprepared
               (ex_intro _ (Validators.OtherRequestException "Failed to parse") eq_refl)).
    reflexivity.
Defined.

Lemma X3_witness :
  wire (snd (Validators.preflight_check (answering 200)
               (TargetConfig.init "example.com" 80 false) (fresh_world [])))
  = []
  /\ fst (Validators.preflight_check (answering 200)
            (TargetConfig.init "192.168.1.10" 8080 false) (fresh_world []))
     = Val (true, None).
Proof.
  pose proof (X3_preflight_check (answering 200)
                (TargetConfig.init "example.com" 80 false) (fresh_world []))
    as (Unsafe & _).
  pose proof (X3_preflight_check (answering 200)
                (TargetConfig.init "192.168.1.10" 8080 false) (fresh_world []))
    as (_ & _ & Safe).
  split.
  - exact (proj1 (Unsafe eq_refl)).
  - apply Safe. split; [reflexivity|]. split; [reflexivity|].
    exists (mkResponse 200 "http://192.168.1.10:8080" "<html></html>").
    split; reflexivity.
Defined.

(* ================================================================== *)
(** * The command line: what a session needs before it attacks *)
(* ================================================================== *)

Lemma outcome_bind_at {A B} (c : M A) (k : A -> M B) (w : World)
    (P : Result B -> World -> Prop) :
  (forall e w', c w = (Raise e, w') -> P (Raise e) w') ->
  (forall a w', c w = (Val a, w') -> outcome (k a) w' P) ->
  outcome (bind c k) w P.
Proof.
  intros HR HV. unfold outcome, bind in *.
  destruct (c w) as [[a|e] w'] eqn:E; cbn; [apply (HV a w' eq_refl) | apply (HR e w' eq_refl)].
Qed.

(** One step through code of which nothing is known but its result. *)
Ltac havoc :=
  lazymatch goal with
  | |- outcome (bind _ _) _ _ =>
      apply outcome_bind_at;
      [ let e := fresh "e" in let w := fresh "w" in intros e w _
      | let a := fresh "a" in let w := fresh "w" in intros a w _ ]
  | |- outcome (ret _) _ _ => apply outcome_ret
  | |- outcome (let (_, _) := ?p in _) _ _ => destruct p
  | |- outcome (if ?b then _ else _) _ _ => destruct b
  | |- outcome (match ?x with _ => _ end) _ _ => destruct x
  end.

Section CliFacts.

Import Validators Cli.

Variable net : Net.
Variable env : Env.

(** The exit status of [main] once the session has ended with [r]. *)
Definition exit_status (r : Result Z) : Z :=
  match r with
  | Val code => code
  | Raise KeyboardInterrupt => 130
  | Raise _ => 1
  end.

Lemma run_cases (setup : unit + exn) (args : Args) (tagline : string) (w : World) :
  let ended := session net env args (target_of args) tagline w in
  match setup with
  | inl _ =>
      fst (run net env setup args tagline w) = Val (exit_status (fst ended))
      /\ wire (snd (run net env setup args tagline w)) = wire (snd ended)
  | inr e => run net env setup args tagline w = (Raise e, w)
  end.
Proof.
  cbv zeta. unfold run. fold (target_of args).
  destruct setup as [[]|e]; [|reflexivity].
  cbn [lift_sum]. cbv [try_except_finally logger_close bind emit ret].
  destruct (session net env args (target_of args) tagline w) as [[code|e] w1];
    cbn [fst snd exit_status]; [split; reflexivity|].
  destruct e; cbn; split; reflexivity.
Qed.

Lemma session_unsafe (args : Args) (target : TargetConfig.t) (tagline : string) (w : World) :
  TargetConfig.is_safe_target target = false ->
  outcome (session net env args target tagline) w
    (fun r w' => r = Val 1%Z /\ wire w' = wire w).
Proof.
  intros Unsafe. unfold session. repeat mstep. unfold outcome at 1.
  pose proof (preflight_check_run net target w7) as Cases.
  cbv zeta in Cases. rewrite Unsafe in Cases.
  destruct Cases as (Wire & _ & message & Result).
  rewrite Result. cbv beta iota. cbn [negb].
  repeat mstep. split; [reflexivity|]. congruence.
Qed.

(** The session returns 0 or 1, when it returns. *)
Lemma session_codes (args : Args) (target : TargetConfig.t) (tagline : string) (w : World) :
  outcome (session net env args target tagline) w
    (fun r _ => forall code, r = Val code -> code = 0%Z \/ code = 1%Z).
Proof.
  unfold session, run_module, run_dom.
  repeat (first [ havoc | progress cbv beta iota zeta ]);
    try (intros code [=]; fail);
    intros code [= <-]; auto.
Qed.

(** The page that shows the target to be DVWA. *)
Definition shows_dvwa (page : Response) : bool :=
  (status_code page =? 200)%Z
  && (PyStr.contains "Damn Vulnerable Web Application" (text page)
      || PyStr.contains "DVWA" (text page)).

Lemma verify_dvwa_presence_cases (auth : DVWAAuthenticator.t) (w : World) :
  let out := DVWAAuthenticator.verify_dvwa_presence env auth w in
  let answer := exchange env (AuthSpec.login_page_request auth) (wire w) in
  wire (snd out) = (wire w ++ fst answer)%list
  /\ match snd answer with
     | inl page =>
         exists version,
           fst out = Val (shows_dvwa page, version)
           /\ (shows_dvwa page = true ->
               version = match re_search_version env (text page) with
                         | Some group1 => group1
                         | None => "unknown"
                         end)
     | inr e =>
         if is_RequestException e then fst out = Val (false, exn_str e)
         else fst out = Raise e
     end.
Proof.
  cbv zeta.
  cbv [DVWAAuthenticator.verify_dvwa_presence AuthSpec.login_page_request exchange
       shows_dvwa bind try_except emit ret raise session_get session_request
       session_send lift_sum].
  cbn [wire log stdin recorded session_headers fst snd].
  destruct (prepare_request env _) as [u|e];
    cbn [wire log stdin recorded session_headers fst snd].
  2:{ split; [destruct (is_RequestException e); cbn; now rewrite app_nil_r|].
      destruct (is_RequestException e); reflexivity. }
  destruct (transport env (wire w) _) as [page|e];
    cbn [wire log stdin recorded session_headers fst snd].
  2:{ split; destruct (is_RequestException e); reflexivity. }
  destruct (status_code page =? 200)%Z; cbn [negb andb].
  2:{ split; [reflexivity|]. eexists. split; [reflexivity | discriminate]. }
  destruct (PyStr.contains "Damn Vulnerable Web Application" (text page)
            || PyStr.contains "DVWA" (text page)).
  - split; [reflexivity|]. eexists. split; reflexivity.
  - split; [reflexivity|]. eexists. split; [reflexivity | discriminate].
Qed.

(** What a session that ends with status 0 has met on its way, the
    history of each request being the requests sent before it: the
    reachability GET, sent first, was answered with status 200; the GET of
    the login page, sent second, showed DVWA; the login that follows
    succeeded. *)
Definition passed_checks (args : Args) (target : TargetConfig.t) (history : list Request)
    : Prop :=
  let auth := DVWAAuthenticator.init (TargetConfig.base_url target) in
  let h1 := (history ++ [reach_request target])%list in
  let h2 := (h1 ++ [AuthSpec.login_page_request auth])%list in
  TargetConfig.is_safe_target target = true
  /\ (exists r,
         requests_get net history (TargetConfig.base_url target)
         = ([reach_request target], inl r)
         /\ status_code r = 200%Z)
  /\ (exists page,
         exchange env (AuthSpec.login_page_request auth) h1
         = ([AuthSpec.login_page_request auth], inl page)
         /\ shows_dvwa page = true)
  /\ (exists response,
         AuthSpec.post_login_response env auth (username args) (password args) h2
         = Some response
         /\ AuthSpec.is_login_page response = false
         /\ status_code response = 200%Z).

Lemma preflight_success (target : TargetConfig.t) (w w' : World) (error : option string) :
  preflight_check net target w = (Val (true, error), w') ->
  TargetConfig.is_safe_target target = true
  /\ wire w' = (wire w ++ [reach_request target])%list
  /\ exists r,
       requests_get net (wire w) (TargetConfig.base_url target)
       = ([reach_request target], inl r)
       /\ status_code r = 200%Z.
Proof.
  intros E.
  pose proof (preflight_check_run net target w) as Run. cbv zeta in Run.
  pose proof (requests_get_answered net (wire w) (TargetConfig.base_url target)) as Sent.
  fold (reach_request target) in Sent.
  rewrite E in Run. cbn [fst snd] in Run.
  destruct (TargetConfig.is_safe_target target).
  - destruct Run as (Wire & _ & Result). split; [reflexivity|].
    destruct (requests_get net (wire w) (TargetConfig.base_url target))
      as [requests [r|failure]]; cbn [fst snd] in *.
    + rewrite (Sent r eq_refl) in *. split; [exact Wire|].
      exists r. split; [reflexivity|].
      destruct (status_code r =? 200)%Z eqn:S; [now apply Z.eqb_eq|].
      destruct Result as [message Result]. discriminate.
    + destruct failure as [| |m|e];
        [ destruct Result as [message Result]; discriminate
        | destruct Result as [message Result]; discriminate
        | destruct Result as [message Result]; discriminate
        | discriminate ].
  - destruct Run as (_ & _ & message & Result). discriminate.
Qed.

Lemma presence_success (auth : DVWAAuthenticator.t) (w w' : World) (version : string) :
  DVWAAuthenticator.verify_dvwa_presence env auth w = (Val (true, version), w') ->
  wire w' = (wire w ++ [AuthSpec.login_page_request auth])%list
  /\ exists page,
       exchange env (AuthSpec.login_page_request auth) (wire w)
       = ([AuthSpec.login_page_request auth], inl page)
       /\ shows_dvwa page = true.
Proof.
  intros E.
  pose proof (verify_dvwa_presence_cases auth w) as [Wire Cases]. cbv zeta in Wire, Cases.
  pose proof (exchange_answered env (AuthSpec.login_page_request auth) (wire w)) as Sent.
  rewrite E in Wire, Cases. cbn [fst snd] in Wire, Cases.
  destruct (exchange env (AuthSpec.login_page_request auth) (wire w))
    as [requests [page|e]]; cbn [fst snd] in *.
  - rewrite (Sent page eq_refl) in *. split; [exact Wire|].
    exists page. split; [reflexivity|].
    destruct Cases as (version' & [= <- _] & _). reflexivity.
  - destruct (is_RequestException e); discriminate.
Qed.

Lemma login_success (auth auth' : DVWAAuthenticator.t) (username password : string)
    (w w' : World) :
  DVWAAuthenticator.login env auth username password w = (Val (true, auth'), w') ->
  exists response,
    AuthSpec.post_login_response env auth username password (wire w) = Some response
    /\ AuthSpec.is_login_page response = false
    /\ status_code response = 200%Z.
Proof.
  intros E.
  pose proof (login_cases env auth username password w) as [Iff _].
  rewrite E in Iff. cbn [fst AuthSpec.succeeded] in Iff.
  destruct (AuthSpec.post_login_response env auth username password (wire w))
    as [response|]; [|discriminate].
  exists response. split; [reflexivity|].
  symmetry in Iff. apply andb_prop in Iff as [Page Ok].
  split; [now destruct (AuthSpec.is_login_page response) | now apply Z.eqb_eq].
Qed.

(** A step over the logger, the wire kept in sight. *)
Lemma outcome_emit_at {B} (e : logger.Event) (k : unit -> M B) (w : World)
    (P : Result B -> World -> Prop) :
  (forall w', wire w' = wire w -> outcome (k tt) w' P) ->
  outcome (bind (emit e) k) w P.
Proof. intros H. unfold outcome, bind, emit. cbn. apply H. reflexivity. Qed.

Ltac past_emits :=
  repeat match goal with
         | |- outcome (bind (emit _) _) _ _ =>
             apply outcome_emit_at; let w := fresh "w" in let E := fresh "Wire" in intros w E
         end.

(** A session that ends with status 0 has passed the preflight check,
    found DVWA and logged in. *)
Lemma session_success (args : Args) (target : TargetConfig.t) (tagline : string)
    (w : World) :
  outcome (session net env args target tagline) w
    (fun r _ => r = Val 0%Z -> passed_checks args target (wire w)).
Proof.
  unfold session. past_emits.
  apply outcome_bind_at; [intros ? ? _; cbv beta; solve [intros; discriminate]|].
  intros [success error] checked Pre. cbv beta iota.
  destruct success; cbn [negb].
  2:{ past_emits. apply outcome_ret. discriminate. }
  apply preflight_success in Pre. destruct Pre as (Safe & Sent1 & Reach).
  past_emits. cbv zeta.
  apply outcome_bind_at; [intros ? ? _; cbv beta; solve [intros; discriminate]|].
  intros [is_dvwa version] verified Verified. cbv beta iota.
  destruct is_dvwa; cbn [negb].
  2:{ past_emits. apply outcome_ret. discriminate. }
  apply presence_success in Verified. destruct Verified as (Sent2 & Page).
  past_emits.
  apply outcome_bind_at; [intros ? ? _; cbv beta; solve [intros; discriminate]|].
  intros [ok auth'] logged Logged. cbv beta iota.
  destruct ok; cbn [negb].
  2:{ past_emits. apply outcome_ret. discriminate. }
  apply login_success in Logged.
  assert (Facts : passed_checks args target (wire w)).
  { unfold passed_checks. cbv zeta.
    repeat match goal with
           | H : wire ?x = _ |- _ => progress (rewrite H in * )
           end.
    auto. }
  clear - Facts.
  unfold run_module, run_dom.
  repeat (first [ havoc | progress cbv beta iota zeta ]);
    try solve [intros; discriminate];
    intros _; exact Facts.
Qed.

Lemma main_cases (setup : unit + exn) (tagline : string) (args : Args) (w : World) :
  let w1 := if skip_banner args then w
            else mkWorld (wire w) (log w) (tl (stdin w)) (recorded w) (session_headers w) in
  main net env setup tagline args w
  = if skip_banner args || agrees (stdin w)
    then run net env setup args tagline w1
    else (Val 1%Z, w1).
Proof.
  cbv zeta. unfold main, display_safety_banner, print.
  destruct (skip_banner args); cbn [negb orb]; [reflexivity|].
  unfold bind, ret. cbv beta iota.
  rewrite confirm_authorization_run. cbv beta iota.
  destruct (agrees (stdin w)); cbn [negb]; reflexivity.
Qed.

(** The world once the banner has been shown and the operator asked. *)
Definition after_banner (args : Args) (w : World) : World :=
  if skip_banner args then w
  else mkWorld (wire w) (log w) (tl (stdin w)) (recorded w) (session_headers w).

(** The operator has agreed, or was not asked. *)
Definition authorized (args : Args) (w : World) : bool :=
  skip_banner args || agrees (stdin w).

Lemma after_banner_wire (args : Args) (w : World) : wire (after_banner args w) = wire w.
Proof. unfold after_banner. now destruct (skip_banner args). Qed.

(** X4. main sends nothing to a target it has no leave to attack.  When
    the banner is not skipped and the operator does not type I AGREE, it
    returns 1 without a request.  When the target does not pass
    is_safe_target (after --confirm-target, if given), no request is sent
    either.  So whenever a run puts anything on the wire, the operator
    agreed or the banner was skipped, and the target is safe. *)
Theorem X4_main_gate (setup : unit + exn) (tagline : string) (args : Args) (w : World) :
  let out := main net env setup tagline args w in
  (skip_banner args = false -> agrees (stdin w) = false ->
   fst out = Val 1%Z /\ wire (snd out) = wire w)
  /\ (TargetConfig.is_safe_target (target_of args) = false -> wire (snd out) = wire w)
  /\ (wire (snd out) <> wire w ->
      authorized args w = true /\ TargetConfig.is_safe_target (target_of args) = true).
Proof.
  cbv zeta. rewrite main_cases. cbv zeta. fold (after_banner args w).
  fold (authorized args w).
  assert (Unsafe : TargetConfig.is_safe_target (target_of args) = false ->
                   wire (snd (run net env setup args tagline (after_banner args w)))
                   = wire w).
  { intros U. pose proof (run_cases setup args tagline (after_banner args w)) as R.
    cbv zeta in R. destruct setup as [u|e].
    - destruct R as [_ ->].
      pose proof (session_unsafe args (target_of args) tagline (after_banner args w) U)
        as [_ S].
      rewrite S. apply after_banner_wire.
    - rewrite R. apply after_banner_wire. }
  split; [|split].
  - intros Skip No. unfold authorized. rewrite Skip, No. cbn.
    split; [reflexivity | apply after_banner_wire].
  - intros U. destruct (authorized args w); [now apply Unsafe | apply after_banner_wire].
  - destruct (authorized args w).
    + intros Sent. split; [reflexivity|].
      destruct (TargetConfig.is_safe_target (target_of args)); [reflexivity|].
      contradiction Sent. now apply Unsafe.
    + intros Sent. contradiction Sent. apply after_banner_wire.
Qed.


(** X6. main returns 0 only if the operator agreed or the banner was
    skipped, the target passes is_safe_target, and the first three steps
    of this run went well: the reachability GET, the first request of the
    run, was sent and answered with status 200; the GET of the login page
    that follows it was answered with status 200 and a DVWA marker in its
    body; and the login that follows succeeded, its credentials POST
    answered with status 200 from a URL other than the login page. *)
Theorem X6_main_success (setup : unit + exn) (tagline : string) (args : Args)
    (w : World) :
  let out := main net env setup tagline args w in
  let target := target_of args in
  let auth := DVWAAuthenticator.init (TargetConfig.base_url target) in
  let h1 := (wire w ++ [reach_request target])%list in
  let h2 := (h1 ++ [AuthSpec.login_page_request auth])%list in
  fst out = Val 0%Z ->
  authorized args w = true
  /\ TargetConfig.is_safe_target target = true
  /\ (exists r,
         requests_get net (wire w) (TargetConfig.base_url target)
         = ([reach_request target], inl r)
         /\ status_code r = 200%Z)
  /\ (exists page,
         exchange env (AuthSpec.login_page_request auth) h1
         = ([AuthSpec.login_page_request auth], inl page)
         /\ shows_dvwa page = true)
  /\ (exists response,
         AuthSpec.post_login_response env auth (username args) (password args) h2
         = Some response
         /\ AuthSpec.is_login_page response = false
         /\ status_code response = 200%Z).
Proof.
  cbv zeta. rewrite main_cases. cbv zeta. fold (after_banner args w).
  fold (authorized args w).
  destruct (authorized args w); [|discriminate]. intros Zero.
  split; [reflexivity|].
  pose proof (run_cases setup args tagline (after_banner args w)) as R. cbv zeta in R.
  destruct setup as [u|e]; [|rewrite R in Zero; discriminate].
  destruct R as [R _]. rewrite R in Zero.
  pose proof (session_codes args (target_of args) tagline (after_banner args w)) as Codes.
  pose proof (session_success args (target_of args) tagline (after_banner args w))
    as Success.
  unfold outcome in Codes, Success.
  destruct (fst (session net env args (target_of args) tagline (after_banner args w)))
    as [code|e]; cbn in Zero.
  2:{ destruct e; discriminate. }
  injection Zero as ->.
  specialize (Success eq_refl). unfold passed_checks in Success. cbv zeta in Success.
  rewrite after_banner_wire in Success. exact Success.
Qed.

End CliFacts.

(** A lab double: every page is served with status 200 and names DVWA,
    and the credentials POST lands on index.php when the password is
    [password], on login.php otherwise. *)
Definition lab_double : Env :=
  stub_env (fun _ r =>
    if String.eqb (method r) "GET"
    then inl (mkResponse 200 (req_url r) "<title>DVWA</title>")
    else
      match data r with
      | Some form =>
          if match dict_get form "password" with
             | Some p => String.eqb p "password"
             | None => false
             end
          then inl (mkResponse 200 "http://localhost/index.php" "Welcome to DVWA")
          else inl (mkResponse 200 "http://localhost/login.php" "Login failed")
      | None => inl (mkResponse 200 (req_url r) "no form")
      end).

(** A target double whose every request ends in the given exception. *)
Definition failing_double (e : exn) : Env := stub_env (fun _ _ => inr e).

(** The arguments of [--mode dom --no-interactive --skip-banner]. *)
Definition dom_args : Cli.Args :=
  Cli.mkArgs Cli.mode_dom "localhost" 80 false "admin" "password" None true "logs"
    false true.

(** The same against a host outside the lab. *)
Definition remote_args : Cli.Args :=
  Cli.mkArgs Cli.mode_all "example.com" 80 false "admin" "password" None true "logs"
    false true.

Lemma X4_witness :
  wire (snd (Cli.main (answering 200) lab_double (inl tt) "tagline" remote_args
               (fresh_world [])))
  = []
  /\ fst (Cli.main (answering 200) lab_double (inl tt) "tagline" Cli.default_args
            (fresh_world [Line ("I AGREE" ++ NBSP ++ "!")]))
     = Val 1%Z.
Proof.
  pose proof (X4_main_gate (answering 200) lab_double (inl tt) "tagline" remote_args
                (fresh_world [])) as (_ & Unsafe & _).
  pose proof (X4_main_gate (answering 200) lab_double (inl tt) "tagline" Cli.default_args
                (fresh_world [Line ("I AGREE" ++ NBSP ++ "!")])) as (Refused & _).
  split.
  - exact (Unsafe eq_refl).
  - exact (proj1 (Refused eq_refl eq_refl)).
Defined.


Lemma X6_witness :
  authorized dom_args (fresh_world []) = true
  /\ TargetConfig.is_safe_target (Cli.target_of dom_args) = true
  /\ exists response,
       AuthSpec.post_login_response lab_double
         (DVWAAuthenticator.init (TargetConfig.base_url (Cli.target_of dom_args)))
         "admin" "password"
         [reach_request (Cli.target_of dom_args);
          AuthSpec.login_page_request
            (DVWAAuthenticator.init (TargetConfig.base_url (Cli.target_of dom_args)))]
       = Some response
       /\ AuthSpec.is_login_page response = false
       /\ status_code response = 200%Z.
Proof.
  assert (Zero : fst (Cli.main (answering 200) lab_double (inl tt) "tagline" dom_args
                        (fresh_world []))
                 = Val 0%Z) by (vm_compute; reflexivity).
  pose proof (X6_main_success (answering 200) lab_double (inl tt) "tagline" dom_args
                (fresh_world []) Zero) as (Authorized & Safe & _ & _ & Logged).
  split; [exact Authorized|]. split; [exact Safe | exact Logged].
Defined.

(* ================================================================== *)
(** * The authenticator: security level, tokens, presence *)
(* ================================================================== *)

Module SecuritySpec.

Import DVWAAuthenticator.

(** The levels [set_security_level] accepts. *)
Definition LEVELS : list string := ["low"; "medium"; "high"; "impossible"].

(** The GET of the security page. *)
Definition security_page (self : t) : Request :=
  mkRequest "GET" (base_url self ++ "/security.php") None None.

(** The form that sets [level], with the token of [page] if it has one. *)
Definition level_form (env : Env) (level : string) (page : Response) : dict :=
  let data := [("security", level); ("seclev_submit", "Submit")] in
  match _extract_csrf_token env (text page) with
  | Some token => (data ++ [("user_token", token)])%list
  | None => data
  end.

Definition level_request (env : Env) (self : t) (level : string) (page : Response)
    : Request :=
  mkRequest "POST" (base_url self ++ "/security.php") None
    (Some (level_form env level page)).

(** The object once it has recorded [level]. *)
Definition with_level (self : t) (level : string) : t :=
  mk (base_url self) (Some level) (_logged_in self).

(** The level the security page shows: the value of the selected option
    when there is one, else what the pattern finds, in lower case. *)
Definition shown_level (env : Env) (page : Response) : option string :=
  match soup_find_selected_option env (text page) with
  | Some value => Some (PyStr.lower match value with Some v => v | None => "" end)
  | None =>
      match re_search_level env (text page) with
      | Some group1 => Some (PyStr.lower group1)
      | None => None
      end
  end.

End SecuritySpec.

(** A target double that answers every request with the given status. *)
Definition answering_env (status : Z) : Env :=
  stub_env (fun _ r => inl (mkResponse status (req_url r) "Not Found")).

Section SecurityLevel.

Import DVWAAuthenticator SecuritySpec.

Variable env : Env.

Lemma not_Exception_is_interrupt (e : exn) : is_Exception e = false -> e = KeyboardInterrupt.
Proof. destruct e; cbn; congruence. Qed.

(** X7. set_security_level refuses without a request when the object is
    not logged in or the level, in lower case, is not one of low, medium,
    high, impossible: it returns false and leaves the object as it was.
    It returns true only after the GET of the security page and the POST
    of the form, carrying the level in lower case, were both answered and
    the POST with status 200; the object then records the lower-case
    level.  A false result never changes the object, and no exception
    other than KeyboardInterrupt comes out. *)
Theorem X7_set_security_level (self : t) (level : string) (w : World) :
  let out := set_security_level env self level w in
  let wanted := PyStr.lower level in
  (_logged_in self = false \/ PyStr.mem wanted LEVELS = false ->
   fst out = Val (false, self) /\ wire (snd out) = wire w)
  /\ (forall self',
        fst out = Val (true, self') ->
        _logged_in self = true
        /\ PyStr.mem wanted LEVELS = true
        /\ self' = with_level self wanted
        /\ exists page response,
             snd (exchange env (security_page self) (wire w)) = inl page
             /\ snd (exchange env (level_request env self wanted page)
                       (wire w ++ [security_page self])%list) = inl response
             /\ status_code response = 200%Z
             /\ wire (snd out)
                = (wire w ++ [security_page self; level_request env self wanted page])%list)
  /\ (forall self', fst out = Val (false, self') -> self' = self)
  /\ (forall e, fst out = Raise e -> e = KeyboardInterrupt).
Proof.
  cbv zeta. unfold set_security_level, LEVELS.
  destruct (_logged_in self) eqn:L; cbn [negb].
  2:{ cbv [bind emit ret]. cbn [fst snd wire].
      split; [auto|]. split; [discriminate|]. split; [|discriminate].
      intros self' [= <-]. reflexivity. }
  destruct (PyStr.mem (PyStr.lower level) ["low"; "medium"; "high"; "impossible"]) eqn:V;
    cbn [negb].
  2:{ cbv [bind emit ret]. cbn [fst snd wire].
      split; [auto|]. split; [discriminate|]. split; [|discriminate].
      intros self' [= <-]. reflexivity. }
  split; [intros [N|N]; discriminate|].
  cbv [security_page level_request level_form with_level exchange
       bind try_except emit ret raise session_get session_post session_request
       session_send lift_sum].
  cbn [wire log stdin recorded session_headers fst snd].
  destruct (prepare_request env _) as [u1|e1];
    cbn [wire log stdin recorded session_headers fst snd].
  2:{ destruct (is_Exception e1) eqn:E; cbn [fst snd].
      - split; [discriminate|]. split; [intros s [= <-]; reflexivity | discriminate].
      - split; [discriminate|]. split; [discriminate|].
        intros e [= <-]. now apply not_Exception_is_interrupt. }
  destruct (transport env (wire w) _) as [page|e1];
    cbn [wire log stdin recorded session_headers fst snd].
  2:{ destruct (is_Exception e1) eqn:E; cbn [fst snd].
      - split; [discriminate|]. split; [intros s [= <-]; reflexivity | discriminate].
      - split; [discriminate|]. split; [discriminate|].
        intros e [= <-]. now apply not_Exception_is_interrupt. }
  set (form := match _extract_csrf_token env (text page) with
               | Some token =>
                   ([("security", PyStr.lower level); ("seclev_submit", "Submit")]
                    ++ [("user_token", token)])%list
               | None => [("security", PyStr.lower level); ("seclev_submit", "Submit")]
               end).
  destruct (prepare_request env _) as [u2|e2] eqn:P2;
    cbn [wire log stdin recorded session_headers fst snd].
  2:{ destruct (is_Exception e2) eqn:E; cbn [fst snd].
      - split; [discriminate|]. split; [intros s [= <-]; reflexivity | discriminate].
      - split; [discriminate|]. split; [discriminate|].
        intros e [= <-]. now apply not_Exception_is_interrupt. }
  destruct (transport env _ _) as [response|e2] eqn:T2;
    cbn [wire log stdin recorded session_headers fst snd].
  2:{ destruct (is_Exception e2) eqn:E; cbn [fst snd].
      - split; [discriminate|]. split; [intros s [= <-]; reflexivity | discriminate].
      - split; [discriminate|]. split; [discriminate|].
        intros e [= <-]. now apply not_Exception_is_interrupt. }
  destruct (status_code response =? 200)%Z eqn:S; cbn [fst snd wire].
  - apply Z.eqb_eq in S. split; [|split; discriminate].
    intros self' [= <-]. split; [reflexivity|]. split; [reflexivity|].
    split; [now rewrite L|].
    exists page, response. subst form.
    match goal with
    | |- context [prepare_request env ?r] =>
        replace (prepare_request env r) with (@inl string exn u2)
          by (symmetry; exact P2)
    end.
    cbn [fst snd].
    match goal with
    | |- context [transport env ?h ?r] =>
        replace (transport env h r) with (@inl Response exn response)
          by (symmetry; exact T2)
    end.
    split; [reflexivity|]. split; [reflexivity|].
    split; [exact S|]. now rewrite <- app_assoc.
  - split; [discriminate|]. split; [intros s [= <-]; reflexivity | discriminate].
Qed.

(** X8. detect_security_level returns a level only when the object is
    logged in and the one GET of the security page was answered with
    status 200: the level is then the value of the selected option, or
    failing that what the pattern finds, in lower case, and the object
    records it.  When it returns None the object is unchanged.  A
    logged-in object sends exactly that one GET, and no exception other
    than KeyboardInterrupt comes out. *)
Theorem X8_detect_security_level (self : t) (w : World) :
  let out := detect_security_level env self w in
  let answer := exchange env (security_page self) (wire w) in
  (forall level self',
      fst out = Val (Some level, self') ->
      _logged_in self = true
      /\ self' = with_level self level
      /\ exists page,
           snd answer = inl page
           /\ status_code page = 200%Z
           /\ shown_level env page = Some level)
  /\ (forall self', fst out = Val (None, self') -> self' = self)
  /\ (forall page,
        _logged_in self = true -> snd answer = inl page -> status_code page = 200%Z ->
        fst out = Val (shown_level env page,
                       match shown_level env page with
                       | Some level => with_level self level
                       | None => self
                       end))
  /\ (_logged_in self = true -> wire (snd out) = (wire w ++ fst answer)%list)
  /\ (forall e, fst out = Raise e -> e = KeyboardInterrupt).
Proof.
  cbv zeta. unfold detect_security_level.
  destruct (_logged_in self) eqn:L; cbn [negb].
  2:{ cbv [bind emit ret]. cbn [fst snd wire].
      split; [discriminate|]. split; [intros s [= <-]; reflexivity|].
      split; [discriminate|]. split; discriminate. }
  cbv [security_page with_level shown_level exchange
       bind try_except emit ret raise session_get session_request
       session_send lift_sum].
  cbn [wire log stdin recorded session_headers fst snd].
  destruct (prepare_request env _) as [u1|e1];
    cbn [wire log stdin recorded session_headers fst snd].
  2:{ destruct (is_Exception e1) eqn:E; cbn [fst snd wire].
      - split; [discriminate|]. split; [intros s [= <-]; reflexivity|].
        split; [discriminate|]. split; [intros _; now rewrite app_nil_r | discriminate].
      - split; [discriminate|]. split; [discriminate|].
        split; [discriminate|]. split; [intros _; now rewrite app_nil_r|].
        intros e [= <-]. now apply not_Exception_is_interrupt. }
  destruct (transport env (wire w) _) as [page|e1];
    cbn [wire log stdin recorded session_headers fst snd].
  2:{ destruct (is_Exception e1) eqn:E; cbn [fst snd wire].
      - split; [discriminate|]. split; [intros s [= <-]; reflexivity|].
        split; [discriminate|]. split; [reflexivity | discriminate].
      - split; [discriminate|]. split; [discriminate|].
        split; [discriminate|]. split; [reflexivity|].
        intros e [= <-]. now apply not_Exception_is_interrupt. }
  destruct (status_code page =? 200)%Z eqn:S; cbn [negb fst snd wire].
  2:{ apply Z.eqb_neq in S.
      split; [discriminate|]. split; [intros s [= <-]; reflexivity|].
      split; [intros page' _ [= <-] S'; contradiction|].
      split; [reflexivity | discriminate]. }
  apply Z.eqb_eq in S.
  destruct (soup_find_selected_option env (text page)) as [value|] eqn:Sel;
    [|destruct (re_search_level env (text page)) as [group1|] eqn:Re];
    cbn [fst snd wire].
  - split.
    { intros level self' [= <- <-]. split; [reflexivity|]. split; [now rewrite L|].
      exists page. rewrite ?Sel, ?Re. auto. }
    split; [discriminate|].
    split; [intros page' _ [= <-] _; rewrite ?Sel, ?Re, ?L; reflexivity|].
    split; [reflexivity | discriminate].
  - split.
    { intros level self' [= <- <-]. split; [reflexivity|]. split; [now rewrite L|].
      exists page. rewrite ?Sel, ?Re. auto. }
    split; [discriminate|].
    split; [intros page' _ [= <-] _; rewrite ?Sel, ?Re, ?L; reflexivity|].
    split; [reflexivity | discriminate].
  - split; [discriminate|]. split; [intros s [= <-]; reflexivity|].
    split; [intros page' _ [= <-] _; rewrite ?Sel, ?Re, ?L; reflexivity|].
    split; [reflexivity | discriminate].
Qed.

(** [_extract_csrf_token] never gives an empty token. *)
Lemma extract_csrf_token_nonempty (html token : string) :
  _extract_csrf_token env html = Some token ->
  token <> EmptyString
  /\ soup_find_input env html "user_token" = Some (Some token).
Proof.
  unfold _extract_csrf_token.
  destruct (soup_find_input env html "user_token") as [[value|]|]; try discriminate.
  destruct (String.eqb_spec value ""); [discriminate|].
  intros [= <-]. auto.
Qed.

(** X9. get_csrf_token sends one GET of the URL.  It returns a token
    only when that GET was answered with status 200 and the page has an
    input named user_token with a value that is not empty; any other
    status gives None.  No exception other than KeyboardInterrupt comes
    out. *)
Theorem X9_get_csrf_token (url : string) (w : World) :
  let out := get_csrf_token env url w in
  let answer := exchange env (mkRequest "GET" url None None) (wire w) in
  wire (snd out) = (wire w ++ fst answer)%list
  /\ (forall token,
        fst out = Val (Some token) ->
        token <> EmptyString
        /\ exists page,
             snd answer = inl page
             /\ status_code page = 200%Z
             /\ soup_find_input env (text page) "user_token" = Some (Some token))
  /\ (forall page, snd answer = inl page -> status_code page <> 200%Z ->
                   fst out = Val None)
  /\ (forall e, fst out = Raise e -> e = KeyboardInterrupt).
Proof.
  cbv zeta.
  cbv [get_csrf_token exchange bind try_except emit ret raise session_get
       session_request session_send lift_sum].
  cbn [wire log stdin recorded session_headers fst snd].
  destruct (prepare_request env _) as [u1|e1];
    cbn [wire log stdin recorded session_headers fst snd].
  2:{ destruct (is_Exception e1) eqn:E; cbn [fst snd wire].
      - split; [now rewrite app_nil_r|]. split; [discriminate|].
        split; discriminate.
      - split; [now rewrite app_nil_r|]. split; [discriminate|].
        split; [discriminate|].
        intros e [= <-]. now apply not_Exception_is_interrupt. }
  destruct (transport env (wire w) _) as [page|e1];
    cbn [wire log stdin recorded session_headers fst snd].
  2:{ destruct (is_Exception e1) eqn:E; cbn [fst snd wire].
      - split; [reflexivity|]. split; [discriminate|]. split; discriminate.
      - split; [reflexivity|]. split; [discriminate|]. split; [discriminate|].
        intros e [= <-]. now apply not_Exception_is_interrupt. }
  destruct (status_code page =? 200)%Z eqn:S; cbn [fst snd wire].
  - apply Z.eqb_eq in S. split; [reflexivity|]. split.
    + intros token [= E]. apply extract_csrf_token_nonempty in E as [N F].
      split; [exact N|]. exists page. auto.
    + split; [|discriminate]. intros page' [= <-] N. contradiction.
  - split; [reflexivity|]. split; [discriminate|].
    split; [reflexivity | discriminate].
Qed.

End SecurityLevel.

Section Presence.

Import DVWAAuthenticator.

Variable env : Env.

(** X10. verify_dvwa_presence sends one GET of the login page, whether
    the object is logged in or not.  It returns true only when the page
    came back with status 200 and holds Damn Vulnerable Web Application or
    DVWA, the version being what the pattern finds, unknown when it finds
    nothing.  A RequestException is reported as (False, its text), not
    raised. *)
Theorem X10_verify_dvwa_presence (self : t) (w : World) :
  let out := verify_dvwa_presence env self w in
  let answer := exchange env (AuthSpec.login_page_request self) (wire w) in
  wire (snd out) = (wire w ++ fst answer)%list
  /\ (forall version,
        fst out = Val (true, version) ->
        exists page,
          snd answer = inl page
          /\ shows_dvwa page = true
          /\ version = match re_search_version env (text page) with
                       | Some group1 => group1
                       | None => "unknown"
                       end)
  /\ (forall page, snd answer = inl page -> shows_dvwa page = true ->
                   exists version, fst out = Val (true, version))
  /\ (forall e, snd answer = inr e -> is_RequestException e = true ->
                fst out = Val (false, exn_str e))
  /\ propagates_transport_error (fst out) = false.
Proof.
  cbv zeta. pose proof (verify_dvwa_presence_cases env self w) as [Wire Cases].
  cbv zeta in Cases.
  split; [exact Wire|].
  destruct (snd (exchange env (AuthSpec.login_page_request self) (wire w))) as [page|e].
  - destruct Cases as (version & Result & Version). rewrite Result.
    split; [|split; [|split]].
    + intros version' [= Shows <-]. exists page. auto.
    + intros page' [= <-] Shows. rewrite Shows. eauto.
    + discriminate.
    + reflexivity.
  - destruct (is_RequestException e) eqn:R; rewrite Cases.
    + split; [discriminate|]. split; [discriminate|].
      split; [intros e' [= <-] _; reflexivity | reflexivity].
    + split; [discriminate|]. split; [discriminate|].
      split; [intros e' [= <-]; congruence | exact R].
Qed.

(** What login puts on the wire. *)
Lemma login_sends (self : t) (username password : string) (w : World) :
  let first := exchange env (AuthSpec.login_page_request self) (wire w) in
  wire (snd (login env self username password w))
  = (wire w ++ fst first
     ++ match snd first with
        | inl page =>
            if (status_code page =? 200)%Z
            then fst (exchange env
                        (AuthSpec.credentials_request env self username password page)
                        (wire w ++ fst first))
            else []
        | inr _ => []
        end)%list.
Proof.
  cbv [login AuthSpec.login_page_request AuthSpec.credentials_request exchange
       bind try_except emit ret raise session_get session_post session_request
       session_send lift_sum].
  cbn [wire log stdin recorded session_headers fst snd].
  destruct (prepare_request env _) as [u1|e1];
    cbn [wire log stdin recorded session_headers fst snd].
  2:{ destruct (is_RequestException e1); cbn; rewrite ?app_nil_r; reflexivity. }
  destruct (transport env (wire w) _) as [page|e1];
    cbn [wire log stdin recorded session_headers fst snd].
  2:{ destruct (is_RequestException e1); cbn; rewrite ?app_nil_r; reflexivity. }
  destruct (status_code page =? 200)%Z; cbn [negb wire log stdin recorded session_headers fst snd].
  2:{ cbn. rewrite ?app_nil_r. reflexivity. }
  destruct (_extract_csrf_token env (text page)) as [token|];
    cbn [wire log stdin recorded session_headers fst snd];
    (destruct (prepare_request env _) as [u2|e2];
     cbn [wire log stdin recorded session_headers fst snd];
     [ destruct (transport env _ _) as [response|e2];
       cbn [wire log stdin recorded session_headers fst snd];
       [ destruct (negb (PyStr.contains "login.php" (url response))
                   && (status_code response =? 200)%Z);
         cbn [wire log stdin recorded session_headers fst snd];
         cbn; rewrite <- ?app_assoc, ?app_nil_r; reflexivity
       | destruct (is_RequestException e2); cbn; cbn; rewrite <- ?app_assoc, ?app_nil_r; reflexivity ]
     | destruct (is_RequestException e2); cbn; cbn; rewrite <- ?app_assoc, ?app_nil_r; reflexivity ]).
Qed.

(** X11. login sends at most two requests, both to login.php under the
    base URL: the GET of the login page and, only when that GET was
    answered with status 200, one POST.  The credentials travel in the
    form of that POST and nowhere else: the form holds the user name, the
    password and Login=Login, and a user_token field exactly when the
    login page carries a token that is not empty, with that token.  A
    transport exception is never raised by login. *)
Theorem X11_login_requests (self : t) (username password : string) (w : World) :
  let out := login env self username password w in
  let first := exchange env (AuthSpec.login_page_request self) (wire w) in
  (wire (snd out) = (wire w ++ fst first)%list
   \/ exists page,
        snd first = inl page
        /\ status_code page = 200%Z
        /\ wire (snd out)
           = (wire w ++ [AuthSpec.login_page_request self]
              ++ fst (exchange env
                        (AuthSpec.credentials_request env self username password page)
                        (wire w ++ [AuthSpec.login_page_request self])))%list)
  /\ (forall page,
        let post := AuthSpec.credentials_request env self username password page in
        method post = "POST"
        /\ req_url post = base_url self ++ "/login.php"
        /\ params post = None
        /\ exists form,
             data post = Some form
             /\ dict_get form "username" = Some username
             /\ dict_get form "password" = Some password
             /\ dict_get form "Login" = Some "Login"
             /\ dict_get form "user_token" = _extract_csrf_token env (text page)
             /\ dict_get form "user_token" <> Some EmptyString)
  /\ params (AuthSpec.login_page_request self) = None
  /\ data (AuthSpec.login_page_request self) = None
  /\ propagates_transport_error (fst out) = false.
Proof.
  cbv zeta. split; [|split; [|split; [|split]]].
  - rewrite login_sends. cbv zeta.
    pose proof (exchange_answered env (AuthSpec.login_page_request self) (wire w)) as Sent.
    destruct (exchange env (AuthSpec.login_page_request self) (wire w))
      as [sent1 [page|e]]; cbn [fst snd] in *.
    + rewrite (Sent page eq_refl).
      destruct (status_code page =? 200)%Z eqn:S.
      * right. exists page. apply Z.eqb_eq in S. auto.
      * left. now rewrite app_nil_r.
    + left. now rewrite app_nil_r.
  - intros page. unfold AuthSpec.credentials_request. cbn [method req_url params data].
    split; [reflexivity|]. split; [reflexivity|]. split; [reflexivity|].
    destruct (_extract_csrf_token env (text page)) as [token|] eqn:T.
    + eexists. split; [reflexivity|]. cbn.
      split; [reflexivity|]. split; [reflexivity|]. split; [reflexivity|].
      split; [reflexivity|].
      intros [= ->]. unfold _extract_csrf_token in T.
      destruct (soup_find_input env (text page) "user_token") as [[value|]|];
        try discriminate.
      destruct (String.eqb_spec value ""); [discriminate|]. congruence.
    + eexists. split; [reflexivity|]. cbn. repeat split; discriminate.
  - reflexivity.
  - reflexivity.
  - pose proof (login_cases env self username password w) as [_ [_ Keeps]].
    cbv [login bind try_except emit ret raise session_get session_post session_request
         session_send lift_sum].
    cbn [wire log stdin recorded session_headers fst snd].
    destruct (prepare_request env _) as [u1|e1];
      cbn [wire log stdin recorded session_headers fst snd].
    2:{ destruct (is_RequestException e1) eqn:R; cbn; [reflexivity | exact R]. }
    destruct (transport env (wire w) _) as [page|e1];
      cbn [wire log stdin recorded session_headers fst snd].
    2:{ destruct (is_RequestException e1) eqn:R; cbn; [reflexivity | exact R]. }
    destruct (status_code page =? 200)%Z;
      cbn [negb wire log stdin recorded session_headers fst snd]; [|reflexivity].
    destruct (_extract_csrf_token env (text page)) as [token|];
      cbn [wire log stdin recorded session_headers fst snd];
      (destruct (prepare_request env _) as [u2|e2];
       cbn [wire log stdin recorded session_headers fst snd];
       [ destruct (transport env _ _) as [response|e2];
         cbn [wire log stdin recorded session_headers fst snd];
         [ destruct (negb (PyStr.contains "login.php" (url response))
                     && (status_code response =? 200)%Z); reflexivity
         | destruct (is_RequestException e2) eqn:R; cbn; [reflexivity | exact R] ]
       | destruct (is_RequestException e2) eqn:R; cbn; [reflexivity | exact R] ]).
Qed.

End Presence.

Section TrailingSlashes.

Lemma rev_repeat (c : ascii) (n : nat) : PyStr.rev (PyStr.repeat c n) = PyStr.repeat c n.
Proof.
  induction n as [|n IH]; cbn; [reflexivity|]. rewrite IH.
  clear IH. induction n as [|n IH]; cbn; [reflexivity|]. now rewrite IH.
Qed.

Lemma rstrip_decompose (c : ascii) (s : string) :
  exists n, s = PyStr.rstrip c s ++ PyStr.repeat c n.
Proof.
  unfold PyStr.rstrip. destruct (lstrip_decompose c (PyStr.rev s)) as [n E].
  exists n. rewrite <- (rev_repeat c n), <- rev_append, <- E. now rewrite rev_involutive.
Qed.

Lemma rstrip_no_trailing (c : ascii) (s t : string) :
  PyStr.rstrip c s <> t ++ String c EmptyString.
Proof.
  unfold PyStr.rstrip. intros E.
  apply (f_equal PyStr.rev) in E. rewrite rev_involutive, rev_append in E.
  pose proof (lstrip_no_leading c (PyStr.rev s)) as N. rewrite E in N.
  cbn in N. destruct (ascii_dec c c); [destruct (PyStr.rev t); discriminate | congruence].
Qed.

Lemma rstrip_slashes (c : ascii) (s : string) (n : nat) :
  PyStr.rstrip c (s ++ PyStr.repeat c n) = PyStr.rstrip c s.
Proof.
  unfold PyStr.rstrip. rewrite rev_append, rev_repeat. f_equal.
  induction n as [|n IH]; cbn; [reflexivity|]. now rewrite Ascii.eqb_refl.
Qed.

(** X12. The authenticator drops every trailing slash of the base URL it
    is given and nothing else: the stored base URL never ends with a
    slash, the given URL is the stored one followed by slashes only, and
    adding slashes to the given URL changes nothing.  So the URLs it
    builds have exactly one slash before login.php. *)
Theorem X12_authenticator_base_url (url : string) :
  let self := DVWAAuthenticator.init url in
  (forall t, DVWAAuthenticator.base_url self <> t ++ "/")
  /\ (exists n, url = DVWAAuthenticator.base_url self ++ PyStr.repeat "/" n)
  /\ (forall n, DVWAAuthenticator.init (url ++ PyStr.repeat "/" n) = self)
  /\ DVWAAuthenticator._logged_in self = false
  /\ DVWAAuthenticator.security_level self = None
  /\ req_url (AuthSpec.login_page_request self)
     = DVWAAuthenticator.base_url self ++ "/login.php".
Proof.
  cbv zeta. unfold DVWAAuthenticator.init. cbn [DVWAAuthenticator.base_url
    DVWAAuthenticator._logged_in DVWAAuthenticator.security_level].
  split; [intros t; apply rstrip_no_trailing|].
  split; [apply rstrip_decompose|].
  split; [intros n; now rewrite rstrip_slashes|].
  repeat split.
Qed.

End TrailingSlashes.

Lemma X7_witness :
  let self := DVWAAuthenticator.init "http://localhost" in
  fst (DVWAAuthenticator.set_security_level lab_double self "low" (fresh_world []))
  = Val (false, self)
  /\ wire (snd (DVWAAuthenticator.set_security_level lab_double
                  (AuthSpec.authenticated self) "Extreme" (fresh_world [])))
     = [].
Proof.
  intros self.
  pose proof (X7_set_security_level lab_double self "low" (fresh_world []))
    as (Guard & _).
  pose proof (X7_set_security_level lab_double (AuthSpec.authenticated self) "Extreme"
                (fresh_world [])) as (Invalid & _).
  split.
  - exact (proj1 (Guard (or_introl eq_refl))).
  - exact (proj2 (Invalid (or_intror eq_refl))).
Defined.

(** A security page double: it shows the level High in its selected
    option. *)
Definition security_double : Env :=
  mkEnv (fun r => inl (req_url r))
        (fun _ r => inl (mkResponse 200 (req_url r) "<option selected value=High>"))
        (fun _ _ => None) (fun _ => Some (Some "High")) (fun _ => None) (fun _ => None)
        (fun _ _ => inl None).

(** The same page with the level written in capitals, an accented one
    among them. *)
Definition accent_double : Env :=
  mkEnv (fun r => inl (req_url r))
        (fun _ r => inl (mkResponse 200 (req_url r) "<option selected>"))
        (fun _ _ => None) (fun _ => Some (Some ("HIGH" ++ E_ACUTE))) (fun _ => None)
        (fun _ => None) (fun _ _ => inl None).

Lemma X8_witness :
  let self := AuthSpec.authenticated (DVWAAuthenticator.init "http://localhost") in
  fst (DVWAAuthenticator.detect_security_level security_double self (fresh_world []))
  = Val (Some "high", SecuritySpec.with_level self "high")
  /\ fst (DVWAAuthenticator.detect_security_level accent_double self (fresh_world []))
     = Val (Some ("high" ++ e_acute), SecuritySpec.with_level self ("high" ++ e_acute)).
Proof.
  intros self.
  pose proof (X8_detect_security_level security_double self (fresh_world []))
    as (_ & _ & Shown & _).
  pose proof (X8_detect_security_level accent_double self (fresh_world []))
    as (_ & _ & Accent & _).
  split.
  - exact (Shown (mkResponse 200 "http://localhost/security.php"
                    "<option selected value=High>") eq_refl eq_refl eq_refl).
  - exact (Accent (mkResponse 200 "http://localhost/security.php" "<option selected>")
             eq_refl eq_refl eq_refl).
Defined.

(** A login page double whose token input is empty. *)
Definition empty_token_double : Env :=
  mkEnv (fun r => inl (req_url r))
        (fun _ r => inl (mkResponse 200 (req_url r) "<input name=user_token value=>"))
        (fun _ _ => Some (Some EmptyString)) (fun _ => None) (fun _ => None)
        (fun _ => None) (fun _ _ => inl None).

Lemma X9_witness :
  fst (DVWAAuthenticator.get_csrf_token (answering_env 404) "http://localhost/x"
         (fresh_world []))
  = Val None.
Proof.
  pose proof (X9_get_csrf_token (answering_env 404) "http://localhost/x" (fresh_world []))
    as (_ & _ & Other & _).
  apply (Other (mkResponse 404 "http://localhost/x" "Not Found") eq_refl).
  discriminate.
Defined.

Lemma X10_witness :
  exists version,
    fst (DVWAAuthenticator.verify_dvwa_presence lab_double
           (DVWAAuthenticator.init "http://localhost") (fresh_world []))
    = Val (true, version).
Proof.
  pose proof (X10_verify_dvwa_presence lab_double
                (DVWAAuthenticator.init "http://localhost") (fresh_world []))
    as (_ & _ & Shows & _).
  exact (Shows (mkResponse 200 "http://localhost/login.php" "<title>DVWA</title>")
           eq_refl eq_refl).
Defined.

Lemma X11_witness :
  let self := DVWAAuthenticator.init "http://localhost/" in
  let page := mkResponse 200 "http://localhost/login.php" "<input name=user_token value=>" in
  exists form,
    data (AuthSpec.credentials_request empty_token_double self "admin" "password" page)
    = Some form
    /\ dict_get form "password" = Some "password"
    /\ dict_get form "user_token" = None.
Proof.
  intros self page.
  pose proof (X11_login_requests empty_token_double self "admin" "password" (fresh_world []))
    as (_ & Form & _).
  destruct (Form page) as (_ & _ & _ & form & Data & _ & Password & _ & Token & _).
  exists form. split; [exact Data|]. split; [exact Password | exact Token].
Defined.
